(** * reader3 web server: catalog cache, chapter navigation, asset paths, upload

    A shallow embedding of [server.py].  The handlers are state-passing
    functions over a [world] that holds the filesystem, the [lru_cache] of
    [load_book_cached], the list of artifact paths the loader probed on disk
    and what was printed.  Python library functions the handlers call
    ([str.endswith], [posixpath.basename], [posixpath.join],
    [posixpath.splitext], [functools.lru_cache]) are transcribed from their
    CPython definitions. *)

From Stdlib Require Import String Ascii List ZArith Lia Bool.
Import ListNotations.
Open Scope string_scope.
Open Scope Z_scope.

(** ** Python [str] operations used by the server *)

Module PyStr.

(** [len(s)] as a Python integer. *)
Definition len (s : string) : Z := Z.of_nat (String.length s).

(** [s[i:]] for any integer [i]: a negative index counts from the end and
    both ends are clipped to the string. *)
Definition slice_from (s : string) (i : Z) : string :=
  let n := len s in
  let i' := if i <? 0 then Z.max 0 (n + i) else Z.min i n in
  String.substring (Z.to_nat i') (Z.to_nat (n - i')) s.

(** [s[:j]]. *)
Definition slice_to (s : string) (j : Z) : string :=
  let n := len s in
  let j' := if j <? 0 then Z.max 0 (n + j) else Z.min j n in
  String.substring 0 (Z.to_nat j') s.

(** [s[i:i+1]]: one character as a string, empty when [i] is past the end. *)
Definition char_at (s : string) (i : Z) : string :=
  if i <? 0 then "" else String.substring (Z.to_nat i) 1 s.

(** [s.startswith(prefix)]. *)
Definition startswith (s prefix : string) : bool := String.prefix prefix s.

(** [s.endswith(suffix)]. *)
Definition endswith (s suffix : string) : bool :=
  let n := String.length s in
  let m := String.length suffix in
  if (m <=? n)%nat then String.eqb (String.substring (n - m) m s) suffix
  else false.

(** [s.rfind(c)] for a one-character needle: the highest index holding [c],
    or [-1].  [i] is the index of the head of [s], [last] the best so far. *)
Fixpoint rfind_from (c : ascii) (s : string) (i last : Z) : Z :=
  match s with
  | EmptyString => last
  | String a s' => rfind_from c s' (i + 1) (if Ascii.eqb a c then i else last)
  end.

Definition rfind (s : string) (c : ascii) : Z := rfind_from c s 0 (-1).

(** [c in s] for a character [c]. *)
Fixpoint contains (c : ascii) (s : string) : bool :=
  match s with
  | EmptyString => false
  | String a s' => Ascii.eqb a c || contains c s'
  end.

(** [sep.join(parts)]. *)
Definition join (sep : string) (parts : list string) : string :=
  String.concat sep parts.

(** [s.split(c)] on a one-character separator. *)
Fixpoint split_from (c : ascii) (s : string) (cur : string) : list string :=
  match s with
  | EmptyString => [cur]
  | String a s' =>
      if Ascii.eqb a c then cur :: split_from c s' ""
      else split_from c s' (cur ++ String a "")
  end.

Definition split (s : string) (c : ascii) : list string := split_from c s "".

End PyStr.

(** ** [posixpath] *)

Module posixpath.

Definition sep : ascii := "/"%char.
Definition extsep : ascii := "."%char.

(** [basename(p)]: [i = p.rfind('/') + 1; return p[i:]]. *)
Definition basename (p : string) : string :=
  let i := PyStr.rfind p sep + 1 in
  PyStr.slice_from p i.

(** One round of the loop of [join]: an absolute component restarts the
    path, a component after an empty path or a trailing separator is
    appended as it is, any other after a separator. *)
Definition join_step (path b : string) : string :=
  if PyStr.startswith b "/" then b
  else if String.eqb path "" || PyStr.endswith path "/" then path ++ b
  else path ++ "/" ++ b.

(** [join(a, *p)]. *)
Definition join (a : string) (p : list string) : string :=
  fold_left join_step p a.

(** The [while filenameIndex < dotIndex] loop of [genericpath._splitext]:
    [true] as soon as a character before the last dot is not a dot.
    [fuel] bounds the iterations; [dotIndex - filenameIndex] suffices. *)
Fixpoint has_nondot (p : string) (filenameIndex dotIndex : Z) (fuel : nat) : bool :=
  match fuel with
  | O => false
  | S fuel' =>
      if filenameIndex <? dotIndex then
        if negb (String.eqb (PyStr.char_at p filenameIndex) ".") then true
        else has_nondot p (filenameIndex + 1) dotIndex fuel'
      else false
  end.

(** [splitext(p)]: the extension starts at the last dot of the last
    component, leading dots of that component apart. *)
Definition splitext (p : string) : string * string :=
  let sepIndex := PyStr.rfind p sep in
  let dotIndex := PyStr.rfind p extsep in
  if (dotIndex >? sepIndex)
     && has_nondot p (sepIndex + 1) dotIndex (Z.to_nat (dotIndex - sepIndex))
  then (PyStr.slice_to p dotIndex, PyStr.slice_from p dotIndex)
  else (p, "").

End posixpath.

(** ** Data model *)

(** Modelled from the spec: the classes [BookMetadata], [ChapterContent] and
    [Book] are imported from the module [reader3], which is not among the
    sources.  The spec gives a title and an ordered list of author names, an
    opaque rendering payload per chapter, and a book as metadata plus the
    ordered spine.  They are plain data classes, so every instance is truthy. *)
Record BookMetadata := { title : string; authors : list string }.

Record ChapterContent := { payload : string }.

Record Book := { metadata : BookMetadata; spine : list ChapterContent }.

(** The framework's request object, opaque to the handlers. *)
Record Request := { url : string }.

(** What a regular file holds in the stores of this first model: a pickled
    [Book], or bytes that [pickle.load] rejects.  A file that unpickles to
    another object is the matter of [AnyPickle] further down. *)
Inductive filedata :=
| Pickled (b : Book)
| Bytes (content : string).

(** A filesystem node at a path. *)
Inductive node :=
| Absent
| Dir (children : list string)
| File (data : filedata).

Definition filesystem := string -> node.

(** One entry of the catalog page: the dict appended to [books]. *)
Record BookSummary := {
  bs_id : string;
  bs_title : string;
  bs_author : string;
  bs_chapters : Z
}.

(** The template context of the reader page. *)
Record ReaderContext := {
  rc_request : Request;
  rc_book : Book;
  rc_current_chapter : ChapterContent;
  rc_chapter_index : Z;
  rc_book_id : string;
  rc_prev_idx : option Z;
  rc_next_idx : option Z
}.

(** The JSON bodies of the upload endpoint. *)
Inductive UploadBody :=
| UploadSuccess (title' : string) (id : string)
| UploadError (error : string).

(** What a handler produces: a rendered template, an [HTTPException], a file,
    a JSON response, or an exception nobody caught. *)
Inductive response :=
| LibraryPage (request : Request) (books : list BookSummary)
| ReaderPage (context : ReaderContext)
| HTTPException (status_code : Z) (detail : string)
| FileResponse (path : string)
| JSONResponse (status_code : Z) (content : UploadBody)
| Raised (exception : string) (message : string).

(** The process state the handlers share.  [cache] is the [lru_cache] of
    [load_book_cached], most recently used entry first; [disk_reads] lists,
    latest first, the artifact paths the loader looked up on disk; [stdout]
    lists, latest first, the lines printed. *)
Record world := {
  fs : filesystem;
  cache : list (string * option Book);
  disk_reads : list string;
  stdout : list string
}.

Definition set_fs (f : filesystem) (w : world) : world :=
  {| fs := f; cache := cache w; disk_reads := disk_reads w; stdout := stdout w |}.

Definition set_cache (c : list (string * option Book)) (w : world) : world :=
  {| fs := fs w; cache := c; disk_reads := disk_reads w; stdout := stdout w |}.

Definition record_read (path : string) (w : world) : world :=
  {| fs := fs w; cache := cache w; disk_reads := path :: disk_reads w; stdout := stdout w |}.

Definition print (line : string) (w : world) : world :=
  {| fs := fs w; cache := cache w; disk_reads := disk_reads w; stdout := line :: stdout w |}.

(** A fresh process on a given filesystem. *)
Definition boot (f : filesystem) : world :=
  {| fs := f; cache := []; disk_reads := []; stdout := [] |}.

(** *** Filesystem primitives *)

Module os.

(** [os.path.exists]. *)
Definition exists_ (f : filesystem) (path : string) : bool :=
  match f path with Absent => false | _ => true end.

(** [os.path.isdir]. *)
Definition isdir (f : filesystem) (path : string) : bool :=
  match f path with Dir _ => true | _ => false end.

(** [os.listdir]: the children of a directory, or the [OSError] raised.
    Every directory of this model can be listed; [AnyPickle.listdir] has
    those that cannot. *)
Definition listdir (f : filesystem) (path : string) : (string * string) + list string :=
  match f path with
  | Dir children => inr children
  | File _ => inl ("NotADirectoryError", "[Errno 20] Not a directory: '" ++ path ++ "'")
  | Absent => inl ("FileNotFoundError", "[Errno 2] No such file or directory: '" ++ path ++ "'")
  end.

(** Writing a file at [path]. *)
Definition write (path : string) (d : filedata) (f : filesystem) : filesystem :=
  fun p => if String.eqb p path then File d else f p.

(** [os.unlink]: the filesystem without the file, or the error message when
    there is no such file. *)
Definition unlink (path : string) (f : filesystem) : string + filesystem :=
  match f path with
  | File _ => inr (fun p => if String.eqb p path then Absent else f p)
  | Dir _ => inl ("[Errno 21] Is a directory: '" ++ path ++ "'")
  | Absent => inl ("[Errno 2] No such file or directory: '" ++ path ++ "'")
  end.

End os.

(** ** [functools.lru_cache] *)

Module functools.

Section Lru.
Context {V : Type}.

(** [cache_get(key)]: the first entry under [key]. *)
Fixpoint lookup (key : string) (entries : list (string * V)) : option V :=
  match entries with
  | [] => None
  | (k, v) :: rest => if String.eqb k key then Some v else lookup key rest
  end.

(** Unlinking the entry of [key] from the queue. *)
Fixpoint unlink (key : string) (entries : list (string * V)) : list (string * V) :=
  match entries with
  | [] => []
  | (k, v) :: rest =>
      if String.eqb k key then unlink key rest else (k, v) :: unlink key rest
  end.

(** A hit moves the entry to the front of the queue. *)
Definition touch (key : string) (v : V) (entries : list (string * V)) :=
  (key, v) :: unlink key entries.

(** Storing the result of a miss: nothing when the key got in meanwhile;
    when the cache is full the oldest entry (the last here) makes room;
    otherwise the entry is added at the front. *)
Definition store (maxsize : nat) (key : string) (v : V) (entries : list (string * V)) :=
  match lookup key entries with
  | Some _ => entries
  | None =>
      if (maxsize <=? List.length entries)%nat
      then (key, v) :: removelast entries
      else (key, v) :: entries
  end.

End Lru.

End functools.

(** ** Python list indexing *)

(** [l[i]]: a negative index counts from the end; [None] stands for
    [IndexError]. *)
Definition getitem {A : Type} (l : list A) (i : Z) : option A :=
  let n := Z.of_nat (List.length l) in
  let i' := if i <? 0 then i + n else i in
  if (i' <? 0) || (n <=? i') then None else nth_error l (Z.to_nat i').

(** ** The handlers of [server.py] *)

(** A stand-in for the text of the exception [pickle.load] raises on bytes
    that are no pickle.  The handlers only print it, and no statement over
    this model depends on it; [AnyPickle] further down keeps the text of each
    exception. *)
Definition unpickling_error : string := "could not unpickle the file".

(** Arguments of a Python call by keyword. *)
Inductive pyarg :=
| ArgRequest (r : Request)
| ArgStr (s : string)
| ArgInt (z : Z).

Fixpoint kwarg (name : string) (kwargs : list (string * pyarg)) : option pyarg :=
  match kwargs with
  | [] => None
  | (k, v) :: rest => if String.eqb k name then Some v else kwarg name rest
  end.

(** The parameters of a [def] without defaults that a call leaves unbound. *)
Definition missing_arguments (params : list string) (kwargs : list (string * pyarg)) : list string :=
  filter (fun p => match kwarg p kwargs with Some _ => false | None => true end) params.

(** The [TypeError] message for one unbound parameter. *)
Definition missing_message (fname param : string) : string :=
  fname ++ "() missing 1 required positional argument: '" ++ param ++ "'".

Section Server.

(** [BOOKS_DIR = os.getenv("BOOKS_DIR", ".")], fixed when the module loads. *)
Variable BOOKS_DIR : string.

(** The ingestion pipeline of [reader3], external to the server: each call
    returns its value or the message of the exception it raises, and may
    change the world. *)
Variable process_epub : string -> string -> world -> (string + Book) * world.
Variable save_to_pickle : Book -> string -> world -> (string + unit) * world.

(** The body of [load_book_cached], under the decorator, over a store whose
    artifacts are pickled books or files that do not load;
    [AnyPickle.load_book] is the same body over any store. *)
Definition load_book (folder_name : string) (w : world) : option Book * world :=
  let file_path := posixpath.join BOOKS_DIR [folder_name; "book.pkl"] in
  let w := record_read file_path w in
  match fs w file_path with
  | Absent => (None, w)
  | File (Pickled book) => (Some book, w)
  | File (Bytes _) =>
      (None, print ("Error loading book " ++ folder_name ++ ": " ++ unpickling_error) w)
  | Dir _ =>
      (None, print ("Error loading book " ++ folder_name
                    ++ ": [Errno 21] Is a directory: '" ++ file_path ++ "'") w)
  end.

(** [@lru_cache(maxsize)]: a hit returns the stored result and moves the
    entry to the front; a miss runs the function and stores what it returns,
    whatever that is. *)
Definition lru_cache (maxsize : nat)
    (user_function : string -> world -> option Book * world)
    (key : string) (w : world) : option Book * world :=
  match functools.lookup key (cache w) with
  | Some result => (result, set_cache (functools.touch key result (cache w)) w)
  | None =>
      let '(result, w1) := user_function key w in
      (result, set_cache (functools.store maxsize key result (cache w1)) w1)
  end.

Definition maxsize : nat := 10.

Definition load_book_cached : string -> world -> option Book * world :=
  lru_cache maxsize load_book.

(** [load_book_cached.cache_clear()]. *)
Definition cache_clear (w : world) : world := set_cache [] w.

(** The [for item in os.listdir(BOOKS_DIR)] loop of [library_view]; [books]
    is the list being appended to. *)
Fixpoint library_loop (items : list string) (books : list BookSummary) (w : world)
    : list BookSummary * world :=
  match items with
  | [] => (books, w)
  | item :: rest =>
      let full_path := posixpath.join BOOKS_DIR [item] in
      if PyStr.endswith item "_data" && os.isdir (fs w) full_path then
        let '(book, w1) := load_book_cached item w in
        match book with
        | Some book =>
            library_loop rest
              (books ++ [ {| bs_id := item;
                             bs_title := title (metadata book);
                             bs_author := PyStr.join ", " (authors (metadata book));
                             bs_chapters := Z.of_nat (List.length (spine book)) |} ])
              w1
        | None => library_loop rest books w1
        end
      else library_loop rest books w
  end.

Definition library_view (request : Request) (w : world) : response * world :=
  if os.exists_ (fs w) BOOKS_DIR then
    match os.listdir (fs w) BOOKS_DIR with
    | inl (exception, message) => (Raised exception message, w)
    | inr items =>
        let '(books, w1) := library_loop items [] w in
        (LibraryPage request books, w1)
    end
  else (LibraryPage request [], w).

Definition read_chapter (request : Request) (book_id : string) (chapter_index : Z)
    (w : world) : response * world :=
  let '(book, w1) := load_book_cached book_id w in
  match book with
  | None => (HTTPException 404 "Book not found", w1)
  | Some book =>
      let n := Z.of_nat (List.length (spine book)) in
      if (chapter_index <? 0) || (chapter_index >=? n) then
        (HTTPException 404 "Chapter not found", w1)
      else
        match getitem (spine book) chapter_index with
        | None => (Raised "IndexError" "list index out of range", w1)
        | Some current_chapter =>
            let prev_idx :=
              if chapter_index >? 0 then Some (chapter_index - 1) else None in
            let next_idx :=
              if chapter_index <? n - 1 then Some (chapter_index + 1) else None in
            (ReaderPage {| rc_request := request;
                           rc_book := book;
                           rc_current_chapter := current_chapter;
                           rc_chapter_index := chapter_index;
                           rc_book_id := book_id;
                           rc_prev_idx := prev_idx;
                           rc_next_idx := next_idx |}, w1)
        end
  end.

(** A call of [read_chapter] by keyword: [def read_chapter(request, book_id,
    chapter_index)] has no defaults, so a call that leaves a parameter
    unbound raises [TypeError] before the body runs. *)
Definition call_read_chapter (kwargs : list (string * pyarg)) (w : world)
    : response * world :=
  match missing_arguments ["request"; "book_id"; "chapter_index"] kwargs with
  | [] =>
      match kwarg "request" kwargs, kwarg "book_id" kwargs, kwarg "chapter_index" kwargs with
      | Some (ArgRequest request), Some (ArgStr book_id), Some (ArgInt chapter_index) =>
          read_chapter request book_id chapter_index w
      | _, _, _ => (Raised "TypeError" "argument of the wrong type", w)
      end
  | param :: _ => (Raised "TypeError" (missing_message "read_chapter" param), w)
  end.

(** [return await read_chapter(book_id=book_id, chapter_index=0)]. *)
Definition redirect_to_first_chapter (book_id : string) (w : world) : response * world :=
  call_read_chapter [("book_id", ArgStr book_id); ("chapter_index", ArgInt 0)] w.

(** The path [serve_image] builds. *)
Definition image_path (book_id image_name : string) : string :=
  let safe_book_id := posixpath.basename book_id in
  let safe_image_name := posixpath.basename image_name in
  posixpath.join BOOKS_DIR [safe_book_id; "images"; safe_image_name].

Definition serve_image (book_id image_name : string) (w : world) : response * world :=
  let img_path := image_path book_id image_name in
  if negb (os.exists_ (fs w) img_path) then (HTTPException 404 "Image not found", w)
  else (FileResponse img_path, w).

(** The identity and the output folder [upload_epub] derives from the
    uploaded file's name. *)
Definition upload_id (filename : string) : string :=
  let base_name := fst (posixpath.splitext filename) in
  base_name ++ "_data".

Definition upload_output_dir (filename : string) : string :=
  posixpath.join BOOKS_DIR [upload_id filename].

(** [upload_epub]; [tmp_path] is the name [NamedTemporaryFile] picks and
    [content] what [file.read()] returns. *)
Definition upload_epub (filename content tmp_path : string) (w : world)
    : response * world :=
  if negb (PyStr.endswith filename ".epub") then
    (JSONResponse 400 (UploadError "Only .epub files are allowed"), w)
  else
    let w1 := set_fs (os.write tmp_path (Bytes content) (fs w)) w in
    let output_dir := upload_output_dir filename in
    match process_epub tmp_path output_dir w1 with
    | (inl e, w2) => (JSONResponse 500 (UploadError e), w2)
    | (inr book_obj, w2) =>
        match save_to_pickle book_obj output_dir w2 with
        | (inl e, w3) => (JSONResponse 500 (UploadError e), w3)
        | (inr _, w3) =>
            match os.unlink tmp_path (fs w3) with
            | inl e => (JSONResponse 500 (UploadError e), w3)
            | inr f =>
                let w4 := cache_clear (set_fs f w3) in
                (JSONResponse 200
                   (UploadSuccess (title (metadata book_obj)) (upload_id filename)), w4)
            end
        end
    end.

End Server.

(** ** JSON values and the chat proxy *)

#[local] Set Warnings "-register-all".

(** What [json()] decodes to: [None], [bool], a number (its literal kept as
    text), [str], [list] or [dict], the latter as its items with one pair per
    key. *)
Inductive json :=
| JNull
| JBool (b : bool)
| JNum (literal : string)
| JStr (s : string)
| JArr (items : list json)
| JObj (members : list (string * json)).

(** The exceptions the chat handler can meet. *)
Inductive pyexn :=
| KeyError
| IndexError
| TypeError
| AttributeError
| OtherError (name : string).

(** A subscript: a [str] key or an [int] index. *)
Inductive pykey :=
| KeyStr (s : string)
| KeyInt (i : Z).

(** The value of a key in a dict. *)
Fixpoint member (key : string) (members : list (string * json)) : option json :=
  match members with
  | [] => None
  | (k, v) :: rest => if String.eqb k key then Some v else member key rest
  end.

(** [v[k]]: a dict raises [KeyError] on a missing key (an [int] is never a
    key of a decoded object); a list or a string takes an index and raises
    [IndexError] out of range, [TypeError] on a [str] subscript; nothing else
    is subscriptable.  A string is indexed here by byte; the character
    obtained is one more string. *)
Definition subscript (v : json) (k : pykey) : pyexn + json :=
  match v, k with
  | JObj members, KeyStr s =>
      match member s members with
      | Some x => inr x
      | None => inl KeyError
      end
  | JObj _, KeyInt _ => inl KeyError
  | JArr items, KeyInt i =>
      match getitem items i with
      | Some x => inr x
      | None => inl IndexError
      end
  | JArr _, KeyStr _ => inl TypeError
  | JStr s, KeyInt i =>
      match getitem (list_ascii_of_string s) i with
      | Some c => inr (JStr (String c ""))
      | None => inl IndexError
      end
  | JStr _, KeyStr _ => inl TypeError
  | _, _ => inl TypeError
  end.

(** [data.get(key, default)]: only a dict has [get]. *)
Definition dict_get (data : json) (key : string) (default : json) : pyexn + json :=
  match data with
  | JObj members =>
      match member key members with
      | Some v => inr v
      | None => inr default
      end
  | _ => inl AttributeError
  end.

(** The request [chat] posts to the completion API. *)
Record ApiRequest := {
  api_url : string;
  api_authorization : string;
  api_content_type : string;
  api_model : json;
  api_messages : json;
  api_stream : bool;
  api_timeout : Z
}.

(** What [chat] answers: one of its two dicts, or an exception nobody
    caught. *)
Inductive ChatReply :=
| ChatResponse (content : json)
| ChatError (error : string) (details : option json)
| ChatRaised (e : pyexn).

(** [result["choices"][0]["message"]["content"]]. *)
Definition extract_content (result : json) : pyexn + json :=
  match subscript result (KeyStr "choices") with
  | inl e => inl e
  | inr choices =>
      match subscript choices (KeyInt 0) with
      | inl e => inl e
      | inr choice =>
          match subscript choice (KeyStr "message") with
          | inl e => inl e
          | inr message => subscript message (KeyStr "content")
          end
      end
  end.

Definition default_model : string := "blackboxai/anthropic/claude-sonnet-4.5".

Section Chat.

(** [BLACKBOX_API_KEY = os.getenv("BLACKBOX_API_KEY", "")]. *)
Variable BLACKBOX_API_KEY : string.

(** The completion API behind [client.post(...)] and [response.json()]: the
    decoded body of the response, or the exception raised on the way. *)
Variable api : ApiRequest -> pyexn + json.

(** [chat]; [body] is what [await request.json()] gives, a decoded value or
    the exception it raises.  The second component lists the requests sent to
    the API. *)
Definition chat (body : pyexn + json) : ChatReply * list ApiRequest :=
  if String.eqb BLACKBOX_API_KEY "" then
    (ChatError "BLACKBOX_API_KEY not configured" None, [])
  else
    match body with
    | inl e => (ChatRaised e, [])
    | inr data =>
        match dict_get data "model" (JStr default_model) with
        | inl e => (ChatRaised e, [])
        | inr model =>
            match subscript data (KeyStr "messages") with
            | inl e => (ChatRaised e, [])
            | inr messages =>
                let request :=
                  {| api_url := "https://api.blackbox.ai/chat/completions";
                     api_authorization := "Bearer " ++ BLACKBOX_API_KEY;
                     api_content_type := "application/json";
                     api_model := model;
                     api_messages := messages;
                     api_stream := false;
                     api_timeout := 120 |} in
                match api request with
                | inl e => (ChatRaised e, [request])
                | inr result =>
                    match extract_content result with
                    | inr content => (ChatResponse content, [request])
                    | inl KeyError | inl IndexError =>
                        (ChatError "Invalid response from API" (Some result), [request])
                    | inl e => (ChatRaised e, [request])
                    end
                end
            end
        end
    end.

End Chat.

(** The content at [choices[0].message.content], read off the structure: the
    result is an object, its [choices] a non-empty array, the first choice an
    object, its [message] an object with a [content]. *)
Definition content_at (result : json) : option json :=
  match result with
  | JObj members =>
      match member "choices" members with
      | Some (JArr (JObj choice :: _)) =>
          match member "message" choice with
          | Some (JObj message) => member "content" message
          | _ => None
          end
      | _ => None
      end
  | _ => None
  end.

(** A result in which a part of that path is missing: the object has no
    [choices], or [choices] is an empty array, an empty string or an object,
    or the first choice has no [message], or the message no [content]. *)
Definition missing_field (result : json) : bool :=
  match result with
  | JObj members =>
      match member "choices" members with
      | None => true
      | Some (JArr []) => true
      | Some (JObj _) => true
      | Some (JStr "") => true
      | Some (JArr (JObj choice :: _)) =>
          match member "message" choice with
          | None => true
          | Some (JObj message) =>
              match member "content" message with
              | None => true
              | Some _ => false
              end
          | Some _ => false
          end
      | Some _ => false
      end
  | _ => false
  end.

(** ** Notions the claims are stated with *)

(** *** Confinement of a path to the store root

    A path built from the root stays under it when, read component by
    component after the root, it never climbs above where it started: empty
    components and [.] stay in place, [..] goes up one level, any other name
    goes down one. *)

Fixpoint stays_inside (components : list string) (depth : nat) : bool :=
  match components with
  | [] => true
  | c :: rest =>
      if String.eqb c "" || String.eqb c "." then stays_inside rest depth
      else if String.eqb c ".." then
        match depth with
        | O => false
        | S d => stays_inside rest d
        end
      else stays_inside rest (S depth)
  end.

Definition under_root (root path : string) : bool :=
  if String.prefix root path then
    stays_inside (PyStr.split (PyStr.slice_from path (PyStr.len root)) "/"%char) 0
  else false.

(** The separator [posixpath.join] puts between [path] and a relative
    component: none after an empty path or a trailing separator. *)
Definition joint (path : string) : string :=
  if String.eqb path "" || PyStr.endswith path "/" then "" else "/".

(** *** The cache as the caller sees it *)

(** The book the cache holds for an identity, if it holds one. *)
Definition cached_book (identity : string) (w : world) : option Book :=
  match functools.lookup identity (cache w) with
  | Some (Some book) => Some book
  | _ => None
  end.

(** The book the artifact of an identity deserializes to, if it does. *)
Definition loadable_book (BOOKS_DIR identity : string) (w : world) : option Book :=
  match fs w (posixpath.join BOOKS_DIR [identity; "book.pkl"]) with
  | File (Pickled book) => Some book
  | _ => None
  end.

(** The identities in the cache, most recently used first. *)
Definition cache_keys (w : world) : list string := map fst (cache w).

(** The worlds a server process can be in: it boots with an empty cache; a
    request looks a book up; an upload clears the cache; the disk changes
    under it. *)
Inductive reachable (BOOKS_DIR : string) : world -> Prop :=
| reach_boot (f : filesystem) : reachable BOOKS_DIR (boot f)
| reach_get (identity : string) (w : world) :
    reachable BOOKS_DIR w ->
    reachable BOOKS_DIR (snd (load_book_cached BOOKS_DIR identity w))
| reach_clear (w : world) :
    reachable BOOKS_DIR w -> reachable BOOKS_DIR (cache_clear w)
| reach_disk (f : filesystem) (w : world) :
    reachable BOOKS_DIR w -> reachable BOOKS_DIR (set_fs f w).

(** Where an identity sits in the queue: either it is not in the cache, or
    exactly the entries of [front] are ahead of it. *)
Definition behind (identity : string) (front : list string) (w : world) : Prop :=
  functools.lookup identity (cache w) = None
  \/ exists F v R,
       cache w = (F ++ (identity, v) :: R)%list /\ map fst F = front.

(** [get] for each identity of a list, in order. *)
Definition get_all (BOOKS_DIR : string) (identities : list string) (w : world) : world :=
  fold_left (fun w identity => snd (load_book_cached BOOKS_DIR identity w)) identities w.

(** [get] for each identity of a list, in order, the disk changing before
    each. *)
Definition get_all_on (BOOKS_DIR : string) (steps : list (filesystem * string)) (w : world)
    : world :=
  fold_left (fun w step => snd (load_book_cached BOOKS_DIR (snd step) (set_fs (fst step) w)))
            steps w.

(** *** The catalog as the spec words it

    Scanner: the direct children of the root that are directories and whose
    name ends with [_data].  Assembler: [Cache.get] on each candidate in turn,
    absent ones skipped, one summary per resolved book. *)

Definition list_candidates (BOOKS_DIR : string) (children : list string) (f : filesystem)
    : list string :=
  filter (fun name =>
            PyStr.endswith name "_data" && os.isdir f (posixpath.join BOOKS_DIR [name]))
         children.

Definition summary (identity : string) (book : Book) : BookSummary :=
  {| bs_id := identity;
     bs_title := title (metadata book);
     bs_author := String.concat ", " (authors (metadata book));
     bs_chapters := Z.of_nat (List.length (spine book)) |}.

Fixpoint list_books (BOOKS_DIR : string) (candidates : list string) (w : world)
    : list BookSummary * world :=
  match candidates with
  | [] => ([], w)
  | candidate :: rest =>
      let '(found, w1) := load_book_cached BOOKS_DIR candidate w in
      let '(more, w2) := list_books BOOKS_DIR rest w1 in
      (match found with
       | Some book => summary candidate book :: more
       | None => more
       end, w2)
  end.

(** *** Two readings of a list of candidates

    What the catalog would list if every candidate came from the cache as it
    is, and what it would list if every candidate came from the disk as it
    is. *)




(** *** Requests

    The requests that reach the handlers over the book store, and a server
    that handles them one after the other. *)

Inductive http_request :=
| GetLibrary (request : Request)
| GetReadFirst (book_id : string)
| GetRead (request : Request) (book_id : string) (chapter_index : Z)
| GetImage (book_id image_name : string)
| PostUpload (filename content tmp_path : string).

Definition handle (BOOKS_DIR : string)
    (process_epub : string -> string -> world -> (string + Book) * world)
    (save_to_pickle : Book -> string -> world -> (string + unit) * world)
    (q : http_request) (w : world) : response * world :=
  match q with
  | GetLibrary request => library_view BOOKS_DIR request w
  | GetReadFirst book_id => redirect_to_first_chapter BOOKS_DIR book_id w
  | GetRead request book_id chapter_index =>
      read_chapter BOOKS_DIR request book_id chapter_index w
  | GetImage book_id image_name => serve_image BOOKS_DIR book_id image_name w
  | PostUpload filename content tmp_path =>
      upload_epub BOOKS_DIR process_epub save_to_pickle filename content tmp_path w
  end.

Definition serve_all (BOOKS_DIR : string)
    (process_epub : string -> string -> world -> (string + Book) * world)
    (save_to_pickle : Book -> string -> world -> (string + unit) * world)
    (requests : list http_request) (w : world) : world :=
  fold_left (fun w q => snd (handle BOOKS_DIR process_epub save_to_pickle q w)) requests w.

(** A string made of dots only. *)
Fixpoint all_dots (s : string) : bool :=
  match s with
  | EmptyString => true
  | String a s' => Ascii.eqb a "."%char && all_dots s'
  end.

(** ** Sample data for the examples *)

Definition sample_book : Book :=
  {| metadata := {| title := "Sample"; authors := ["A. Author"] |};
     spine := [ {| payload := "one" |}; {| payload := "two" |}; {| payload := "three" |} ] |}.

(** A store [books] with one good book folder, one folder whose artifact is
    no pickle, and a stray file. *)
Definition sample_fs : filesystem :=
  fun path =>
    if String.eqb path "books" then Dir ["Sample_data"; "notes.txt"; "broken_data"]
    else if String.eqb path "books/Sample_data" then Dir ["book.pkl"; "images"]
    else if String.eqb path "books/Sample_data/book.pkl" then File (Pickled sample_book)
    else if String.eqb path "books/broken_data" then Dir ["book.pkl"]
    else if String.eqb path "books/broken_data/book.pkl" then File (Bytes "junk")
    else if String.eqb path "books/notes.txt" then File (Bytes "hello")
    else Absent.

Definition empty_fs : filesystem := fun _ => Absent.

(** The sample store once the artifact of [broken_data] has been replaced by
    a good one. *)
Definition repaired_fs : filesystem :=
  os.write "books/broken_data/book.pkl" (Pickled sample_book) sample_fs.

(** A disk with a file beside the store [books], not in it. *)
Definition outside_fs : filesystem :=
  fun path =>
    if String.eqb path "books" then Dir []
    else if String.eqb path "images" then Dir ["secret"]
    else if String.eqb path "images/secret" then File (Bytes "private")
    else if String.eqb path "books/../images/secret" then File (Bytes "private")
    else Absent.

Definition sample_request : Request := {| url := "/" |}.

(** Eleven identities, none of which has a folder in the sample store. *)
Definition first_id : string := "b0_data".

Definition ten_more_ids : list string :=
  ["b1_data"; "b2_data"; "b3_data"; "b4_data"; "b5_data";
   "b6_data"; "b7_data"; "b8_data"; "b9_data"; "b10_data"].

(** The sample server after ten distinct books were asked for. *)
Definition full_world : world :=
  get_all "books" (removelast (first_id :: ten_more_ids)) (boot sample_fs).

(** An ingestion that rejects every file, and the two halves of one that
    accepts every file. *)
Definition process_epub_fails : string -> string -> world -> (string + Book) * world :=
  fun _ _ w => (inl "not an EPUB", w).

Definition process_epub_ok : string -> string -> world -> (string + Book) * world :=
  fun _ _ w => (inr sample_book, w).

Definition save_to_pickle_ok : Book -> string -> world -> (string + unit) * world :=
  fun book output_dir w =>
    (inr tt, set_fs (os.write (posixpath.join output_dir ["book.pkl"]) (Pickled book) (fs w)) w).

(** A chat body, an answer of the API with a content, one without [choices]
    and one whose [choices] is [null]; an API that answers the same to every
    request. *)
Definition sample_chat_body : json :=
  JObj [("messages", JArr [JObj [("role", JStr "user"); ("content", JStr "Hi")]])].

Definition good_result : json :=
  JObj [("choices",
         JArr [JObj [("message",
                      JObj [("role", JStr "assistant"); ("content", JStr "Hello")])]])].

Definition error_result : json :=
  JObj [("error", JObj [("message", JStr "Invalid API key")])].

Definition null_choices_result : json := JObj [("choices", JNull)].

Definition api_answers (result : json) : ApiRequest -> pyexn + json :=
  fun _ => inr result.

(** The request [chat] sends for [sample_chat_body] under the key [k1]. *)
Definition sample_api_request : ApiRequest :=
  {| api_url := "https://api.blackbox.ai/chat/completions";
     api_authorization := "Bearer k1";
     api_content_type := "application/json";
     api_model := JStr default_model;
     api_messages := JArr [JObj [("role", JStr "user"); ("content", JStr "Hi")]];
     api_stream := false;
     api_timeout := 120 |}.


(** Some traffic over the sample store. *)
Definition sample_traffic : list http_request :=
  [ GetLibrary sample_request;
    GetRead sample_request "Sample_data" 1;
    GetReadFirst "Sample_data";
    GetImage "Sample_data" "cover.jpg";
    PostUpload "New.epub" "bytes" "/tmp/tmpq1.epub";
    GetRead sample_request "broken_data" 0;
    GetLibrary sample_request ].


(** ** The loader and its callers over any pickle

    [pickle.load] returns whatever object the file holds, and
    [load_book_cached] hands it on unchecked.  The definitions above take a
    store whose artifacts are pickled books or files that do not load; the
    module below takes any store: an artifact may unpickle to [None] or to an
    object that is no [Book], a file may fail to load with any message, and
    a directory may refuse to be listed.  [lift_world] further down embeds
    the first kind of store in the second, where the two loaders agree. *)

Module AnyPickle.

(** An object other than [None]: a [Book], or an object of another type,
    which has neither [metadata] nor [spine]; [truth] is its truth value. *)
Inductive pyobject :=
| BookObject (b : Book)
| OtherObject (type_name : string) (truth : bool).

(** [bool(x)] for what the loader returns: [None] is false, a [Book] (a plain
    data class) is true. *)
Definition truthy (x : option pyobject) : bool :=
  match x with
  | None => false
  | Some (BookObject _) => true
  | Some (OtherObject _ truth) => truth
  end.

(** What a regular file does under [open] and [pickle.load]: it yields an
    object ([None] included), or an [Exception] is raised, whose text is
    [error].  A pickle that ends the process while it loads is left out. *)
Inductive filedata :=
| Pickle (x : option pyobject)
| Garbage (error : string).

(** A filesystem node; a directory lists its children unless the process may
    not read it. *)
Inductive node :=
| Absent
| Dir (listing : option (list string))
| File (data : filedata).

Definition filesystem := string -> node.

Record world := {
  fs : filesystem;
  cache : list (string * option pyobject);
  disk_reads : list string;
  stdout : list string
}.

Definition set_fs (f : filesystem) (w : world) : world :=
  {| fs := f; cache := cache w; disk_reads := disk_reads w; stdout := stdout w |}.

Definition set_cache (c : list (string * option pyobject)) (w : world) : world :=
  {| fs := fs w; cache := c; disk_reads := disk_reads w; stdout := stdout w |}.

Definition record_read (path : string) (w : world) : world :=
  {| fs := fs w; cache := cache w; disk_reads := path :: disk_reads w; stdout := stdout w |}.

Definition print (line : string) (w : world) : world :=
  {| fs := fs w; cache := cache w; disk_reads := disk_reads w; stdout := line :: stdout w |}.

Definition boot (f : filesystem) : world :=
  {| fs := f; cache := []; disk_reads := []; stdout := [] |}.

(** [os.path.exists]. *)
Definition exists_ (f : filesystem) (path : string) : bool :=
  match f path with Absent => false | _ => true end.

(** [os.path.isdir]. *)
Definition isdir (f : filesystem) (path : string) : bool :=
  match f path with Dir _ => true | _ => false end.

(** [os.listdir]: the children, or the [OSError] raised. *)
Definition listdir (f : filesystem) (path : string) : (string * string) + list string :=
  match f path with
  | Dir (Some children) => inr children
  | Dir None => inl ("PermissionError", "[Errno 13] Permission denied: '" ++ path ++ "'")
  | File _ => inl ("NotADirectoryError", "[Errno 20] Not a directory: '" ++ path ++ "'")
  | Absent => inl ("FileNotFoundError", "[Errno 2] No such file or directory: '" ++ path ++ "'")
  end.

(** The [AttributeError] of an attribute access on an object without it. *)
Definition no_attribute (type_name attribute : string) : string * string :=
  ("AttributeError", "'" ++ type_name ++ "' object has no attribute '" ++ attribute ++ "'").

Section Server.

Variable BOOKS_DIR : string.

(** The body of [load_book_cached]: whatever [pickle.load] returns is
    returned; any exception of [open] or [pickle.load] is printed with its
    text and [None] returned. *)
Definition load_book (folder_name : string) (w : world) : option pyobject * world :=
  let file_path := posixpath.join BOOKS_DIR [folder_name; "book.pkl"] in
  let w := record_read file_path w in
  match fs w file_path with
  | Absent => (None, w)
  | File (Pickle book) => (book, w)
  | File (Garbage error) =>
      (None, print ("Error loading book " ++ folder_name ++ ": " ++ error) w)
  | Dir (Some _) =>
      (None, print ("Error loading book " ++ folder_name
                    ++ ": [Errno 21] Is a directory: '" ++ file_path ++ "'") w)
  | Dir None =>
      (None, print ("Error loading book " ++ folder_name
                    ++ ": [Errno 13] Permission denied: '" ++ file_path ++ "'") w)
  end.

(** [@lru_cache(maxsize)], as above. *)
Definition lru_cache (maxsize : nat)
    (user_function : string -> world -> option pyobject * world)
    (key : string) (w : world) : option pyobject * world :=
  match functools.lookup key (cache w) with
  | Some result => (result, set_cache (functools.touch key result (cache w)) w)
  | None =>
      let '(result, w1) := user_function key w in
      (result, set_cache (functools.store maxsize key result (cache w1)) w1)
  end.

Definition load_book_cached : string -> world -> option pyobject * world :=
  lru_cache 10 load_book.

(** The loop of [library_view]: [if book:] tests the truth value of what the
    loader returned, and [book.metadata] raises on an object that is no
    [Book]; the exception ends the loop and the handler. *)
Fixpoint library_loop (items : list string) (books : list BookSummary) (w : world)
    : ((string * string) + list BookSummary) * world :=
  match items with
  | [] => (inr books, w)
  | item :: rest =>
      let full_path := posixpath.join BOOKS_DIR [item] in
      if PyStr.endswith item "_data" && isdir (fs w) full_path then
        let '(book, w1) := load_book_cached item w in
        if truthy book then
          match book with
          | Some (BookObject book) =>
              library_loop rest
                (books ++ [ {| bs_id := item;
                               bs_title := title (metadata book);
                               bs_author := PyStr.join ", " (authors (metadata book));
                               bs_chapters := Z.of_nat (List.length (spine book)) |} ])
                w1
          | Some (OtherObject type_name _) => (inl (no_attribute type_name "metadata"), w1)
          | None => library_loop rest books w1
          end
        else library_loop rest books w1
      else library_loop rest books w
  end.

Definition library_view (request : Request) (w : world) : response * world :=
  if exists_ (fs w) BOOKS_DIR then
    match listdir (fs w) BOOKS_DIR with
    | inl (exception, message) => (Raised exception message, w)
    | inr items =>
        match library_loop items [] w with
        | (inr books, w1) => (LibraryPage request books, w1)
        | (inl (exception, message), w1) => (Raised exception message, w1)
        end
    end
  else (LibraryPage request [], w).

(** [read_chapter]: [if not book] tests the truth value, and [book.spine]
    raises on an object that is no [Book]. *)
Definition read_chapter (request : Request) (book_id : string) (chapter_index : Z)
    (w : world) : response * world :=
  let '(book, w1) := load_book_cached book_id w in
  if negb (truthy book) then (HTTPException 404 "Book not found", w1)
  else
    match book with
    | Some (BookObject book) =>
        let n := Z.of_nat (List.length (spine book)) in
        if (chapter_index <? 0) || (chapter_index >=? n) then
          (HTTPException 404 "Chapter not found", w1)
        else
          match getitem (spine book) chapter_index with
          | None => (Raised "IndexError" "list index out of range", w1)
          | Some current_chapter =>
              let prev_idx :=
                if chapter_index >? 0 then Some (chapter_index - 1) else None in
              let next_idx :=
                if chapter_index <? n - 1 then Some (chapter_index + 1) else None in
              (ReaderPage {| rc_request := request;
                             rc_book := book;
                             rc_current_chapter := current_chapter;
                             rc_chapter_index := chapter_index;
                             rc_book_id := book_id;
                             rc_prev_idx := prev_idx;
                             rc_next_idx := next_idx |}, w1)
          end
    | Some (OtherObject type_name _) =>
        (Raised (fst (no_attribute type_name "spine"))
                (snd (no_attribute type_name "spine")), w1)
    | None => (HTTPException 404 "Book not found", w1)
    end.

End Server.

(** *** Notions for the statements over any pickle *)

(** An object that is true and no [Book]: the handlers raise on it. *)
Definition foreign (x : option pyobject) : bool :=
  match x with
  | Some (OtherObject _ true) => true
  | _ => false
  end.

(** What the artifact of an identity yields when it is loaded: the object in
    the pickle, [None] for everything else. *)
Definition loadable (BOOKS_DIR identity : string) (w : world) : option pyobject :=
  match fs w (posixpath.join BOOKS_DIR [identity; "book.pkl"]) with
  | File (Pickle x) => x
  | _ => None
  end.

(** Scanner and Assembler as the spec words them: the children that are
    directories with a name ending in [_data]; [Cache.get] on each in turn,
    one summary for each that resolves to a book, nothing for the others. *)
Definition list_candidates (BOOKS_DIR : string) (children : list string) (f : filesystem)
    : list string :=
  filter (fun name =>
            PyStr.endswith name "_data" && isdir f (posixpath.join BOOKS_DIR [name]))
         children.

Fixpoint list_books (BOOKS_DIR : string) (candidates : list string) (w : world)
    : list BookSummary * world :=
  match candidates with
  | [] => ([], w)
  | candidate :: rest =>
      let '(found, w1) := load_book_cached BOOKS_DIR candidate w in
      let '(more, w2) := list_books BOOKS_DIR rest w1 in
      (match found with
       | Some (BookObject book) => summary candidate book :: more
       | _ => more
       end, w2)
  end.

(** No candidate of a pass resolves to a foreign object. *)
Fixpoint resolve_to_books (BOOKS_DIR : string) (candidates : list string) (w : world) : bool :=
  match candidates with
  | [] => true
  | candidate :: rest =>
      let '(found, w1) := load_book_cached BOOKS_DIR candidate w in
      negb (foreign found) && resolve_to_books BOOKS_DIR rest w1
  end.

End AnyPickle.

(** *** A store of books among the stores of any pickle *)

Definition lift_result (r : option Book) : option AnyPickle.pyobject :=
  option_map AnyPickle.BookObject r.

Definition lift_node (n : node) : AnyPickle.node :=
  match n with
  | Absent => AnyPickle.Absent
  | Dir children => AnyPickle.Dir (Some children)
  | File (Pickled book) => AnyPickle.File (AnyPickle.Pickle (Some (AnyPickle.BookObject book)))
  | File (Bytes _) => AnyPickle.File (AnyPickle.Garbage unpickling_error)
  end.

Definition lift_cache (c : list (string * option Book))
    : list (string * option AnyPickle.pyobject) :=
  map (fun e => (fst e, lift_result (snd e))) c.

Definition lift_world (w : world) : AnyPickle.world :=
  {| AnyPickle.fs := fun path => lift_node (fs w path);
     AnyPickle.cache := lift_cache (cache w);
     AnyPickle.disk_reads := disk_reads w;
     AnyPickle.stdout := stdout w |}.

(** *** Sample stores of any pickle *)

(** A store with a good book, a folder whose artifact does not load, a folder
    whose artifact is a pickle of [None], a regular file with the name of a
    book folder, and a stray file. *)
Definition mixed_fs : AnyPickle.filesystem :=
  fun path =>
    if String.eqb path "books"
    then AnyPickle.Dir (Some ["Sample_data"; "notes.txt"; "broken_data"; "stray_data"; "none_data"])
    else if String.eqb path "books/Sample_data" then AnyPickle.Dir (Some ["book.pkl"])
    else if String.eqb path "books/Sample_data/book.pkl"
    then AnyPickle.File (AnyPickle.Pickle (Some (AnyPickle.BookObject sample_book)))
    else if String.eqb path "books/broken_data" then AnyPickle.Dir (Some ["book.pkl"])
    else if String.eqb path "books/broken_data/book.pkl"
    then AnyPickle.File (AnyPickle.Garbage "invalid load key, 'j'.")
    else if String.eqb path "books/none_data" then AnyPickle.Dir (Some ["book.pkl"])
    else if String.eqb path "books/none_data/book.pkl"
    then AnyPickle.File (AnyPickle.Pickle None)
    else if String.eqb path "books/stray_data"
    then AnyPickle.File (AnyPickle.Garbage "invalid load key, 'h'.")
    else if String.eqb path "books/notes.txt"
    then AnyPickle.File (AnyPickle.Garbage "invalid load key, 'h'.")
    else AnyPickle.Absent.

(** The same store with one more folder, whose artifact is a pickle of the
    integer 65. *)
Definition foreign_fs : AnyPickle.filesystem :=
  fun path =>
    if String.eqb path "books"
    then AnyPickle.Dir (Some ["Sample_data"; "int_data"; "broken_data"])
    else if String.eqb path "books/int_data" then AnyPickle.Dir (Some ["book.pkl"])
    else if String.eqb path "books/int_data/book.pkl"
    then AnyPickle.File (AnyPickle.Pickle (Some (AnyPickle.OtherObject "int" true)))
    else mixed_fs path.

(** A store root the process may not list. *)
Definition locked_fs : AnyPickle.filesystem :=
  fun path => if String.eqb path "vault" then AnyPickle.Dir None else AnyPickle.Absent.

(** An empty disk, and the disk once the artifact of [late_data] has been
    written. *)
Definition bare_fs : AnyPickle.filesystem := fun _ => AnyPickle.Absent.

Definition late_fs : AnyPickle.filesystem :=
  fun path =>
    if String.eqb path "books/late_data/book.pkl"
    then AnyPickle.File (AnyPickle.Pickle (Some (AnyPickle.BookObject sample_book)))
    else AnyPickle.Absent.

(** A server that was asked for [late_data] before its artifact was written,
    and one that was asked for [Sample_data] before the disk was wiped. *)
Definition remembered_world : AnyPickle.world :=
  AnyPickle.set_fs late_fs
    (snd (AnyPickle.load_book_cached "books" "late_data" (AnyPickle.boot bare_fs))).

Definition cached_world : AnyPickle.world :=
  AnyPickle.set_fs bare_fs
    (snd (AnyPickle.load_book_cached "books" "Sample_data" (AnyPickle.boot mixed_fs))).

(** ** Examples *)

Example basename_1 : posixpath.basename "../../etc" = "etc". Proof. reflexivity. Qed.
Example basename_2 : posixpath.basename "../secret" = "secret". Proof. reflexivity. Qed.
Example basename_3 : posixpath.basename ".." = "..". Proof. reflexivity. Qed.
Example basename_4 : posixpath.basename "a/" = "". Proof. reflexivity. Qed.
Example join_1 : posixpath.join "books" ["x_data"; "book.pkl"] = "books/x_data/book.pkl". Proof. reflexivity. Qed.
Example join_2 : posixpath.join "books" [""; "images"; "a"] = "books/images/a". Proof. reflexivity. Qed.
Example join_3 : posixpath.join "books" ["/etc/x_data"] = "/etc/x_data". Proof. reflexivity. Qed.
Example splitext_1 : posixpath.splitext "../evil.epub" = ("../evil", ".epub"). Proof. reflexivity. Qed.
Example splitext_2 : posixpath.splitext ".epub" = (".epub", ""). Proof. reflexivity. Qed.
Example splitext_3 : posixpath.splitext "a.b/...epub" = ("a.b/...epub", ""). Proof. reflexivity. Qed.
Example splitext_4 : posixpath.splitext "a.b/.x.epub" = ("a.b/.x", ".epub"). Proof. reflexivity. Qed.
Example endswith_1 : PyStr.endswith "x_data" "_data" = true. Proof. reflexivity. Qed.
Example endswith_2 : PyStr.endswith "data" "_data" = false. Proof. reflexivity. Qed.
Example split_1 : PyStr.split "/../images/a" "/"%char = [""; ".."; "images"; "a"]. Proof. reflexivity. Qed.

Example library_sample :
  fst (library_view "books" sample_request (boot sample_fs))
  = LibraryPage sample_request
      [ {| bs_id := "Sample_data"; bs_title := "Sample"; bs_author := "A. Author"; bs_chapters := 3 |} ].
Proof. reflexivity. Qed.

Example read_sample_1 :
  fst (read_chapter "books" sample_request "Sample_data" 1 (boot sample_fs))
  = ReaderPage {| rc_request := sample_request; rc_book := sample_book;
                  rc_current_chapter := {| payload := "two" |};
                  rc_chapter_index := 1; rc_book_id := "Sample_data";
                  rc_prev_idx := Some 0; rc_next_idx := Some 2 |}.
Proof. reflexivity. Qed.

Example read_sample_3 :
  fst (read_chapter "books" sample_request "Sample_data" 3 (boot sample_fs))
  = HTTPException 404 "Chapter not found".
Proof. reflexivity. Qed.

Example image_sample :
  image_path "books" "Sample_data" "cover.jpg" = "books/Sample_data/images/cover.jpg".
Proof. reflexivity. Qed.

Example under_root_sample :
  under_root "books" (image_path "books" "../../etc" "../secret") = true.
Proof. reflexivity. Qed.

(** ** Facts about the building blocks *)

Lemma getitem_in_range {A : Type} (l : list A) (i : Z) :
  0 <= i < Z.of_nat (List.length l) ->
  exists x, getitem l i = Some x /\ nth_error l (Z.to_nat i) = Some x.
Proof.
  intros Hi. unfold getitem.
  destruct (i <? 0) eqn:Hneg; [apply Z.ltb_lt in Hneg; lia|].
  rewrite Hneg. simpl.
  destruct (Z.of_nat (List.length l) <=? i) eqn:Hge; [apply Z.leb_le in Hge; lia|].
  destruct (nth_error l (Z.to_nat i)) as [x|] eqn:Hnth.
  - exists x. split; reflexivity.
  - apply nth_error_None in Hnth. lia.
Qed.

(** The loader branches on what the artifact path holds: nothing, a
    directory, a pickled book or other bytes. *)
Ltac by_artifact w :=
  simpl; destruct (fs w _) as [| |[|]]; reflexivity.

Lemma load_book_keeps_cache (BOOKS_DIR identity : string) (w : world) :
  cache (snd (load_book BOOKS_DIR identity w)) = cache w.
Proof.
  unfold load_book. by_artifact w.
Qed.

Lemma load_book_keeps_fs (BOOKS_DIR identity : string) (w : world) :
  fs (snd (load_book BOOKS_DIR identity w)) = fs w.
Proof.
  unfold load_book. by_artifact w.
Qed.

Lemma load_book_reads_disk (BOOKS_DIR identity : string) (w : world) :
  disk_reads (snd (load_book BOOKS_DIR identity w))
  = posixpath.join BOOKS_DIR [identity; "book.pkl"] :: disk_reads w.
Proof.
  unfold load_book. by_artifact w.
Qed.

Lemma load_book_result (BOOKS_DIR identity : string) (w : world) :
  fst (load_book BOOKS_DIR identity w) = loadable_book BOOKS_DIR identity w.
Proof.
  unfold load_book, loadable_book. by_artifact w.
Qed.

(** A hit: the stored result, the entry moved to the front, the disk left
    alone. *)
Lemma load_book_cached_hit (BOOKS_DIR identity : string) (w : world) (r : option Book) :
  functools.lookup identity (cache w) = Some r ->
  load_book_cached BOOKS_DIR identity w
  = (r, set_cache (functools.touch identity r (cache w)) w).
Proof.
  intros H. unfold load_book_cached, lru_cache. rewrite H. reflexivity.
Qed.

(** A miss: what the loader returns, stored in the cache. *)
Lemma load_book_cached_miss (BOOKS_DIR identity : string) (w : world) :
  functools.lookup identity (cache w) = None ->
  load_book_cached BOOKS_DIR identity w
  = (loadable_book BOOKS_DIR identity w,
     set_cache (functools.store maxsize identity (loadable_book BOOKS_DIR identity w) (cache w))
               (snd (load_book BOOKS_DIR identity w))).
Proof.
  intros H. unfold load_book_cached, lru_cache. rewrite H.
  pose proof (load_book_result BOOKS_DIR identity w) as Hr.
  pose proof (load_book_keeps_cache BOOKS_DIR identity w) as Hc.
  destruct (load_book BOOKS_DIR identity w) as [r w1]. simpl in *.
  subst r. rewrite Hc. reflexivity.
Qed.

(** ** Strings and paths *)

Lemma length_append (s t : string) :
  String.length (s ++ t) = (String.length s + String.length t)%nat.
Proof. induction s as [|a s IH]; simpl; [reflexivity|rewrite IH; reflexivity]. Qed.

Lemma append_empty_r (s : string) : s ++ "" = s.
Proof. induction s as [|a s IH]; simpl; [reflexivity|rewrite IH; reflexivity]. Qed.

Lemma append_assoc (s t u : string) : (s ++ t) ++ u = s ++ (t ++ u).
Proof. induction s as [|a s IH]; simpl; [reflexivity|rewrite IH; reflexivity]. Qed.

Lemma substring_all (s : string) : String.substring 0 (String.length s) s = s.
Proof. induction s as [|a s IH]; simpl; [reflexivity|rewrite IH; reflexivity]. Qed.

Lemma substring_skip (pre s : string) (k m : nat) :
  String.substring (String.length pre + k) m (pre ++ s) = String.substring k m s.
Proof. induction pre as [|a pre IH]; simpl; [reflexivity|exact IH]. Qed.

Lemma prefix_append (s t : string) : String.prefix s (s ++ t) = true.
Proof.
  induction s as [|a s IH]; simpl.
  - destruct t; reflexivity.
  - destruct (ascii_dec a a) as [_|Hne]; [exact IH|contradiction].
Qed.

(** [p[len(pre):]] of [pre ++ s] is [s]. *)
Lemma slice_from_append (pre s : string) :
  PyStr.slice_from (pre ++ s) (PyStr.len pre) = s.
Proof.
  unfold PyStr.slice_from, PyStr.len. rewrite length_append.
  destruct (Z.of_nat (String.length pre) <? 0) eqn:Hneg; [apply Z.ltb_lt in Hneg; lia|].
  rewrite Z.min_l by lia.
  replace (Z.to_nat (Z.of_nat (String.length pre))) with (String.length pre + 0)%nat by lia.
  replace (Z.to_nat (Z.of_nat (String.length pre + String.length s)
                     - Z.of_nat (String.length pre)))
    with (String.length s) by lia.
  rewrite substring_skip. apply substring_all.
Qed.

(** Where [rfind] lands: nowhere when the character does not occur, else on
    its last occurrence. *)
Lemma rfind_from_spec (c : ascii) (s : string) :
  forall i last : Z,
    (PyStr.rfind_from c s i last = last /\ PyStr.contains c s = false)
    \/ exists pre post,
         s = pre ++ String c post
         /\ PyStr.rfind_from c s i last = i + PyStr.len pre
         /\ PyStr.contains c post = false.
Proof.
  induction s as [|a s IH]; intros i last; simpl.
  - left. split; reflexivity.
  - destruct (IH (i + 1) (if Ascii.eqb a c then i else last))
      as [[Hr Hc]|[pre [post [Hs [Hr Hc]]]]].
    + destruct (Ascii.eqb_spec a c) as [->|Hne].
      * right. exists "", s. unfold PyStr.len. simpl.
        repeat split; [lia|exact Hc].
      * left. split; [exact Hr|exact Hc].
    + right. exists (String a pre), post. subst s.
      repeat split; [|exact Hc].
      rewrite Hr. unfold PyStr.len. simpl String.length. lia.
Qed.

(** [basename] keeps the string when it holds no separator, and otherwise
    what follows the last one. *)
Lemma basename_spec (p : string) :
  (PyStr.contains posixpath.sep p = false /\ posixpath.basename p = p)
  \/ exists pre,
       p = pre ++ String posixpath.sep (posixpath.basename p)
       /\ PyStr.contains posixpath.sep (posixpath.basename p) = false.
Proof.
  unfold posixpath.basename, PyStr.rfind.
  destruct (rfind_from_spec posixpath.sep p 0 (-1))
    as [[Hr Hc]|[pre [post [Hs [Hr Hc]]]]]; rewrite Hr.
  - left. split; [exact Hc|].
    unfold PyStr.slice_from. simpl. rewrite Z.min_l by (unfold PyStr.len; lia).
    simpl. rewrite Z.sub_0_r. unfold PyStr.len. rewrite Nat2Z.id. apply substring_all.
  - right. exists pre.
    assert (Hb : PyStr.slice_from p (0 + PyStr.len pre + 1) = post).
    { subst p.
      replace (pre ++ String posixpath.sep post)
        with ((pre ++ String posixpath.sep "") ++ post)
        by (rewrite append_assoc; reflexivity).
      replace (0 + PyStr.len pre + 1) with (PyStr.len (pre ++ String posixpath.sep ""))
        by (unfold PyStr.len; rewrite length_append; simpl; lia).
      apply slice_from_append. }
    rewrite Hb. split; [exact Hs|exact Hc].
Qed.

Lemma basename_clean (p : string) :
  PyStr.contains posixpath.sep (posixpath.basename p) = false.
Proof.
  destruct (basename_spec p) as [[Hc Hb]|[pre [_ Hc]]]; [rewrite Hb|]; exact Hc.
Qed.

Lemma endswith_append_char (s : string) (a : ascii) :
  PyStr.endswith (s ++ String a "") "/" = Ascii.eqb a "/"%char.
Proof.
  unfold PyStr.endswith. rewrite length_append. simpl String.length.
  destruct (Nat.leb_spec 1 (String.length s + 1)) as [_|H]; [|lia].
  replace (String.length s + 1 - 1)%nat with (String.length s + 0)%nat by lia.
  rewrite substring_skip. simpl.
  destruct (Ascii.eqb a "/"%char); reflexivity.
Qed.

(** A non-empty string ends with a last character. *)
Lemma last_char (c : ascii) (t : string) :
  t <> "" ->
  exists t' a, t = t' ++ String a "" /\ (PyStr.contains c t = false -> Ascii.eqb a c = false).
Proof.
  induction t as [|x t IH]; intros Hne; [contradiction|].
  destruct t as [|y t].
  - exists "", x. split; [reflexivity|]. simpl. intros H.
    apply orb_false_iff in H. apply H.
  - destruct IH as [t' [a [Ht Ha]]]; [discriminate|].
    exists (String x t'), a. split.
    + simpl. rewrite <- Ht. reflexivity.
    + intros H. apply Ha. simpl in H. apply orb_false_iff in H. apply H.
Qed.

Lemma endswith_append_clean (s b : string) :
  b <> "" -> PyStr.contains posixpath.sep b = false ->
  PyStr.endswith (s ++ b) "/" = false.
Proof.
  intros Hne Hclean.
  destruct (last_char posixpath.sep b Hne) as [b' [a [Hb Ha]]].
  rewrite Hb, <- append_assoc, endswith_append_char. apply Ha. exact Hclean.
Qed.

Lemma startswith_clean (b : string) :
  PyStr.contains posixpath.sep b = false -> PyStr.startswith b "/" = false.
Proof.
  unfold PyStr.startswith. destruct b as [|a b]; [reflexivity|].
  intros H. cbn [PyStr.contains] in H. apply orb_false_iff in H. destruct H as [Ha _].
  change (String.prefix "/" (String a b))
    with (if ascii_dec "/" a then String.prefix "" b else false).
  destruct (ascii_dec "/" a) as [Heq|_]; [|reflexivity].
  subst a. discriminate.
Qed.

Lemma join_step_clean (path b : string) :
  PyStr.contains posixpath.sep b = false ->
  posixpath.join_step path b = path ++ joint path ++ b.
Proof.
  intros H. unfold posixpath.join_step, joint. rewrite (startswith_clean b H).
  destruct (String.eqb path "" || PyStr.endswith path "/"); reflexivity.
Qed.

Lemma append_not_empty (s t : string) : t <> "" -> s ++ t <> "".
Proof. destruct s; simpl; [intros H; exact H|discriminate]. Qed.

Lemma joint_after_clean (s b : string) :
  b <> "" -> PyStr.contains posixpath.sep b = false -> joint (s ++ b) = "/".
Proof.
  intros Hne Hclean. unfold joint.
  rewrite (endswith_append_clean s b Hne Hclean).
  destruct (String.eqb_spec (s ++ b) "") as [Heq|_]; [|reflexivity].
  exfalso. exact (append_not_empty s b Hne Heq).
Qed.

Lemma joint_idempotent (root : string) : joint (root ++ joint root) = "".
Proof.
  unfold joint at 2.
  destruct (String.eqb root "" || PyStr.endswith root "/") eqn:H.
  - rewrite append_empty_r. unfold joint. rewrite H. reflexivity.
  - unfold joint. rewrite (endswith_append_char root "/"%char). simpl.
    rewrite orb_true_r. reflexivity.
Qed.

(** The path [serve_image] builds, spelled out: the root, a separator unless
    the root is empty or ends with one, the book component and a separator
    unless that component is empty, then [images/] and the asset
    component. *)
Lemma image_path_shape (BOOKS_DIR book_id image_name : string) :
  image_path BOOKS_DIR book_id image_name
  = BOOKS_DIR ++ joint BOOKS_DIR
      ++ (if String.eqb (posixpath.basename book_id) "" then ""
          else posixpath.basename book_id ++ "/")
      ++ "images/" ++ posixpath.basename image_name.
Proof.
  unfold image_path, posixpath.join. simpl fold_left.
  pose proof (basename_clean book_id) as Hb.
  pose proof (basename_clean image_name) as Ha.
  set (b := posixpath.basename book_id) in *.
  set (a := posixpath.basename image_name) in *.
  rewrite (join_step_clean BOOKS_DIR b Hb).
  rewrite (join_step_clean _ "images" eq_refl).
  rewrite (join_step_clean _ a Ha).
  rewrite <- (append_assoc _ (joint _) "images").
  rewrite (joint_after_clean _ "images") by (discriminate || reflexivity).
  destruct (String.eqb_spec b "") as [Hempty|Hne].
  - rewrite Hempty. rewrite !append_empty_r. rewrite joint_idempotent.
    rewrite !append_assoc. reflexivity.
  - rewrite <- (append_assoc BOOKS_DIR (joint BOOKS_DIR) b).
    rewrite (joint_after_clean _ b Hne Hb).
    rewrite !append_assoc. reflexivity.
Qed.

Lemma split_from_clean (c : ascii) (x y : string) :
  forall cur : string,
    PyStr.contains c x = false ->
    PyStr.split_from c (x ++ y) cur = PyStr.split_from c y (cur ++ x).
Proof.
  induction x as [|h x IH]; intros cur Hclean.
  - simpl. rewrite append_empty_r. reflexivity.
  - cbn [PyStr.contains] in Hclean. apply orb_false_iff in Hclean.
    destruct Hclean as [Hh Hx].
    simpl. rewrite Hh, (IH _ Hx), append_assoc. reflexivity.
Qed.

Lemma split_from_last (c : ascii) (a cur : string) :
  PyStr.contains c a = false -> PyStr.split_from c a cur = [cur ++ a].
Proof.
  intros H. rewrite <- (append_empty_r a) at 1.
  rewrite (split_from_clean c a "" cur H). reflexivity.
Qed.

Lemma stays_inside_cons (c : string) (rest : list string) (d : nat) :
  stays_inside (c :: rest) d
  = if String.eqb c "" || String.eqb c "." then stays_inside rest d
    else if String.eqb c ".." then
      match d with
      | O => false
      | S d' => stays_inside rest d'
      end
    else stays_inside rest (S d).
Proof. reflexivity. Qed.

Lemma stays_inside_last (a : string) (d : nat) : stays_inside [a] (S d) = true.
Proof.
  rewrite stays_inside_cons.
  destruct (String.eqb a "" || String.eqb a "."); [reflexivity|].
  destruct (String.eqb a ".."); reflexivity.
Qed.

(** The components after the book component keep the path inside. *)
Lemma stays_inside_images (a : string) (d : nat) :
  stays_inside ["images"; a] d = true.
Proof. change (stays_inside [a] (S d) = true). apply stays_inside_last. Qed.

Lemma stays_inside_book (b a : string) :
  b <> "" ->
  stays_inside [b; "images"; a] 0 = negb (String.eqb b "..").
Proof.
  intros Hne. rewrite stays_inside_cons.
  destruct (String.eqb_spec b "") as [Heq|_]; [contradiction|].
  destruct (String.eqb_spec b ".") as [->|_].
  - apply stays_inside_images.
  - simpl orb. cbv iota.
    destruct (String.eqb b ".."); [reflexivity|].
    apply stays_inside_images.
Qed.

(** The path [serve_image] builds stays under the store root for every
    request but those whose book component is [..]. *)
Lemma image_path_under_root (BOOKS_DIR book_id image_name : string) :
  under_root BOOKS_DIR (image_path BOOKS_DIR book_id image_name)
  = negb (String.eqb (posixpath.basename book_id) "..").
Proof.
  rewrite image_path_shape. unfold under_root.
  rewrite prefix_append, slice_from_append.
  pose proof (basename_clean book_id) as Hb.
  pose proof (basename_clean image_name) as Ha.
  set (b := posixpath.basename book_id) in *.
  set (a := posixpath.basename image_name) in *.
  assert (Htail : forall cur, PyStr.split_from "/"%char ("images/" ++ a) cur
                              = [cur ++ "images"; a]).
  { intros cur.
    change ("images/" ++ a) with ("images" ++ String "/"%char a).
    rewrite (split_from_clean "/"%char "images" _ cur eq_refl).
    simpl. rewrite (split_from_last "/"%char a "" Ha). reflexivity. }
  assert (Hbody : stays_inside
                    (PyStr.split_from "/"%char
                       ((if String.eqb b "" then "" else b ++ "/") ++ "images/" ++ a) "") 0
                  = negb (String.eqb b "..")).
  { destruct (String.eqb_spec b "") as [Hempty|Hne].
    - rewrite Hempty. change ("" ++ "images/" ++ a) with ("images/" ++ a).
      rewrite Htail. change ("" ++ "images") with "images".
      apply stays_inside_images.
    - rewrite append_assoc.
      rewrite (split_from_clean "/"%char b _ "" Hb).
      change ("/" ++ "images/" ++ a) with (String "/"%char ("images/" ++ a)).
      cbn [PyStr.split_from]. simpl Ascii.eqb. cbv iota.
      rewrite Htail. simpl append. apply stays_inside_book. exact Hne. }
  unfold PyStr.split, joint.
  destruct (String.eqb BOOKS_DIR "" || PyStr.endswith BOOKS_DIR "/").
  - exact Hbody.
  - change ("/" ++ (if String.eqb b "" then "" else b ++ "/") ++ "images/" ++ a)
      with (String "/"%char ((if String.eqb b "" then "" else b ++ "/") ++ "images/" ++ a)).
    cbn [PyStr.split_from]. simpl Ascii.eqb. cbv iota.
    rewrite stays_inside_cons. simpl String.eqb. simpl orb. cbv iota.
    exact Hbody.
Qed.

(** ** Asset paths *)

(** X1: [serve_image] reduces each of its inputs to one path component: the
    component holds no separator, and it is the input itself or what follows
    the input's last separator. *)
Theorem basename_is_final_component (p : string) :
  PyStr.contains "/"%char (posixpath.basename p) = false
  /\ (posixpath.basename p = p
      \/ exists pre, p = pre ++ "/" ++ posixpath.basename p).
Proof.
  split; [apply basename_clean|].
  destruct (basename_spec p) as [[_ Hb]|[pre [Hp _]]].
  - left. exact Hb.
  - right. exists pre. exact Hp.
Qed.

(** X2: the image path leaves the store root exactly for the requests whose
    book component is [..]; for every other request it stays under the
    root. *)
Theorem image_path_confined_unless_dotdot (BOOKS_DIR book_id image_name : string) :
  under_root BOOKS_DIR (image_path BOOKS_DIR book_id image_name) = true
  <-> posixpath.basename book_id <> "..".
Proof.
  rewrite image_path_under_root, negb_true_iff. apply String.eqb_neq.
Qed.

(** C1: the book identity [..] is its own final component, so the path
    [serve_image] builds for it leaves the store root, and the file found
    there is served. *)
Theorem C1_image_path_leaves_root :
  posixpath.basename ".." = ".."
  /\ image_path "books" ".." "secret" = "books/../images/secret"
  /\ under_root "books" (image_path "books" ".." "secret") = false
  /\ serve_image "books" ".." "secret" (boot outside_fs)
     = (FileResponse "books/../images/secret", boot outside_fs).
Proof.
  repeat split.
Qed.

(** ** The LRU queue *)

Section LruFacts.
Context {V : Type}.
Implicit Types (k : string) (v : V) (es : list (string * V)).

Lemma lookup_head k v es : functools.lookup k ((k, v) :: es) = Some v.
Proof. simpl. rewrite String.eqb_refl. reflexivity. Qed.

Lemma lookup_None_iff k es :
  functools.lookup k es = None <-> ~ In k (map fst es).
Proof.
  induction es as [|[k' v'] es IH]; simpl.
  - split; [intros _ []|reflexivity].
  - destruct (String.eqb_spec k' k) as [->|Hne].
    + split; [discriminate|]. intros H. exfalso. apply H. left. reflexivity.
    + rewrite IH. split.
      * intros H [Heq|Hin]; [exact (Hne Heq)|exact (H Hin)].
      * intros H Hin. apply H. right. exact Hin.
Qed.

Lemma lookup_Some_in k v es :
  functools.lookup k es = Some v -> In k (map fst es).
Proof.
  intros H. destruct (in_dec string_dec k (map fst es)) as [Hin|Hout]; [exact Hin|].
  apply lookup_None_iff in Hout. congruence.
Qed.

Lemma in_unlink k k' es :
  In k' (map fst (functools.unlink k es)) <-> In k' (map fst es) /\ k' <> k.
Proof.
  induction es as [|[k0 v0] es IH]; simpl.
  - tauto.
  - destruct (String.eqb_spec k0 k) as [->|Hne]; simpl; rewrite IH.
    + split.
      * intros [Hin Hk]. split; [right; exact Hin|exact Hk].
      * intros [[Heq|Hin] Hk]; [congruence|split; assumption].
    + split.
      * intros [Heq|[Hin Hk]]; [subst k'; split; [left; reflexivity|exact Hne]|].
        split; [right; exact Hin|exact Hk].
      * intros [[Heq|Hin] Hk]; [left; exact Heq|right; split; assumption].
Qed.

Lemma unlink_fresh k es :
  ~ In k (map fst es) -> functools.unlink k es = es.
Proof.
  induction es as [|[k0 v0] es IH]; simpl; intros H.
  - reflexivity.
  - destruct (String.eqb_spec k0 k) as [->|Hne].
    + exfalso. apply H. left. reflexivity.
    + rewrite IH; [reflexivity|]. intros Hin. apply H. right. exact Hin.
Qed.

Lemma unlink_app k es es' :
  functools.unlink k (es ++ es')%list
  = (functools.unlink k es ++ functools.unlink k es')%list.
Proof.
  induction es as [|[k0 v0] es IH]; simpl.
  - reflexivity.
  - destruct (String.eqb k0 k); simpl; rewrite IH; reflexivity.
Qed.

Lemma lookup_unlink_other k k' es :
  k' <> k -> functools.lookup k' (functools.unlink k es) = functools.lookup k' es.
Proof.
  intros Hne. induction es as [|[k0 v0] es IH]; simpl.
  - reflexivity.
  - destruct (String.eqb_spec k0 k) as [->|Hk]; simpl.
    + destruct (String.eqb_spec k k') as [Heq|_]; [congruence|exact IH].
    + rewrite IH. reflexivity.
Qed.

Lemma NoDup_unlink k es :
  NoDup (map fst es) -> NoDup (map fst (functools.unlink k es)).
Proof.
  induction es as [|[k0 v0] es IH]; simpl; intros H.
  - constructor.
  - inversion H as [|x l Hout Hnd]; subst.
    destruct (String.eqb k0 k); simpl.
    + apply IH. exact Hnd.
    + constructor; [|apply IH; exact Hnd].
      intros Hin. apply in_unlink in Hin. apply Hout. apply Hin.
Qed.

Lemma length_unlink_le k es :
  (List.length (functools.unlink k es) <= List.length es)%nat.
Proof.
  induction es as [|[k0 v0] es IH]; simpl.
  - lia.
  - destruct (String.eqb k0 k); simpl; lia.
Qed.

Lemma length_unlink_lt k v es :
  functools.lookup k es = Some v ->
  (List.length (functools.unlink k es) < List.length es)%nat.
Proof.
  induction es as [|[k0 v0] es IH]; simpl.
  - discriminate.
  - destruct (String.eqb k0 k); simpl.
    + intros _. pose proof (length_unlink_le k es). lia.
    + intros H. specialize (IH H). lia.
Qed.

Lemma length_removelast (A : Type) (l : list A) :
  List.length (removelast l) = (List.length l - 1)%nat.
Proof.
  induction l as [|a l IH]; [reflexivity|].
  destruct l as [|b l]; [reflexivity|].
  change (removelast (a :: b :: l)) with (a :: removelast (b :: l)).
  simpl List.length in *. rewrite IH. lia.
Qed.

Lemma in_removelast (A : Type) (x : A) (l : list A) :
  In x (removelast l) -> In x l.
Proof.
  induction l as [|a l IH]; [intros []|].
  destruct l as [|b l]; [intros []|].
  change (removelast (a :: b :: l)) with (a :: removelast (b :: l)).
  intros [Heq|Hin]; [left; exact Heq|right; apply IH; exact Hin].
Qed.

Lemma map_removelast (A B : Type) (f : A -> B) (l : list A) :
  map f (removelast l) = removelast (map f l).
Proof.
  induction l as [|a l IH]; [reflexivity|].
  destruct l as [|b l]; [reflexivity|].
  change (removelast (a :: b :: l)) with (a :: removelast (b :: l)).
  rewrite map_cons, IH. reflexivity.
Qed.

Lemma NoDup_removelast (A : Type) (l : list A) :
  NoDup l -> NoDup (removelast l).
Proof.
  induction l as [|a l IH]; intros H; [constructor|].
  destruct l as [|b l]; [constructor|].
  change (removelast (a :: b :: l)) with (a :: removelast (b :: l)).
  inversion H as [|x l' Hout Hnd]; subst.
  constructor; [|apply IH; exact Hnd].
  intros Hin. apply Hout. apply in_removelast. exact Hin.
Qed.

Lemma lookup_removelast_None k es :
  functools.lookup k es = None -> functools.lookup k (removelast es) = None.
Proof.
  rewrite !lookup_None_iff, map_removelast.
  intros H Hin. apply H. apply in_removelast. exact Hin.
Qed.

(** The queue after a hit or a miss keeps its keys distinct and its length
    within [maxsize]. *)
Lemma touch_wf k v n es :
  functools.lookup k es = Some v ->
  NoDup (map fst es) -> (List.length es <= n)%nat ->
  NoDup (map fst (functools.touch k v es))
  /\ (List.length (functools.touch k v es) <= n)%nat.
Proof.
  intros Hhit Hnd Hlen. unfold functools.touch. simpl. split.
  - constructor; [|apply NoDup_unlink; exact Hnd].
    intros Hin. apply in_unlink in Hin. destruct Hin as [_ Hne]. apply Hne. reflexivity.
  - pose proof (length_unlink_lt k v es Hhit). lia.
Qed.

Lemma store_wf k v n es :
  (0 < n)%nat ->
  NoDup (map fst es) -> (List.length es <= n)%nat ->
  NoDup (map fst (functools.store n k v es))
  /\ (List.length (functools.store n k v es) <= n)%nat.
Proof.
  intros Hpos Hnd Hlen. unfold functools.store.
  destruct (functools.lookup k es) as [v'|] eqn:Hlk; [split; assumption|].
  apply lookup_None_iff in Hlk.
  destruct (Nat.leb_spec n (List.length es)) as [Hfull|Hroom]; simpl.
  - split.
    + rewrite map_removelast. constructor; [|apply NoDup_removelast; exact Hnd].
      intros Hin. apply Hlk. apply in_removelast. exact Hin.
    + rewrite length_removelast. lia.
  - split; [constructor; assumption|lia].
Qed.

End LruFacts.

(** ** The book cache *)

Lemma maxsize_positive : (0 < maxsize)%nat.
Proof. unfold maxsize. lia. Qed.

(** One [get] keeps the identities in the cache distinct and their number
    within [maxsize]. *)
Lemma load_book_cached_wf (BOOKS_DIR identity : string) (w : world) :
  NoDup (cache_keys w) -> (List.length (cache w) <= maxsize)%nat ->
  NoDup (cache_keys (snd (load_book_cached BOOKS_DIR identity w)))
  /\ (List.length (cache (snd (load_book_cached BOOKS_DIR identity w))) <= maxsize)%nat.
Proof.
  intros Hnd Hlen. unfold cache_keys in *.
  destruct (functools.lookup identity (cache w)) as [r|] eqn:Hlk.
  - rewrite (load_book_cached_hit _ _ _ _ Hlk). simpl.
    apply (touch_wf identity r maxsize (cache w) Hlk Hnd Hlen).
  - rewrite (load_book_cached_miss _ _ _ Hlk). simpl.
    apply (store_wf identity _ maxsize (cache w) maxsize_positive Hnd Hlen).
Qed.

Lemma reachable_wf (BOOKS_DIR : string) (w : world) :
  reachable BOOKS_DIR w ->
  NoDup (cache_keys w) /\ (List.length (cache w) <= maxsize)%nat.
Proof.
  induction 1 as [f|identity w Hw [Hnd Hlen]|w Hw [Hnd Hlen]|f w Hw [Hnd Hlen]].
  - split; [constructor|simpl; lia].
  - apply load_book_cached_wf; assumption.
  - split; [constructor|simpl; lia].
  - split; assumption.
Qed.

Lemma get_all_reachable (BOOKS_DIR : string) (identities : list string) :
  forall w, reachable BOOKS_DIR w -> reachable BOOKS_DIR (get_all BOOKS_DIR identities w).
Proof.
  induction identities as [|identity rest IH]; intros w Hw; simpl.
  - exact Hw.
  - apply IH. apply reach_get. exact Hw.
Qed.

(** The cache after a [get], entry by entry. *)
Lemma load_book_cached_cache (BOOKS_DIR identity : string) (w : world) :
  cache (snd (load_book_cached BOOKS_DIR identity w))
  = match functools.lookup identity (cache w) with
    | Some r => functools.touch identity r (cache w)
    | None => functools.store maxsize identity (loadable_book BOOKS_DIR identity w) (cache w)
    end.
Proof.
  destruct (functools.lookup identity (cache w)) as [r|] eqn:Hlk.
  - rewrite (load_book_cached_hit _ _ _ _ Hlk). reflexivity.
  - rewrite (load_book_cached_miss _ _ _ Hlk). reflexivity.
Qed.

(** A [get] for another identity does not bring an absent identity back. *)
Lemma load_book_cached_stays_out (BOOKS_DIR identity other : string) (w : world) :
  other <> identity ->
  functools.lookup identity (cache w) = None ->
  functools.lookup identity (cache (snd (load_book_cached BOOKS_DIR other w))) = None.
Proof.
  intros Hne Hout. rewrite load_book_cached_cache.
  destruct (functools.lookup other (cache w)) as [r|] eqn:Hlk.
  - unfold functools.touch. simpl.
    destruct (String.eqb_spec other identity) as [Heq|_]; [contradiction|].
    rewrite lookup_unlink_other; [exact Hout|congruence].
  - unfold functools.store. rewrite Hlk.
    destruct (maxsize <=? List.length (cache w))%nat; simpl;
      destruct (String.eqb_spec other identity) as [Heq|_]; try contradiction.
    + apply lookup_removelast_None. exact Hout.
    + exact Hout.
Qed.

(** A [get] for an identity that is neither [identity] nor ahead of it puts
    one more entry ahead of it. *)
Lemma load_book_cached_pushes_back
    (BOOKS_DIR identity other : string) (front : list string) (w : world) :
  NoDup (cache_keys w) ->
  other <> identity -> ~ In other front ->
  behind identity front w ->
  behind identity (other :: front) (snd (load_book_cached BOOKS_DIR other w)).
Proof.
  intros Hnd Hne Hfresh [Hout|[F [v [R [Hcache Hfront]]]]].
  - left. apply load_book_cached_stays_out; assumption.
  - unfold behind. rewrite load_book_cached_cache.
    assert (HF : ~ In other (map fst F)) by (rewrite Hfront; exact Hfresh).
    destruct (functools.lookup other (cache w)) as [r|] eqn:Hlk.
    + right. exists ((other, r) :: F), v, (functools.unlink other R).
      split; [|simpl; rewrite Hfront; reflexivity].
      unfold functools.touch. rewrite Hcache, unlink_app, (unlink_fresh other F HF).
      simpl. destruct (String.eqb_spec identity other) as [Heq|_]; [congruence|].
      reflexivity.
    + unfold functools.store. rewrite Hlk.
      destruct (maxsize <=? List.length (cache w))%nat.
      * destruct R as [|e R].
        -- left. rewrite Hcache, removelast_last. simpl.
           destruct (String.eqb_spec other identity) as [Heq|_]; [contradiction|].
           apply lookup_None_iff.
           unfold cache_keys in Hnd. rewrite Hcache, map_app in Hnd. simpl in Hnd.
           apply NoDup_remove_2 in Hnd. rewrite app_nil_r in Hnd. exact Hnd.
        -- right. exists ((other, loadable_book BOOKS_DIR other w) :: F), v, (removelast (e :: R)).
           split; [|simpl; rewrite Hfront; reflexivity].
           rewrite Hcache, removelast_app by discriminate.
           change (removelast ((identity, v) :: e :: R))
             with ((identity, v) :: removelast (e :: R)).
           reflexivity.
      * right. exists ((other, loadable_book BOOKS_DIR other w) :: F), v, R.
        split; [|simpl; rewrite Hfront; reflexivity].
        rewrite Hcache. reflexivity.
Qed.

(** After [get]s for distinct identities, all different from [identity] and
    from those already ahead of it, each of them is ahead of it. *)
Lemma get_all_pushes_back (BOOKS_DIR identity : string) (others : list string) :
  forall (front : list string) (w : world),
    reachable BOOKS_DIR w ->
    NoDup others -> ~ In identity others ->
    (forall k, In k others -> ~ In k front) ->
    behind identity front w ->
    behind identity (rev others ++ front)%list (get_all BOOKS_DIR others w).
Proof.
  induction others as [|other rest IH]; intros front w Hw Hnd Hid Hdisj Hb.
  - exact Hb.
  - simpl. rewrite <- app_assoc. simpl.
    inversion Hnd as [|x l Hout Hnd']; subst.
    apply IH.
    + apply reach_get. exact Hw.
    + exact Hnd'.
    + intros Hin. apply Hid. right. exact Hin.
    + intros k Hk [Heq|Hin].
      * subst k. exact (Hout Hk).
      * exact (Hdisj k (or_intror Hk) Hin).
    + apply load_book_cached_pushes_back.
      * apply (reachable_wf BOOKS_DIR w Hw).
      * intros Heq. apply Hid. left. exact Heq.
      * apply Hdisj. left. reflexivity.
      * exact Hb.
Qed.

(** C5: in every world the server can reach the cache holds at most 10
    entries; a [get] that misses while the cache holds 10 drops the least
    recently used entry (the last of the queue) and puts the new one in front;
    and after [get]s for 11 distinct identities the first of them is out of
    the cache, so the next [get] for it goes to the disk. *)
Theorem C5_cache_holds_at_most_ten (BOOKS_DIR : string) (w : world) :
  reachable BOOKS_DIR w ->
  (List.length (cache w) <= 10)%nat
  /\ (forall identity : string,
        List.length (cache w) = 10%nat ->
        functools.lookup identity (cache w) = None ->
        cache (snd (load_book_cached BOOKS_DIR identity w))
        = (identity, loadable_book BOOKS_DIR identity w) :: removelast (cache w)
        /\ List.length (cache (snd (load_book_cached BOOKS_DIR identity w))) = 10%nat)
  /\ (forall (first : string) (others : list string),
        NoDup (first :: others) ->
        List.length others = 10%nat ->
        functools.lookup first (cache (get_all BOOKS_DIR (first :: others) w)) = None
        /\ disk_reads (snd (load_book_cached BOOKS_DIR first
                              (get_all BOOKS_DIR (first :: others) w)))
           = posixpath.join BOOKS_DIR [first; "book.pkl"]
               :: disk_reads (get_all BOOKS_DIR (first :: others) w)).
Proof.
  intros Hw. split; [|split].
  - apply (reachable_wf BOOKS_DIR w Hw).
  - intros identity Hfull Hmiss.
    rewrite load_book_cached_cache, Hmiss. unfold functools.store.
    rewrite Hmiss, Hfull. simpl. split; [reflexivity|].
    rewrite length_removelast, Hfull. reflexivity.
  - intros first others Hnd Hlen.
    inversion Hnd as [|x l Hout Hnd']; subst.
    assert (Hgone : functools.lookup first (cache (get_all BOOKS_DIR (first :: others) w)) = None).
    { simpl.
      assert (Hb : behind first [] (snd (load_book_cached BOOKS_DIR first w))).
      { right. unfold behind. rewrite load_book_cached_cache.
        destruct (functools.lookup first (cache w)) as [r|] eqn:Hlk.
        - exists [], r, (functools.unlink first (cache w)). split; reflexivity.
        - unfold functools.store. rewrite Hlk.
          destruct (maxsize <=? List.length (cache w))%nat;
            eexists [], _, _; split; reflexivity. }
      pose proof (get_all_pushes_back BOOKS_DIR first others [] _
                    (reach_get BOOKS_DIR first w Hw) Hnd' Hout
                    (fun k _ Hin => Hin) Hb) as [Hnone|[F [v [R [Hcache Hfront]]]]].
      - exact Hnone.
      - exfalso.
        pose proof (reachable_wf BOOKS_DIR _
                      (get_all_reachable BOOKS_DIR others _
                         (reach_get BOOKS_DIR first w Hw))) as [_ Hbound].
        rewrite Hcache, length_app in Hbound. simpl in Hbound.
        assert (HF : List.length F = 10%nat).
        { rewrite <- (length_map fst F), Hfront, app_nil_r, length_rev. exact Hlen. }
        unfold maxsize in Hbound. lia. }
    split; [exact Hgone|].
    rewrite (load_book_cached_miss _ _ _ Hgone). simpl.
    apply load_book_reads_disk.
Qed.

Lemma full_world_reachable : reachable "books" full_world.
Proof. apply get_all_reachable. apply reach_boot. Qed.

Lemma eleven_ids_distinct : NoDup (first_id :: ten_more_ids).
Proof.
  unfold first_id, ten_more_ids.
  repeat (constructor; [simpl; intuition discriminate|]). constructor.
Qed.

Lemma C5_cache_holds_at_most_ten_witness :
  (List.length (cache full_world) <= 10)%nat
  /\ (cache (snd (load_book_cached "books" "b10_data" full_world))
      = ("b10_data", loadable_book "books" "b10_data" full_world)
          :: removelast (cache full_world)
      /\ List.length (cache (snd (load_book_cached "books" "b10_data" full_world)))
         = 10%nat)
  /\ (functools.lookup first_id
        (cache (get_all "books" (first_id :: ten_more_ids) (boot sample_fs))) = None
      /\ disk_reads (snd (load_book_cached "books" first_id
                            (get_all "books" (first_id :: ten_more_ids) (boot sample_fs))))
         = posixpath.join "books" [first_id; "book.pkl"]
             :: disk_reads (get_all "books" (first_id :: ten_more_ids) (boot sample_fs))).
Proof.
  split; [|split].
  - exact (proj1 (C5_cache_holds_at_most_ten "books" full_world full_world_reachable)).
  - apply (proj1 (proj2 (C5_cache_holds_at_most_ten "books" full_world full_world_reachable))).
    + reflexivity.
    + reflexivity.
  - apply (proj2 (proj2 (C5_cache_holds_at_most_ten "books" (boot sample_fs)
                           (reach_boot "books" sample_fs)))).
    + exact eleven_ids_distinct.
    + reflexivity.
Defined.

(** C4, as the code has it: a [get] that misses the cache and finds the
    artifact absent or unreadable returns absent and stores that result under
    the identity like any other; as long as that entry is in the cache, a
    [get] for the identity returns absent from the cache without looking at
    the disk, whatever the disk holds by then. *)
Theorem C4_absent_result_is_cached
    (BOOKS_DIR identity : string) (w : world) :
  functools.lookup identity (cache w) = None ->
  loadable_book BOOKS_DIR identity w = None ->
  fst (load_book_cached BOOKS_DIR identity w) = None
  /\ functools.lookup identity (cache (snd (load_book_cached BOOKS_DIR identity w)))
     = Some None
  /\ (forall later : world,
        functools.lookup identity (cache later) = Some None ->
        fst (load_book_cached BOOKS_DIR identity later) = None
        /\ disk_reads (snd (load_book_cached BOOKS_DIR identity later))
           = disk_reads later).
Proof.
  intros Hmiss Habsent. split; [|split].
  - rewrite (load_book_cached_miss _ _ _ Hmiss). exact Habsent.
  - rewrite load_book_cached_cache, Hmiss, Habsent. unfold functools.store.
    rewrite Hmiss. destruct (maxsize <=? List.length (cache w))%nat; apply lookup_head.
  - intros later Hstored.
    rewrite (load_book_cached_hit BOOKS_DIR identity later None Hstored).
    split; reflexivity.
Qed.

Lemma C4_absent_result_is_cached_witness :
  fst (load_book_cached "books" "broken_data" (boot sample_fs)) = None
  /\ functools.lookup "broken_data"
       (cache (snd (load_book_cached "books" "broken_data" (boot sample_fs))))
     = Some None
  /\ fst (load_book_cached "books" "broken_data"
            (set_fs repaired_fs (snd (load_book_cached "books" "broken_data" (boot sample_fs)))))
     = None
  /\ disk_reads (snd (load_book_cached "books" "broken_data"
                        (set_fs repaired_fs
                           (snd (load_book_cached "books" "broken_data" (boot sample_fs))))))
     = disk_reads (set_fs repaired_fs
                     (snd (load_book_cached "books" "broken_data" (boot sample_fs)))).
Proof.
  destruct (C4_absent_result_is_cached "books" "broken_data" (boot sample_fs)
              eq_refl eq_refl) as [Hnone [Hstored Hlater]].
  split; [exact Hnone|]. split; [exact Hstored|].
  apply Hlater. exact Hstored.
Defined.

(** C4 as the spec words it fails: the identity [late_data] has no artifact
    at the first [get]; the artifact is then written, and the second [get]
    still returns absent and reads nothing from the disk. *)
Lemma C4_absent_result_is_remembered :
  loadable_book "books" "late_data" (boot empty_fs) = None
  /\ fst (load_book_cached "books" "late_data" (boot empty_fs)) = None
  /\ loadable_book "books" "late_data"
       (set_fs (os.write "books/late_data/book.pkl" (Pickled sample_book) empty_fs)
          (snd (load_book_cached "books" "late_data" (boot empty_fs))))
     = Some sample_book
  /\ fst (load_book_cached "books" "late_data"
            (set_fs (os.write "books/late_data/book.pkl" (Pickled sample_book) empty_fs)
               (snd (load_book_cached "books" "late_data" (boot empty_fs)))))
     = None
  /\ disk_reads
       (snd (load_book_cached "books" "late_data"
               (set_fs (os.write "books/late_data/book.pkl" (Pickled sample_book) empty_fs)
                  (snd (load_book_cached "books" "late_data" (boot empty_fs))))))
     = disk_reads (snd (load_book_cached "books" "late_data" (boot empty_fs))).
Proof.
  repeat split.
Qed.

(** X3: a [get] right after a [get] for the same identity returns the same
    result from the cache and does not look at the disk, whatever the disk
    holds by then. *)
Theorem repeated_get_is_served_from_cache
    (BOOKS_DIR identity : string) (w : world) (f : filesystem) :
  fst (load_book_cached BOOKS_DIR identity
         (set_fs f (snd (load_book_cached BOOKS_DIR identity w))))
  = fst (load_book_cached BOOKS_DIR identity w)
  /\ disk_reads (snd (load_book_cached BOOKS_DIR identity
                        (set_fs f (snd (load_book_cached BOOKS_DIR identity w)))))
     = disk_reads (snd (load_book_cached BOOKS_DIR identity w)).
Proof.
  assert (Hstored : functools.lookup identity
                      (cache (snd (load_book_cached BOOKS_DIR identity w)))
                    = Some (fst (load_book_cached BOOKS_DIR identity w))).
  { rewrite load_book_cached_cache.
    destruct (functools.lookup identity (cache w)) as [r|] eqn:Hlk.
    - rewrite (load_book_cached_hit _ _ _ _ Hlk). apply lookup_head.
    - rewrite (load_book_cached_miss _ _ _ Hlk). unfold functools.store. rewrite Hlk.
      destruct (maxsize <=? List.length (cache w))%nat; apply lookup_head. }
  rewrite (load_book_cached_hit BOOKS_DIR identity
             (set_fs f (snd (load_book_cached BOOKS_DIR identity w))) _ Hstored).
  split; reflexivity.
Qed.

(** X4: after [cache_clear] every [get] goes to the disk and returns what
    the artifact holds now. *)
Theorem get_after_clear_reads_disk (BOOKS_DIR identity : string) (w : world) :
  fst (load_book_cached BOOKS_DIR identity (cache_clear w))
  = loadable_book BOOKS_DIR identity w
  /\ disk_reads (snd (load_book_cached BOOKS_DIR identity (cache_clear w)))
     = posixpath.join BOOKS_DIR [identity; "book.pkl"] :: disk_reads w.
Proof.
  rewrite (load_book_cached_miss BOOKS_DIR identity (cache_clear w) eq_refl).
  split; [reflexivity|]. simpl. rewrite load_book_reads_disk. reflexivity.
Qed.

(** ** Chapter navigation *)

(** C2: for a book with a spine of length n >= 1 and an index i in [0, n),
    reading the chapter succeeds with chapter = spine[i]; prev_idx is i - 1
    when i > 0 and absent exactly when i = 0; next_idx is i + 1 when
    i < n - 1 and absent exactly when i = n - 1. *)
Theorem C2_read_chapter_in_range
    (BOOKS_DIR : string) (request : Request) (book_id : string) (i : Z)
    (w w1 : world) (book : Book) :
  load_book_cached BOOKS_DIR book_id w = (Some book, w1) ->
  (1 <= List.length (spine book))%nat ->
  0 <= i < Z.of_nat (List.length (spine book)) ->
  exists chapter prev next,
    read_chapter BOOKS_DIR request book_id i w
    = (ReaderPage {| rc_request := request; rc_book := book;
                     rc_current_chapter := chapter; rc_chapter_index := i;
                     rc_book_id := book_id;
                     rc_prev_idx := prev; rc_next_idx := next |}, w1)
    /\ nth_error (spine book) (Z.to_nat i) = Some chapter
    /\ (0 < i -> prev = Some (i - 1))
    /\ (prev = None <-> i = 0)
    /\ (i < Z.of_nat (List.length (spine book)) - 1 -> next = Some (i + 1))
    /\ (next = None <-> i = Z.of_nat (List.length (spine book)) - 1).
Proof.
  intros Hget _ Hi.
  destruct (getitem_in_range (spine book) i Hi) as [chapter [Hitem Hnth]].
  unfold read_chapter. rewrite Hget.
  destruct (i <? 0) eqn:Hneg; [apply Z.ltb_lt in Hneg; lia|].
  destruct (i >=? Z.of_nat (List.length (spine book))) eqn:Hge;
    [rewrite Z.geb_le in Hge; lia|].
  simpl. rewrite Hitem.
  eexists chapter, _, _. split; [reflexivity|].
  split; [exact Hnth|].
  destruct (i >? 0) eqn:Hpos; destruct (i <? Z.of_nat (List.length (spine book)) - 1) eqn:Hlt;
    rewrite ?Z.gtb_ltb in Hpos;
    rewrite ?Z.ltb_lt, ?Z.ltb_ge in Hpos, Hlt;
    repeat split; intros; try reflexivity; try discriminate; try lia.
Qed.

Lemma C2_read_chapter_in_range_witness :
  exists chapter prev next,
    read_chapter "books" sample_request "Sample_data" 2 (boot sample_fs)
    = (ReaderPage {| rc_request := sample_request; rc_book := sample_book;
                     rc_current_chapter := chapter; rc_chapter_index := 2;
                     rc_book_id := "Sample_data";
                     rc_prev_idx := prev; rc_next_idx := next |},
       snd (load_book_cached "books" "Sample_data" (boot sample_fs)))
    /\ nth_error (spine sample_book) (Z.to_nat 2) = Some chapter
    /\ (0 < 2 -> prev = Some (2 - 1))
    /\ (prev = None <-> 2 = 0)
    /\ (2 < Z.of_nat (List.length (spine sample_book)) - 1 -> next = Some (2 + 1))
    /\ (next = None <-> 2 = Z.of_nat (List.length (spine sample_book)) - 1).
Proof.
  apply (C2_read_chapter_in_range "books" sample_request "Sample_data" 2
           (boot sample_fs) _ sample_book).
  - reflexivity.
  - simpl. lia.
  - simpl. lia.
Defined.

(** What [get] returns when the cache holds no book for the identity and the
    artifact does not load. *)
Lemma load_book_cached_absent (BOOKS_DIR identity : string) (w : world) :
  cached_book identity w = None ->
  loadable_book BOOKS_DIR identity w = None ->
  fst (load_book_cached BOOKS_DIR identity w) = None.
Proof.
  unfold cached_book. intros Hc Hl.
  destruct (functools.lookup identity (cache w)) as [[b|]|] eqn:Hlk.
  - discriminate.
  - rewrite (load_book_cached_hit _ _ _ _ Hlk). reflexivity.
  - rewrite (load_book_cached_miss _ _ _ Hlk). exact Hl.
Qed.

(** C7: the bare read request calls [read_chapter] without its [request]
    parameter, so for every identity it raises [TypeError] and never reaches
    the book; reading chapter 0 of the same book renders the page. *)
Theorem C7_redirect_raises_TypeError :
  (forall (BOOKS_DIR book_id : string) (w : world),
     redirect_to_first_chapter BOOKS_DIR book_id w
     = (Raised "TypeError"
          "read_chapter() missing 1 required positional argument: 'request'", w))
  /\
  fst (read_chapter "books" sample_request "Sample_data" 0 (boot sample_fs))
  = ReaderPage {| rc_request := sample_request; rc_book := sample_book;
                  rc_current_chapter := {| payload := "one" |};
                  rc_chapter_index := 0; rc_book_id := "Sample_data";
                  rc_prev_idx := None; rc_next_idx := Some 1 |}
  /\
  fst (redirect_to_first_chapter "books" "Sample_data" (boot sample_fs))
  <> fst (read_chapter "books" sample_request "Sample_data" 0 (boot sample_fs)).
Proof.
  split; [|split].
  - intros. reflexivity.
  - reflexivity.
  - discriminate.
Qed.

(** ** The catalog *)

Lemma load_book_cached_keeps_fs (BOOKS_DIR identity : string) (w : world) :
  fs (snd (load_book_cached BOOKS_DIR identity w)) = fs w.
Proof.
  unfold load_book_cached, lru_cache.
  destruct (functools.lookup identity (cache w)) as [r|].
  - reflexivity.
  - pose proof (load_book_keeps_fs BOOKS_DIR identity w) as H.
    destruct (load_book BOOKS_DIR identity w) as [r w1]. exact H.
Qed.

(** The loop of [library_view] appends to [books] what the Assembler lists
    for the Scanner's candidates, and leaves the same world. *)
Lemma library_loop_list_books (BOOKS_DIR : string) (items : list string) :
  forall (books : list BookSummary) (w : world),
    library_loop BOOKS_DIR items books w
    = ((books ++ fst (list_books BOOKS_DIR (list_candidates BOOKS_DIR items (fs w)) w))%list,
       snd (list_books BOOKS_DIR (list_candidates BOOKS_DIR items (fs w)) w)).
Proof.
  induction items as [|item rest IH]; intros books w.
  - simpl. rewrite app_nil_r. reflexivity.
  - unfold list_candidates. cbn [library_loop filter].
    fold (list_candidates BOOKS_DIR rest (fs w)).
    destruct (PyStr.endswith item "_data" && os.isdir (fs w) (posixpath.join BOOKS_DIR [item])).
    + cbn [list_books].
      pose proof (load_book_cached_keeps_fs BOOKS_DIR item w) as Hfs.
      destruct (load_book_cached BOOKS_DIR item w) as [found w1]. cbn [snd] in Hfs.
      destruct found as [book|]; rewrite IH, Hfs;
        destruct (list_books BOOKS_DIR (list_candidates BOOKS_DIR rest (fs w)) w1)
          as [more w2]; cbn [fst snd].
      * rewrite <- app_assoc. reflexivity.
      * reflexivity.
    + apply IH.
Qed.

(** C10: when the store root does not exist, the catalog page lists no book
    and nothing fails; the cache and the disk are left alone. *)
Theorem C10_library_view_without_root
    (BOOKS_DIR : string) (request : Request) (w : world) :
  fs w BOOKS_DIR = Absent ->
  library_view BOOKS_DIR request w = (LibraryPage request [], w).
Proof.
  intros H. unfold library_view, os.exists_. rewrite H. reflexivity.
Qed.

Lemma C10_library_view_without_root_witness :
  library_view "books" sample_request (boot empty_fs)
  = (LibraryPage sample_request [], boot empty_fs).
Proof.
  apply (C10_library_view_without_root "books" sample_request (boot empty_fs)).
  reflexivity.
Defined.

(** When the store root exists but is a regular file, the catalog page
    is not rendered: [os.listdir] raises [NotADirectoryError] and nothing
    catches it. *)
Theorem library_view_root_is_a_file
    (BOOKS_DIR : string) (request : Request) (d : filedata) (w : world) :
  fs w BOOKS_DIR = File d ->
  library_view BOOKS_DIR request w
  = (Raised "NotADirectoryError" ("[Errno 20] Not a directory: '" ++ BOOKS_DIR ++ "'"), w).
Proof.
  intros H. unfold library_view, os.exists_, os.listdir. rewrite H. reflexivity.
Qed.

Lemma library_view_root_is_a_file_witness :
  library_view "books/notes.txt" sample_request (boot sample_fs)
  = (Raised "NotADirectoryError" "[Errno 20] Not a directory: 'books/notes.txt'",
     boot sample_fs).
Proof.
  apply (library_view_root_is_a_file "books/notes.txt" sample_request (Bytes "hello")
           (boot sample_fs)).
  reflexivity.
Defined.

(** ** Upload *)

Lemma write_then_read (path : string) (d : filedata) (f : filesystem) :
  os.write path d f path = File d.
Proof. unfold os.write. rewrite String.eqb_refl. reflexivity. Qed.

(** When ingestion raises, [upload_epub] answers 500 and the temporary file
    it wrote is still there, as long as the ingestion itself left it alone. *)
Lemma upload_failure_keeps_temp_file
    (BOOKS_DIR : string)
    (process_epub : string -> string -> world -> (string + Book) * world)
    (save_to_pickle : Book -> string -> world -> (string + unit) * world)
    (filename content tmp_path : string) (w : world) (e : string) (w2 : world) :
  PyStr.endswith filename ".epub" = true ->
  process_epub tmp_path (upload_output_dir BOOKS_DIR filename)
    (set_fs (os.write tmp_path (Bytes content) (fs w)) w) = (inl e, w2) ->
  fs w2 tmp_path = fs (set_fs (os.write tmp_path (Bytes content) (fs w)) w) tmp_path ->
  exists w',
    upload_epub BOOKS_DIR process_epub save_to_pickle filename content tmp_path w
    = (JSONResponse 500 (UploadError e), w')
    /\ fs w' tmp_path = File (Bytes content).
Proof.
  intros Hext Hproc Hkeep. unfold upload_epub. rewrite Hext. simpl.
  rewrite Hproc. exists w2. split; [reflexivity|].
  rewrite Hkeep. simpl. apply write_then_read.
Qed.

(** C8: an upload named [bad.epub] whose ingestion raises is answered with
    500 while the temporary file [/tmp/tmpq1.epub] written for it stays on
    disk; the same upload with an ingestion that succeeds removes it. *)
Theorem C8_failed_upload_leaves_temp_file :
  (exists w',
     upload_epub "books" process_epub_fails save_to_pickle_ok
       "bad.epub" "bytes" "/tmp/tmpq1.epub" (boot sample_fs)
     = (JSONResponse 500 (UploadError "not an EPUB"), w')
     /\ fs w' "/tmp/tmpq1.epub" = File (Bytes "bytes"))
  /\
  (exists w',
     upload_epub "books" process_epub_ok save_to_pickle_ok
       "bad.epub" "bytes" "/tmp/tmpq1.epub" (boot sample_fs)
     = (JSONResponse 200 (UploadSuccess "Sample" "bad_data"), w')
     /\ fs w' "/tmp/tmpq1.epub" = Absent).
Proof.
  split.
  - apply upload_failure_keeps_temp_file with (w2 := set_fs (os.write "/tmp/tmpq1.epub" (Bytes "bytes") (fs (boot sample_fs))) (boot sample_fs));
      reflexivity.
  - eexists. split; reflexivity.
Qed.

(** C9: the upload name [../evil.epub] yields the identity [../evil_data] and
    the output folder [books/../evil_data], outside the store root, and the
    book is saved there; an absolute name replaces the root altogether. *)
Theorem C9_upload_folder_leaves_root :
  upload_id "../evil.epub" = "../evil_data"
  /\ upload_output_dir "books" "../evil.epub" = "books/../evil_data"
  /\ under_root "books" (upload_output_dir "books" "../evil.epub") = false
  /\ upload_output_dir "books" "/etc/evil.epub" = "/etc/evil_data"
  /\ (exists w',
        upload_epub "books" process_epub_ok save_to_pickle_ok
          "../evil.epub" "bytes" "/tmp/tmpq1.epub" (boot sample_fs)
        = (JSONResponse 200 (UploadSuccess "Sample" "../evil_data"), w')
        /\ fs w' "books/../evil_data/book.pkl" = File (Pickled sample_book)).
Proof.
  repeat split.
  eexists. split; reflexivity.
Qed.

(** An upload whose name does not end in [.epub] is refused with 400
    before anything is written or ingested. *)
Theorem upload_refuses_other_names
    (BOOKS_DIR : string)
    (process_epub : string -> string -> world -> (string + Book) * world)
    (save_to_pickle : Book -> string -> world -> (string + unit) * world)
    (filename content tmp_path : string) (w : world) :
  PyStr.endswith filename ".epub" = false ->
  upload_epub BOOKS_DIR process_epub save_to_pickle filename content tmp_path w
  = (JSONResponse 400 (UploadError "Only .epub files are allowed"), w).
Proof.
  intros H. unfold upload_epub. rewrite H. reflexivity.
Qed.

Lemma upload_refuses_other_names_witness :
  upload_epub "books" process_epub_ok save_to_pickle_ok
    "notes.txt" "bytes" "/tmp/tmpq1.epub" (boot sample_fs)
  = (JSONResponse 400 (UploadError "Only .epub files are allowed"), boot sample_fs).
Proof.
  apply (upload_refuses_other_names "books" process_epub_ok save_to_pickle_ok
           "notes.txt" "bytes" "/tmp/tmpq1.epub" (boot sample_fs)).
  reflexivity.
Defined.

(** X5: when ingestion and saving succeed, the upload answers 200 with the
    book's title and the identity derived from the name, the temporary file
    is removed and the cache is emptied. *)
Theorem upload_success_cleans_up
    (BOOKS_DIR : string)
    (process_epub : string -> string -> world -> (string + Book) * world)
    (save_to_pickle : Book -> string -> world -> (string + unit) * world)
    (filename content tmp_path : string) (w : world)
    (book : Book) (w2 w3 : world) (d : filedata) :
  PyStr.endswith filename ".epub" = true ->
  process_epub tmp_path (upload_output_dir BOOKS_DIR filename)
    (set_fs (os.write tmp_path (Bytes content) (fs w)) w) = (inr book, w2) ->
  save_to_pickle book (upload_output_dir BOOKS_DIR filename) w2 = (inr tt, w3) ->
  fs w3 tmp_path = File d ->
  exists w',
    upload_epub BOOKS_DIR process_epub save_to_pickle filename content tmp_path w
    = (JSONResponse 200 (UploadSuccess (title (metadata book)) (upload_id filename)), w')
    /\ fs w' tmp_path = Absent
    /\ cache w' = [].
Proof.
  intros Hext Hproc Hsave Htmp. unfold upload_epub. rewrite Hext. simpl.
  rewrite Hproc, Hsave. unfold os.unlink. rewrite Htmp.
  eexists. split; [reflexivity|]. simpl.
  rewrite String.eqb_refl. split; reflexivity.
Qed.

Lemma upload_success_cleans_up_witness :
  exists w',
    upload_epub "books" process_epub_ok save_to_pickle_ok
      "Sample.epub" "bytes" "/tmp/tmpq1.epub" (boot sample_fs)
    = (JSONResponse 200 (UploadSuccess "Sample" "Sample_data"), w')
    /\ fs w' "/tmp/tmpq1.epub" = Absent
    /\ cache w' = [].
Proof.
  apply (upload_success_cleans_up "books" process_epub_ok save_to_pickle_ok
           "Sample.epub" "bytes" "/tmp/tmpq1.epub" (boot sample_fs) sample_book
           (set_fs (os.write "/tmp/tmpq1.epub" (Bytes "bytes") sample_fs) (boot sample_fs))
           (set_fs (os.write "books/Sample_data/book.pkl" (Pickled sample_book)
                      (os.write "/tmp/tmpq1.epub" (Bytes "bytes") sample_fs))
                   (boot sample_fs))
           (Bytes "bytes")).
  - reflexivity.
  - reflexivity.
  - reflexivity.
  - reflexivity.
Defined.

(** ** The chat proxy *)

Lemma getitem_head {A : Type} (x : A) (l : list A) : getitem (x :: l) 0 = Some x.
Proof. reflexivity. Qed.

(** What the extraction gives, by the shape of the result. *)
Lemma extract_content_by_shape (result : json) :
  match content_at result with
  | Some content => extract_content result = inr content
  | None =>
      if missing_field result
      then extract_content result = inl KeyError \/ extract_content result = inl IndexError
      else extract_content result = inl TypeError
  end.
Proof.
  destruct result as [| | | |items|members]; try reflexivity.
  unfold content_at, missing_field, extract_content. cbn [subscript].
  destruct (member "choices" members) as [choices|]; [|left; reflexivity].
  destruct choices as [| | |s|items|inner]; try reflexivity.
  - destruct s as [|a s]; [right; reflexivity|reflexivity].
  - destruct items as [|choice rest]; [right; reflexivity|].
    cbn [subscript]. rewrite getitem_head.
    destruct choice as [| | | |items'|choice]; try reflexivity.
    cbn [subscript].
    destruct (member "message" choice) as [message|]; [|left; reflexivity].
    destruct message as [| | | |items'|message]; try reflexivity.
    cbn [subscript].
    destruct (member "content" message) as [content|]; [reflexivity|left; reflexivity].
  - left. reflexivity.
Qed.

(** The reply once the API has answered with [result]. *)
Lemma chat_after_result
    (key : string) (api : ApiRequest -> pyexn + json) (body : pyexn + json)
    (request : ApiRequest) (result : json) :
  snd (chat key api body) = [request] ->
  api request = inr result ->
  fst (chat key api body)
  = match extract_content result with
    | inr content => ChatResponse content
    | inl KeyError | inl IndexError => ChatError "Invalid response from API" (Some result)
    | inl e => ChatRaised e
    end.
Proof.
  unfold chat.
  destruct (String.eqb key ""); [discriminate|].
  destruct body as [e|data]; [discriminate|].
  destruct (dict_get data "model" (JStr default_model)) as [e|model]; [discriminate|].
  destruct (subscript data (KeyStr "messages")) as [e|messages]; [discriminate|].
  set (req := {| api_url := _ |}).
  destruct (api req) as [e|result'] eqn:Hapi.
  - simpl. intros Hsent Hres. injection Hsent as <-. congruence.
  - intros Hsent Hres.
    assert (Heq : req = request).
    { destruct (extract_content result') as [[]|]; simpl in Hsent; congruence. }
    subst request. rewrite Hapi in Hres. injection Hres as ->.
    destruct (extract_content result) as [[]|]; reflexivity.
Qed.

(** X7: [chat] answers with a response exactly when it sent a request and the
    API's result is an object whose [choices] is a non-empty array, whose
    first choice is an object and whose [message] is an object with a
    [content]; the response carries that content. *)
Theorem chat_responds_iff_content
    (key : string) (api : ApiRequest -> pyexn + json) (body : pyexn + json)
    (content : json) :
  fst (chat key api body) = ChatResponse content
  <-> exists request result,
        snd (chat key api body) = [request]
        /\ api request = inr result
        /\ content_at result = Some content.
Proof.
  split.
  - unfold chat.
    destruct (String.eqb key ""); [discriminate|].
    destruct body as [e|data]; [discriminate|].
    destruct (dict_get data "model" (JStr default_model)) as [e|model]; [discriminate|].
    destruct (subscript data (KeyStr "messages")) as [e|messages]; [discriminate|].
    set (req := {| api_url := _ |}).
    destruct (api req) as [e|result] eqn:Hapi; [discriminate|].
    pose proof (extract_content_by_shape result) as Hshape.
    destruct (extract_content result) as [e|content'] eqn:Hex.
    + destruct e; discriminate.
    + simpl. intros H. injection H as ->.
      exists req, result. repeat split; [exact Hapi|].
      destruct (content_at result) as [c|]; [congruence|].
      destruct (missing_field result); [destruct Hshape|]; discriminate.
  - intros [request [result [Hsent [Hapi Hc]]]].
    rewrite (chat_after_result key api body request result Hsent Hapi).
    pose proof (extract_content_by_shape result) as Hshape.
    rewrite Hc in Hshape. rewrite Hshape. reflexivity.
Qed.

(** X8: when the API's result lacks a part of the path to the content, [chat]
    answers with the error "Invalid response from API" and the whole result as
    details; when a part of the path is there but is no object or array to
    index (the result is an array, [choices] is [null], a choice is a string,
    ...), the [TypeError] raised is not caught. *)
Theorem chat_reply_without_content
    (key : string) (api : ApiRequest -> pyexn + json) (body : pyexn + json)
    (request : ApiRequest) (result : json) :
  snd (chat key api body) = [request] ->
  api request = inr result ->
  content_at result = None ->
  fst (chat key api body)
  = if missing_field result
    then ChatError "Invalid response from API" (Some result)
    else ChatRaised TypeError.
Proof.
  intros Hsent Hapi Hnone.
  rewrite (chat_after_result key api body request result Hsent Hapi).
  pose proof (extract_content_by_shape result) as Hshape.
  rewrite Hnone in Hshape.
  destruct (missing_field result).
  - destruct Hshape as [H|H]; rewrite H; reflexivity.
  - rewrite Hshape. reflexivity.
Qed.

Lemma chat_reply_without_content_witness :
  fst (chat "k1" (api_answers error_result) (inr sample_chat_body))
  = ChatError "Invalid response from API" (Some error_result)
  /\ fst (chat "k1" (api_answers null_choices_result) (inr sample_chat_body))
     = ChatRaised TypeError.
Proof.
  split.
  - exact (chat_reply_without_content "k1" (api_answers error_result)
             (inr sample_chat_body) sample_api_request error_result
             eq_refl eq_refl eq_refl).
  - exact (chat_reply_without_content "k1" (api_answers null_choices_result)
             (inr sample_chat_body) sample_api_request null_choices_result
             eq_refl eq_refl eq_refl).
Defined.

(** X9: [chat] calls the API at most once, and only when a key is configured
    and the body is an object with [messages]: without a key it answers with
    the configuration error whatever the body is; with a key and such a body
    it sends one request, with the key as bearer token, the body's model or
    the default one, and the body's messages; with a key and any other body
    it raises and sends nothing. *)
Theorem chat_sends_one_request_or_none
    (key : string) (api : ApiRequest -> pyexn + json) (body : pyexn + json) :
  (key = "" ->
   chat key api body = (ChatError "BLACKBOX_API_KEY not configured" None, []))
  /\ (key <> "" ->
      forall (members : list (string * json)) (messages : json),
        body = inr (JObj members) ->
        member "messages" members = Some messages ->
        snd (chat key api body)
        = [ {| api_url := "https://api.blackbox.ai/chat/completions";
               api_authorization := "Bearer " ++ key;
               api_content_type := "application/json";
               api_model := match member "model" members with
                            | Some model => model
                            | None => JStr default_model
                            end;
               api_messages := messages;
               api_stream := false;
               api_timeout := 120 |} ])
  /\ (key <> "" ->
      (forall (members : list (string * json)) (messages : json),
         body = inr (JObj members) -> member "messages" members <> Some messages) ->
      snd (chat key api body) = []
      /\ exists e, fst (chat key api body) = ChatRaised e).
Proof.
  split; [|split].
  - intros ->. reflexivity.
  - intros Hkey members messages -> Hm. unfold chat.
    apply String.eqb_neq in Hkey. rewrite Hkey.
    cbn [dict_get subscript]. rewrite Hm.
    destruct (member "model" members) as [model|];
      match goal with
      | |- context [api ?r] =>
          destruct (api r) as [e|result]; [reflexivity|];
          destruct (extract_content result) as [[]|]; reflexivity
      end.
  - intros Hkey Hbody. unfold chat.
    apply String.eqb_neq in Hkey. rewrite Hkey.
    destruct body as [e|data]; [split; [reflexivity|exists e; reflexivity]|].
    destruct data as [| | | | |members];
      try (split; [reflexivity|exists AttributeError; reflexivity]).
    cbn [dict_get subscript].
    destruct (member "messages" members) as [messages|] eqn:Hm.
    + exfalso. exact (Hbody members messages eq_refl Hm).
    + destruct (member "model" members);
        (split; [reflexivity|exists KeyError; reflexivity]).
Qed.

Lemma chat_sends_one_request_or_none_witness :
  chat "" (api_answers good_result) (inr sample_chat_body)
  = (ChatError "BLACKBOX_API_KEY not configured" None, [])
  /\ snd (chat "k1" (api_answers good_result) (inr sample_chat_body))
     = [sample_api_request]
  /\ (snd (chat "k1" (api_answers good_result) (inr (JArr []))) = []
      /\ exists e, fst (chat "k1" (api_answers good_result) (inr (JArr []))) = ChatRaised e).
Proof.
  split; [|split].
  - exact (proj1 (chat_sends_one_request_or_none "" (api_answers good_result)
                    (inr sample_chat_body)) eq_refl).
  - apply (proj1 (proj2 (chat_sends_one_request_or_none "k1" (api_answers good_result)
                           (inr sample_chat_body)))
             ltac:(discriminate) _ _ eq_refl eq_refl).
  - apply (proj2 (proj2 (chat_sends_one_request_or_none "k1" (api_answers good_result)
                           (inr (JArr []))))).
    + discriminate.
    + intros members messages H. discriminate.
Defined.

Example chat_sample :
  chat "k1" (api_answers good_result) (inr sample_chat_body)
  = (ChatResponse (JStr "Hello"), [sample_api_request]).
Proof. reflexivity. Qed.

(** ** The reader page *)

Lemma load_book_cached_stores (BOOKS_DIR identity : string) (w : world) :
  functools.lookup identity (cache (snd (load_book_cached BOOKS_DIR identity w)))
  = Some (fst (load_book_cached BOOKS_DIR identity w)).
Proof.
  rewrite load_book_cached_cache.
  destruct (functools.lookup identity (cache w)) as [r|] eqn:Hlk.
  - rewrite (load_book_cached_hit _ _ _ _ Hlk). apply lookup_head.
  - rewrite (load_book_cached_miss _ _ _ Hlk). unfold functools.store. rewrite Hlk.
    destruct (maxsize <=? List.length (cache w))%nat; apply lookup_head.
Qed.

(** The page [read_chapter] renders for a found book and an index in range. *)
Lemma read_chapter_found
    (BOOKS_DIR : string) (request : Request) (book_id : string) (i : Z)
    (w w1 : world) (book : Book) :
  load_book_cached BOOKS_DIR book_id w = (Some book, w1) ->
  0 <= i < Z.of_nat (List.length (spine book)) ->
  exists chapter,
    nth_error (spine book) (Z.to_nat i) = Some chapter
    /\ read_chapter BOOKS_DIR request book_id i w
       = (ReaderPage
            {| rc_request := request; rc_book := book;
               rc_current_chapter := chapter; rc_chapter_index := i;
               rc_book_id := book_id;
               rc_prev_idx := if i >? 0 then Some (i - 1) else None;
               rc_next_idx := if i <? Z.of_nat (List.length (spine book)) - 1
                              then Some (i + 1) else None |}, w1).
Proof.
  intros Hget Hi.
  destruct (getitem_in_range (spine book) i Hi) as [chapter [Hitem Hnth]].
  exists chapter. split; [exact Hnth|].
  unfold read_chapter. rewrite Hget.
  destruct (i <? 0) eqn:Hneg; [apply Z.ltb_lt in Hneg; lia|].
  destruct (i >=? Z.of_nat (List.length (spine book))) eqn:Hge;
    [rewrite Z.geb_le in Hge; lia|].
  simpl. rewrite Hitem. reflexivity.
Qed.

(** A rendered page comes from a found book and an index in range. *)
Lemma read_chapter_page_inv
    (BOOKS_DIR : string) (request : Request) (book_id : string) (i : Z)
    (w w1 : world) (context : ReaderContext) :
  read_chapter BOOKS_DIR request book_id i w = (ReaderPage context, w1) ->
  load_book_cached BOOKS_DIR book_id w = (Some (rc_book context), w1)
  /\ 0 <= i < Z.of_nat (List.length (spine (rc_book context)))
  /\ rc_prev_idx context = (if i >? 0 then Some (i - 1) else None)
  /\ rc_next_idx context
     = (if i <? Z.of_nat (List.length (spine (rc_book context))) - 1
        then Some (i + 1) else None).
Proof.
  unfold read_chapter.
  destruct (load_book_cached BOOKS_DIR book_id w) as [[book|] w'];
    [|intros H; discriminate].
  destruct (i <? 0) eqn:Hneg; [intros H; discriminate|].
  destruct (i >=? Z.of_nat (List.length (spine book))) eqn:Hge;
    [intros H; discriminate|].
  simpl.
  destruct (getitem (spine book) i) as [chapter|]; [|intros H; discriminate].
  intros H. injection H as <- <-. simpl.
  apply Z.ltb_ge in Hneg. rewrite Z.geb_leb in Hge. apply Z.leb_gt in Hge.
  repeat split; assumption.
Qed.

(** ** Reloading the catalog *)


Lemma get_all_keeps_fs (BOOKS_DIR : string) (identities : list string) :
  forall w, fs (get_all BOOKS_DIR identities w) = fs w.
Proof.
  induction identities as [|k rest IH]; intros w; simpl; [reflexivity|].
  rewrite IH. apply load_book_cached_keeps_fs.
Qed.

Lemma list_books_world (BOOKS_DIR : string) (candidates : list string) :
  forall w, snd (list_books BOOKS_DIR candidates w) = get_all BOOKS_DIR candidates w.
Proof.
  induction candidates as [|k rest IH]; intros w; simpl; [reflexivity|].
  destruct (load_book_cached BOOKS_DIR k w) as [found w1]. simpl.
  specialize (IH w1).
  destruct (list_books BOOKS_DIR rest w1) as [more w2]. exact IH.
Qed.

Lemma list_books_cons (BOOKS_DIR k : string) (rest : list string) (w : world) :
  fst (list_books BOOKS_DIR (k :: rest) w)
  = (match fst (load_book_cached BOOKS_DIR k w) with
     | Some book => [summary k book]
     | None => []
     end
     ++ fst (list_books BOOKS_DIR rest (snd (load_book_cached BOOKS_DIR k w))))%list.
Proof.
  simpl. destruct (load_book_cached BOOKS_DIR k w) as [[book|] w1]; simpl;
    destruct (list_books BOOKS_DIR rest w1) as [more w2]; reflexivity.
Qed.

(** [library_view] over a root that is a directory, in one equation. *)
Lemma library_view_dir
    (BOOKS_DIR : string) (request : Request) (children : list string) (w : world) :
  fs w BOOKS_DIR = Dir children ->
  library_view BOOKS_DIR request w
  = (LibraryPage request
       (fst (list_books BOOKS_DIR (list_candidates BOOKS_DIR children (fs w)) w)),
     get_all BOOKS_DIR (list_candidates BOOKS_DIR children (fs w)) w).
Proof.
  intros Hroot. unfold library_view, os.exists_, os.listdir. rewrite Hroot.
  rewrite library_loop_list_books, list_books_world. reflexivity.
Qed.

Lemma lookup_middle {V : Type} (k : string) (v : V) (F R : list (string * V)) :
  NoDup (map fst (F ++ (k, v) :: R)) ->
  functools.lookup k (F ++ (k, v) :: R) = Some v.
Proof.
  induction F as [|[k' v'] F IH]; simpl; intros Hnd.
  - rewrite String.eqb_refl. reflexivity.
  - inversion Hnd as [|x l Hout Hnd']; subst.
    destruct (String.eqb_spec k' k) as [->|_]; [|exact (IH Hnd')].
    exfalso. apply Hout. rewrite map_app. apply in_or_app. right. left. reflexivity.
Qed.

(** A [get] for another identity leaves an entry in the cache, one place
    further back at most, as long as fewer than nine entries are ahead of
    it. *)
Lemma load_book_cached_keeps_entry
    (BOOKS_DIR k other : string) (v : option Book) (n : nat) (w : world) :
  other <> k -> (n <= 8)%nat ->
  (exists F R, cache w = (F ++ (k, v) :: R)%list /\ (List.length F <= n)%nat) ->
  exists F R,
    cache (snd (load_book_cached BOOKS_DIR other w)) = (F ++ (k, v) :: R)%list
    /\ (List.length F <= S n)%nat.
Proof.
  intros Hne Hn [F [R [Hcache HF]]]. rewrite load_book_cached_cache.
  destruct (functools.lookup other (cache w)) as [r|] eqn:Hlk.
  - exists ((other, r) :: functools.unlink other F), (functools.unlink other R).
    unfold functools.touch. rewrite Hcache, unlink_app. simpl.
    destruct (String.eqb_spec k other) as [Heq|_]; [congruence|].
    split; [reflexivity|]. pose proof (length_unlink_le other F). lia.
  - unfold functools.store. rewrite Hlk.
    destruct (Nat.leb_spec maxsize (List.length (cache w))) as [Hfull|Hroom].
    + destruct R as [|e R].
      * exfalso. rewrite Hcache, length_app in Hfull. simpl in Hfull.
        unfold maxsize in Hfull. lia.
      * exists ((other, loadable_book BOOKS_DIR other w) :: F), (removelast (e :: R)).
        rewrite Hcache, removelast_app by discriminate.
        change (removelast ((k, v) :: e :: R)) with ((k, v) :: removelast (e :: R)).
        split; [reflexivity|simpl; lia].
    + exists ((other, loadable_book BOOKS_DIR other w) :: F), R.
      rewrite Hcache. split; [reflexivity|simpl; lia].
Qed.









Lemma loadable_book_by_fs (BOOKS_DIR k : string) (w w' : world) :
  fs w' = fs w -> loadable_book BOOKS_DIR k w' = loadable_book BOOKS_DIR k w.
Proof. intros H. unfold loadable_book. rewrite H. reflexivity. Qed.




(** ** The cache under any traffic *)

Lemma get_all_wf (BOOKS_DIR : string) (identities : list string) :
  forall w,
    NoDup (cache_keys w) -> (List.length (cache w) <= maxsize)%nat ->
    NoDup (cache_keys (get_all BOOKS_DIR identities w))
    /\ (List.length (cache (get_all BOOKS_DIR identities w)) <= maxsize)%nat.
Proof.
  induction identities as [|k rest IH]; intros w Hnd Hlen; simpl.
  - split; assumption.
  - destruct (load_book_cached_wf BOOKS_DIR k w Hnd Hlen) as [Hnd1 Hlen1].
    apply IH; assumption.
Qed.

Lemma library_view_world (BOOKS_DIR : string) (request : Request) (w : world) :
  snd (library_view BOOKS_DIR request w) = w
  \/ exists identities, snd (library_view BOOKS_DIR request w) = get_all BOOKS_DIR identities w.
Proof.
  destruct (fs w BOOKS_DIR) as [| children | d] eqn:Hroot.
  - left. unfold library_view, os.exists_. rewrite Hroot. reflexivity.
  - right. rewrite (library_view_dir BOOKS_DIR request children w Hroot).
    eexists. reflexivity.
  - left. unfold library_view, os.exists_, os.listdir. rewrite Hroot. reflexivity.
Qed.

Lemma read_chapter_world
    (BOOKS_DIR : string) (request : Request) (book_id : string) (i : Z) (w : world) :
  snd (read_chapter BOOKS_DIR request book_id i w)
  = snd (load_book_cached BOOKS_DIR book_id w).
Proof.
  unfold read_chapter.
  destruct (load_book_cached BOOKS_DIR book_id w) as [[book|] w1]; [|reflexivity].
  destruct ((i <? 0) || (i >=? Z.of_nat (List.length (spine book)))); [reflexivity|].
  destruct (getitem (spine book) i); reflexivity.
Qed.

(** The cache after an upload is the one before it or empty, when the
    ingestion leaves the cache alone. *)
Lemma upload_epub_cache
    (BOOKS_DIR : string)
    (process_epub : string -> string -> world -> (string + Book) * world)
    (save_to_pickle : Book -> string -> world -> (string + unit) * world)
    (filename content tmp_path : string) (w : world) :
  (forall a b w0, cache (snd (process_epub a b w0)) = cache w0) ->
  (forall book d w0, cache (snd (save_to_pickle book d w0)) = cache w0) ->
  cache (snd (upload_epub BOOKS_DIR process_epub save_to_pickle
                filename content tmp_path w)) = cache w
  \/ cache (snd (upload_epub BOOKS_DIR process_epub save_to_pickle
                   filename content tmp_path w)) = [].
Proof.
  intros Hpe Hsp. unfold upload_epub.
  destruct (negb (PyStr.endswith filename ".epub")); [left; reflexivity|].
  set (w1 := set_fs _ w).
  assert (H0 : cache w1 = cache w) by reflexivity.
  pose proof (Hpe tmp_path (upload_output_dir BOOKS_DIR filename) w1) as H1.
  destruct (process_epub tmp_path (upload_output_dir BOOKS_DIR filename) w1)
    as [[e|book] w2]; simpl in H1; [left; simpl; congruence|].
  pose proof (Hsp book (upload_output_dir BOOKS_DIR filename) w2) as H2.
  destruct (save_to_pickle book (upload_output_dir BOOKS_DIR filename) w2)
    as [[e|u] w3]; simpl in H2; [left; simpl; congruence|].
  destruct (os.unlink tmp_path (fs w3)) as [e|f]; [left; simpl; congruence|].
  right. reflexivity.
Qed.

(** X13: whatever requests the server handles, in whatever order (catalog,
    reader, bare read, image, upload), the cache holds at most ten entries
    and no identity twice, provided the ingestion pipeline does not touch the
    cache itself. *)
Theorem cache_bounded_under_any_traffic
    (BOOKS_DIR : string)
    (process_epub : string -> string -> world -> (string + Book) * world)
    (save_to_pickle : Book -> string -> world -> (string + unit) * world)
    (requests : list http_request) (f : filesystem) :
  (forall a b w0, cache (snd (process_epub a b w0)) = cache w0) ->
  (forall book d w0, cache (snd (save_to_pickle book d w0)) = cache w0) ->
  (List.length (cache (serve_all BOOKS_DIR process_epub save_to_pickle requests (boot f)))
   <= 10)%nat
  /\ NoDup (cache_keys (serve_all BOOKS_DIR process_epub save_to_pickle requests (boot f))).
Proof.
  intros Hpe Hsp.
  assert (Hstep : forall q w,
             NoDup (cache_keys w) /\ (List.length (cache w) <= maxsize)%nat ->
             NoDup (cache_keys (snd (handle BOOKS_DIR process_epub save_to_pickle q w)))
             /\ (List.length (cache (snd (handle BOOKS_DIR process_epub save_to_pickle q w)))
                 <= maxsize)%nat).
  { intros q w [Hnd Hlen].
    destruct q as [request|book_id|request book_id i|book_id image_name
                   |filename content tmp_path]; cbn [handle].
    - destruct (library_view_world BOOKS_DIR request w) as [->|[ks ->]];
        [split; assumption|apply get_all_wf; assumption].
    - change (snd (redirect_to_first_chapter BOOKS_DIR book_id w)) with w.
      split; assumption.
    - rewrite read_chapter_world. apply load_book_cached_wf; assumption.
    - unfold serve_image.
      destruct (negb (os.exists_ (fs w) (image_path BOOKS_DIR book_id image_name)));
        split; assumption.
    - unfold cache_keys.
      destruct (upload_epub_cache BOOKS_DIR process_epub save_to_pickle
                  filename content tmp_path w Hpe Hsp) as [->| ->];
        [split; assumption|split; [constructor|simpl; lia]]. }
  assert (Hinv : forall qs w,
             NoDup (cache_keys w) /\ (List.length (cache w) <= maxsize)%nat ->
             NoDup (cache_keys (serve_all BOOKS_DIR process_epub save_to_pickle qs w))
             /\ (List.length (cache (serve_all BOOKS_DIR process_epub save_to_pickle qs w))
                 <= maxsize)%nat).
  { induction qs as [|q qs IH]; intros w Hw; simpl; [exact Hw|].
    apply IH. apply Hstep. exact Hw. }
  destruct (Hinv requests (boot f)) as [Hnd Hlen];
    [split; [constructor|simpl; lia]|].
  split; [exact Hlen|exact Hnd].
Qed.

Lemma cache_bounded_under_any_traffic_witness :
  (List.length
     (cache (serve_all "books" process_epub_ok save_to_pickle_ok sample_traffic
               (boot sample_fs))) <= 10)%nat
  /\ NoDup (cache_keys (serve_all "books" process_epub_ok save_to_pickle_ok sample_traffic
                          (boot sample_fs))).
Proof.
  apply (cache_bounded_under_any_traffic "books" process_epub_ok save_to_pickle_ok
           sample_traffic sample_fs).
  - intros a b w0. reflexivity.
  - intros book d w0. reflexivity.
Defined.

(** ** From an upload to the reader and the catalog *)

Lemma endswith_suffix (s t : string) : PyStr.endswith (s ++ t) t = true.
Proof.
  unfold PyStr.endswith. rewrite length_append.
  destruct (Nat.leb_spec (String.length t) (String.length s + String.length t)) as [_|H];
    [|lia].
  replace (String.length s + String.length t - String.length t)%nat
    with (String.length s + 0)%nat by lia.
  rewrite substring_skip, substring_all. apply String.eqb_refl.
Qed.

Lemma lookup_removelast_Some {V : Type} (k : string) (v : V) (es : list (string * V)) :
  functools.lookup k (removelast es) = Some v -> functools.lookup k es = Some v.
Proof.
  induction es as [|[k0 v0] es IH]; [intros H; exact H|].
  destruct es as [|e es]; [intros H; discriminate|].
  change (removelast ((k0, v0) :: e :: es)) with ((k0, v0) :: removelast (e :: es)).
  cbn [functools.lookup].
  destruct (String.eqb k0 k); [intros H; exact H|exact IH].
Qed.



(** The world a successful upload leaves: the one the ingestion left, without
    the temporary file and with an empty cache. *)
Lemma upload_epub_success
    (BOOKS_DIR : string)
    (process_epub : string -> string -> world -> (string + Book) * world)
    (save_to_pickle : Book -> string -> world -> (string + unit) * world)
    (filename content tmp_path : string) (w : world)
    (book : Book) (w2 w3 : world) (d : filedata) :
  PyStr.endswith filename ".epub" = true ->
  process_epub tmp_path (upload_output_dir BOOKS_DIR filename)
    (set_fs (os.write tmp_path (Bytes content) (fs w)) w) = (inr book, w2) ->
  save_to_pickle book (upload_output_dir BOOKS_DIR filename) w2 = (inr tt, w3) ->
  fs w3 tmp_path = File d ->
  upload_epub BOOKS_DIR process_epub save_to_pickle filename content tmp_path w
  = (JSONResponse 200 (UploadSuccess (title (metadata book)) (upload_id filename)),
     cache_clear
       (set_fs (fun p => if String.eqb p tmp_path then Absent else fs w3 p) w3)).
Proof.
  intros Hext Hproc Hsave Htmp. unfold upload_epub. rewrite Hext. simpl.
  rewrite Hproc, Hsave. unfold os.unlink. rewrite Htmp. reflexivity.
Qed.

(** X14: after a successful upload the new book is what the reader serves
    under the identity the upload answered with, even if the cache held
    something else for that identity before: the ingestion's artifact is on
    disk, the cache was cleared, so every chapter index in range renders from
    the new book. *)
Theorem uploaded_book_is_served
    (BOOKS_DIR : string)
    (process_epub : string -> string -> world -> (string + Book) * world)
    (save_to_pickle : Book -> string -> world -> (string + unit) * world)
    (filename content tmp_path : string) (w : world)
    (book : Book) (w2 w3 : world) (d : filedata) :
  PyStr.endswith filename ".epub" = true ->
  process_epub tmp_path (upload_output_dir BOOKS_DIR filename)
    (set_fs (os.write tmp_path (Bytes content) (fs w)) w) = (inr book, w2) ->
  save_to_pickle book (upload_output_dir BOOKS_DIR filename) w2 = (inr tt, w3) ->
  fs w3 tmp_path = File d ->
  fs w3 (posixpath.join (upload_output_dir BOOKS_DIR filename) ["book.pkl"])
  = File (Pickled book) ->
  tmp_path <> posixpath.join (upload_output_dir BOOKS_DIR filename) ["book.pkl"] ->
  exists w',
    upload_epub BOOKS_DIR process_epub save_to_pickle filename content tmp_path w
    = (JSONResponse 200 (UploadSuccess (title (metadata book)) (upload_id filename)), w')
    /\ forall (request : Request) (i : Z),
         0 <= i < Z.of_nat (List.length (spine book)) ->
         exists context,
           fst (read_chapter BOOKS_DIR request (upload_id filename) i w')
           = ReaderPage context
           /\ rc_book context = book
           /\ nth_error (spine book) (Z.to_nat i) = Some (rc_current_chapter context).
Proof.
  intros Hext Hproc Hsave Htmp Hart Hdiff.
  rewrite (upload_epub_success _ _ _ _ _ _ _ _ _ _ _ Hext Hproc Hsave Htmp).
  eexists. split; [reflexivity|].
  intros request i Hi.
  set (w' := cache_clear _).
  assert (Hget : load_book_cached BOOKS_DIR (upload_id filename) w'
                 = (Some book,
                    snd (load_book_cached BOOKS_DIR (upload_id filename) w'))).
  { rewrite (load_book_cached_miss BOOKS_DIR (upload_id filename) w' eq_refl).
    cbn [snd]. f_equal.
    unfold loadable_book. subst w'. cbn [fs cache_clear set_cache set_fs].
    change (posixpath.join BOOKS_DIR [upload_id filename; "book.pkl"])
      with (posixpath.join (upload_output_dir BOOKS_DIR filename) ["book.pkl"]).
    destruct (String.eqb_spec
                (posixpath.join (upload_output_dir BOOKS_DIR filename) ["book.pkl"])
                tmp_path) as [Heq|_]; [congruence|].
    rewrite Hart. reflexivity. }
  destruct (read_chapter_found BOOKS_DIR request (upload_id filename) i w' _ book Hget Hi)
    as [chapter [Hnth Hread]].
  rewrite Hread. eexists. split; [reflexivity|]. split; [reflexivity|exact Hnth].
Qed.

Lemma uploaded_book_is_served_witness :
  exists w',
    upload_epub "books" process_epub_ok save_to_pickle_ok
      "broken.epub" "bytes" "/tmp/tmpq1.epub"
      (snd (load_book_cached "books" "broken_data" (boot sample_fs)))
    = (JSONResponse 200 (UploadSuccess "Sample" "broken_data"), w')
    /\ forall (request : Request) (i : Z),
         0 <= i < Z.of_nat (List.length (spine sample_book)) ->
         exists context,
           fst (read_chapter "books" request "broken_data" i w') = ReaderPage context
           /\ rc_book context = sample_book
           /\ nth_error (spine sample_book) (Z.to_nat i) = Some (rc_current_chapter context).
Proof.
  eapply (uploaded_book_is_served "books" process_epub_ok save_to_pickle_ok
            "broken.epub" "bytes" "/tmp/tmpq1.epub"
            (snd (load_book_cached "books" "broken_data" (boot sample_fs)))
            sample_book _ _ (Bytes "bytes")).
  - reflexivity.
  - reflexivity.
  - reflexivity.
  - reflexivity.
  - reflexivity.
  - discriminate.
Defined.



(** ** The identity an upload gets *)

Lemma rfind_from_absent (c : ascii) (s : string) :
  forall i last : Z, PyStr.contains c s = false -> PyStr.rfind_from c s i last = last.
Proof.
  induction s as [|a s IH]; intros i last H; [reflexivity|].
  cbn [PyStr.contains] in H. apply orb_false_iff in H. destruct H as [Ha Hs].
  simpl. rewrite Ha. apply IH. exact Hs.
Qed.

Lemma rfind_from_append_clean (c : ascii) (s t : string) :
  forall i last : Z,
    PyStr.contains c t = false ->
    PyStr.rfind_from c (s ++ t) i last = PyStr.rfind_from c s i last.
Proof.
  induction s as [|a s IH]; intros i last H.
  - simpl. apply rfind_from_absent. exact H.
  - simpl. apply IH. exact H.
Qed.

Lemma rfind_from_last (c : ascii) (pre post : string) :
  forall i last : Z,
    PyStr.contains c post = false ->
    PyStr.rfind_from c (pre ++ String c post) i last = i + PyStr.len pre.
Proof.
  induction pre as [|a pre IH]; intros i last H.
  - simpl. rewrite Ascii.eqb_refl, (rfind_from_absent c post _ _ H).
    unfold PyStr.len. simpl. lia.
  - simpl. rewrite (IH _ _ H). unfold PyStr.len. simpl String.length. lia.
Qed.

(** A string splits at the start of its final component. *)
Lemma basename_split (p : string) :
  exists dir,
    p = dir ++ posixpath.basename p /\ PyStr.len dir = PyStr.rfind p posixpath.sep + 1.
Proof.
  unfold posixpath.basename, PyStr.rfind.
  destruct (rfind_from_spec posixpath.sep p 0 (-1))
    as [[Hr Hc]|[pre [post [Hs [Hr Hc]]]]]; rewrite Hr.
  - exists "". split; [|reflexivity].
    unfold PyStr.slice_from. simpl. rewrite Z.min_l by (unfold PyStr.len; lia).
    simpl. rewrite Z.sub_0_r. unfold PyStr.len. rewrite Nat2Z.id.
    symmetry. apply substring_all.
  - exists (pre ++ String posixpath.sep "").
    assert (Hlen : PyStr.len (pre ++ String posixpath.sep "") = 0 + PyStr.len pre + 1)
      by (unfold PyStr.len; rewrite length_append; simpl; lia).
    split; [|exact Hlen].
    rewrite <- Hlen.
    assert (Hp : p = (pre ++ String posixpath.sep "") ++ post)
      by (rewrite append_assoc; exact Hs).
    rewrite Hp at 2. rewrite slice_from_append. exact Hp.
Qed.

Lemma char_at_append (pre : string) (a : ascii) (rest : string) :
  PyStr.char_at (pre ++ String a rest) (PyStr.len pre) = String a "".
Proof.
  unfold PyStr.char_at, PyStr.len.
  destruct (Z.of_nat (String.length pre) <? 0) eqn:H; [apply Z.ltb_lt in H; lia|].
  rewrite Nat2Z.id.
  replace (String.length pre) with (String.length pre + 0)%nat at 1 by lia.
  rewrite substring_skip. simpl. destruct rest; reflexivity.
Qed.

(** The scan of [splitext] over a run [b] of the path finds a character that
    is not a dot exactly when [b] is not made of dots only. *)
Lemma has_nondot_scan (b : string) :
  forall (pre rest : string) (fuel : nat),
    (String.length b <= fuel)%nat ->
    posixpath.has_nondot (pre ++ b ++ rest) (PyStr.len pre) (PyStr.len pre + PyStr.len b) fuel
    = negb (all_dots b).
Proof.
  induction b as [|a b IH]; intros pre rest fuel Hfuel.
  - destruct fuel as [|fuel]; [reflexivity|]. cbn [posixpath.has_nondot].
    replace (PyStr.len pre + PyStr.len "") with (PyStr.len pre)
      by (unfold PyStr.len; simpl; lia).
    rewrite Z.ltb_irrefl. reflexivity.
  - destruct fuel as [|fuel]; [simpl in Hfuel; lia|]. cbn [posixpath.has_nondot].
    assert (Hlt : (PyStr.len pre <? PyStr.len pre + PyStr.len (String a b)) = true)
      by (apply Z.ltb_lt; unfold PyStr.len; simpl String.length; lia).
    rewrite Hlt.
    change ((String a b) ++ rest) with (String a (b ++ rest)).
    rewrite char_at_append. cbn [all_dots].
    change (String.eqb (String a "") ".") with (Ascii.eqb a "."%char && true)%bool.
    rewrite andb_true_r.
    destruct (Ascii.eqb a "."%char) eqn:Ha; [|reflexivity].
    simpl negb. cbv iota. simpl andb.
    replace (pre ++ String a (b ++ rest)) with ((pre ++ String a "") ++ b ++ rest)
      by (rewrite append_assoc; reflexivity).
    replace (PyStr.len pre + 1) with (PyStr.len (pre ++ String a ""))
      by (unfold PyStr.len; rewrite length_append; simpl; lia).
    replace (PyStr.len pre + PyStr.len (String a b))
      with (PyStr.len (pre ++ String a "") + PyStr.len b)
      by (unfold PyStr.len; rewrite length_append; simpl String.length; lia).
    apply IH. simpl in Hfuel. lia.
Qed.

Lemma substring_prefix (s t : string) :
  String.substring 0 (String.length s) (s ++ t) = s.
Proof.
  induction s as [|a s IH]; simpl.
  - destruct t; reflexivity.
  - rewrite IH. reflexivity.
Qed.

Lemma slice_to_append (s t : string) : PyStr.slice_to (s ++ t) (PyStr.len s) = s.
Proof.
  unfold PyStr.slice_to, PyStr.len. rewrite length_append.
  destruct (Z.of_nat (String.length s) <? 0) eqn:H; [apply Z.ltb_lt in H; lia|].
  rewrite Z.min_l by lia. rewrite Nat2Z.id. apply substring_prefix.
Qed.

(** [splitext] on a name that ends in [.epub]: the extension comes off unless
    the final component before it is empty or made of dots only. *)
Lemma splitext_epub (stem : string) :
  posixpath.splitext (stem ++ ".epub")
  = if all_dots (posixpath.basename stem) then (stem ++ ".epub", "") else (stem, ".epub").
Proof.
  unfold posixpath.splitext.
  assert (Hdot : PyStr.rfind (stem ++ ".epub") posixpath.extsep = PyStr.len stem).
  { unfold PyStr.rfind. change ".epub" with (String posixpath.extsep "epub").
    rewrite (rfind_from_last posixpath.extsep stem "epub" 0 (-1) eq_refl). lia. }
  assert (Hsep : PyStr.rfind (stem ++ ".epub") posixpath.sep = PyStr.rfind stem posixpath.sep).
  { unfold PyStr.rfind. apply rfind_from_append_clean. reflexivity. }
  rewrite Hdot, Hsep.
  destruct (basename_split stem) as [dir [Hstem Hdir]].
  set (b := posixpath.basename stem) in *.
  assert (Hlen : PyStr.len stem = PyStr.len dir + PyStr.len b).
  { rewrite Hstem at 1. unfold PyStr.len. rewrite length_append. lia. }
  assert (Hgt : (PyStr.len stem >? PyStr.rfind stem posixpath.sep) = true).
  { rewrite Z.gtb_ltb. apply Z.ltb_lt. unfold PyStr.len in *. lia. }
  rewrite Hgt. cbn [andb].
  assert (Hscan : posixpath.has_nondot (stem ++ ".epub")
                    (PyStr.rfind stem posixpath.sep + 1) (PyStr.len stem)
                    (Z.to_nat (PyStr.len stem - PyStr.rfind stem posixpath.sep))
                  = negb (all_dots b)).
  { rewrite <- Hdir, Hlen. rewrite Hstem at 1. rewrite append_assoc.
    apply has_nondot_scan. unfold PyStr.len in *. lia. }
  rewrite Hscan.
  destruct (all_dots b); cbn [negb]; [reflexivity|].
  rewrite slice_to_append, slice_from_append. reflexivity.
Qed.

Lemma substring_split (s : string) :
  forall k : nat,
    (k <= String.length s)%nat ->
    s = String.substring 0 k s ++ String.substring k (String.length s - k) s.
Proof.
  induction s as [|a s IH]; intros k Hk.
  - destruct k; reflexivity.
  - destruct k as [|k].
    + simpl. rewrite substring_all. reflexivity.
    + simpl. rewrite <- IH by (simpl in Hk; lia). reflexivity.
Qed.

Lemma endswith_inv (s t : string) :
  PyStr.endswith s t = true -> exists pre, s = pre ++ t.
Proof.
  unfold PyStr.endswith.
  destruct (Nat.leb_spec (String.length t) (String.length s)) as [Hle|_];
    [|discriminate].
  intros H. apply String.eqb_eq in H.
  exists (String.substring 0 (String.length s - String.length t) s).
  pose proof (substring_split s (String.length s - String.length t)) as Hs.
  replace (String.length s - (String.length s - String.length t))%nat
    with (String.length t) in Hs by lia.
  rewrite H in Hs. apply Hs. lia.
Qed.

(** X16: the names [upload_epub] accepts are exactly those of the form
    [stem ++ ".epub"], and the identity it derives is [stem ++ "_data"],
    unless the final component of [stem] is empty or made of dots only (as in
    [.epub] or [dir/..epub]), in which case the extension stays and the
    identity is the whole name followed by [_data].  Either way the identity
    ends in [_data], the suffix the catalog looks for. *)
Theorem upload_id_of_accepted_name (stem : string) :
  (forall name : string,
     PyStr.endswith name ".epub" = true <-> exists stem', name = stem' ++ ".epub")
  /\ upload_id (stem ++ ".epub")
     = (if all_dots (posixpath.basename stem) then stem ++ ".epub" else stem) ++ "_data"
  /\ PyStr.endswith (upload_id (stem ++ ".epub")) "_data" = true.
Proof.
  split; [|split].
  - intros name. split; [apply endswith_inv|].
    intros [stem' ->]. apply endswith_suffix.
  - unfold upload_id. rewrite splitext_epub.
    destruct (all_dots (posixpath.basename stem)); reflexivity.
  - unfold upload_id. apply endswith_suffix.
Qed.

Example upload_id_1 : upload_id "Moby Dick.epub" = "Moby Dick_data". Proof. reflexivity. Qed.
Example upload_id_2 : upload_id ".epub" = ".epub_data". Proof. reflexivity. Qed.
Example upload_id_3 : upload_id "a.b.epub" = "a.b_data". Proof. reflexivity. Qed.

(** ** What the catalog lists *)

(** The entries of a pass come from its candidates, one at most for each. *)
Lemma list_books_entries (BOOKS_DIR : string) (candidates : list string) :
  forall w,
    (forall entry, In entry (fst (list_books BOOKS_DIR candidates w)) ->
       In (bs_id entry) candidates)
    /\ (List.length (fst (list_books BOOKS_DIR candidates w)) <= List.length candidates)%nat.
Proof.
  induction candidates as [|k rest IH]; intros w.
  - split; [intros entry []|simpl; lia].
  - rewrite list_books_cons.
    destruct (IH (snd (load_book_cached BOOKS_DIR k w))) as [Hids Hlen].
    split.
    + intros entry Hin. apply in_app_or in Hin. destruct Hin as [Hin|Hin].
      * destruct (fst (load_book_cached BOOKS_DIR k w)) as [book|]; [|destruct Hin].
        destruct Hin as [<-|[]]. left. reflexivity.
      * right. apply Hids. exact Hin.
    + rewrite length_app.
      destruct (fst (load_book_cached BOOKS_DIR k w)); simpl; lia.
Qed.

(** X18: the catalog page never lists anything but book folders: the id of
    every entry is the name of a direct child of the store root that is a
    directory and ends in [_data], and the page has no more entries than the
    root has such children. *)
Theorem library_view_lists_only_book_folders
    (BOOKS_DIR : string) (request : Request) (children : list string) (w : world)
    (books : list BookSummary) (w' : world) :
  fs w BOOKS_DIR = Dir children ->
  library_view BOOKS_DIR request w = (LibraryPage request books, w') ->
  (forall entry : BookSummary,
     In entry books ->
     In (bs_id entry) children
     /\ PyStr.endswith (bs_id entry) "_data" = true
     /\ os.isdir (fs w) (posixpath.join BOOKS_DIR [bs_id entry]) = true)
  /\ (List.length books
      <= List.length (filter (fun name =>
                                PyStr.endswith name "_data"
                                && os.isdir (fs w) (posixpath.join BOOKS_DIR [name]))
                             children))%nat.
Proof.
  intros Hroot Hview.
  rewrite (library_view_dir BOOKS_DIR request children w Hroot) in Hview.
  injection Hview as <- _.
  destruct (list_books_entries BOOKS_DIR (list_candidates BOOKS_DIR children (fs w)) w)
    as [Hids Hlen].
  split; [|exact Hlen].
  intros entry Hin. specialize (Hids entry Hin).
  unfold list_candidates in Hids. apply filter_In in Hids.
  destruct Hids as [Hchild Hcand]. apply andb_true_iff in Hcand.
  destruct Hcand as [Hsuffix Hdir]. repeat split; assumption.
Qed.

Lemma library_view_lists_only_book_folders_witness :
  (forall entry : BookSummary,
     In entry [ {| bs_id := "Sample_data"; bs_title := "Sample";
                   bs_author := "A. Author"; bs_chapters := 3 |} ] ->
     In (bs_id entry) ["Sample_data"; "notes.txt"; "broken_data"]
     /\ PyStr.endswith (bs_id entry) "_data" = true
     /\ os.isdir sample_fs (posixpath.join "books" [bs_id entry]) = true)
  /\ (1 <= 2)%nat.
Proof.
  exact (library_view_lists_only_book_folders "books" sample_request
           ["Sample_data"; "notes.txt"; "broken_data"] (boot sample_fs)
           _ _ eq_refl eq_refl).
Defined.

(** ** The loader over any pickle *)

(** The loader branches on what the artifact path holds: nothing, a
    directory, a pickle or a file that does not load. *)
Ltac by_any_artifact w :=
  simpl; destruct (AnyPickle.fs w _) as [|[|]|[|]]; reflexivity.

Lemma any_load_book_keeps_cache (BOOKS_DIR identity : string) (w : AnyPickle.world) :
  AnyPickle.cache (snd (AnyPickle.load_book BOOKS_DIR identity w)) = AnyPickle.cache w.
Proof. unfold AnyPickle.load_book. by_any_artifact w. Qed.

Lemma any_load_book_keeps_fs (BOOKS_DIR identity : string) (w : AnyPickle.world) :
  AnyPickle.fs (snd (AnyPickle.load_book BOOKS_DIR identity w)) = AnyPickle.fs w.
Proof. unfold AnyPickle.load_book. by_any_artifact w. Qed.

Lemma any_load_book_result (BOOKS_DIR identity : string) (w : AnyPickle.world) :
  fst (AnyPickle.load_book BOOKS_DIR identity w) = AnyPickle.loadable BOOKS_DIR identity w.
Proof. unfold AnyPickle.load_book, AnyPickle.loadable. by_any_artifact w. Qed.

Lemma any_load_book_reads_disk (BOOKS_DIR identity : string) (w : AnyPickle.world) :
  AnyPickle.disk_reads (snd (AnyPickle.load_book BOOKS_DIR identity w))
  = posixpath.join BOOKS_DIR [identity; "book.pkl"] :: AnyPickle.disk_reads w.
Proof. unfold AnyPickle.load_book. by_any_artifact w. Qed.

Lemma any_load_book_cached_hit
    (BOOKS_DIR identity : string) (w : AnyPickle.world) (r : option AnyPickle.pyobject) :
  functools.lookup identity (AnyPickle.cache w) = Some r ->
  AnyPickle.load_book_cached BOOKS_DIR identity w
  = (r, AnyPickle.set_cache (functools.touch identity r (AnyPickle.cache w)) w).
Proof.
  intros H. unfold AnyPickle.load_book_cached, AnyPickle.lru_cache. rewrite H. reflexivity.
Qed.

Lemma any_load_book_cached_miss (BOOKS_DIR identity : string) (w : AnyPickle.world) :
  functools.lookup identity (AnyPickle.cache w) = None ->
  AnyPickle.load_book_cached BOOKS_DIR identity w
  = (AnyPickle.loadable BOOKS_DIR identity w,
     AnyPickle.set_cache
       (functools.store 10 identity (AnyPickle.loadable BOOKS_DIR identity w)
          (AnyPickle.cache w))
       (snd (AnyPickle.load_book BOOKS_DIR identity w))).
Proof.
  intros H. unfold AnyPickle.load_book_cached, AnyPickle.lru_cache. rewrite H.
  pose proof (any_load_book_result BOOKS_DIR identity w) as Hr.
  pose proof (any_load_book_keeps_cache BOOKS_DIR identity w) as Hc.
  destruct (AnyPickle.load_book BOOKS_DIR identity w) as [r w1]. simpl in *.
  subst r. rewrite Hc. reflexivity.
Qed.

Lemma any_load_book_cached_keeps_fs (BOOKS_DIR identity : string) (w : AnyPickle.world) :
  AnyPickle.fs (snd (AnyPickle.load_book_cached BOOKS_DIR identity w)) = AnyPickle.fs w.
Proof.
  destruct (functools.lookup identity (AnyPickle.cache w)) as [r|] eqn:Hlk.
  - rewrite (any_load_book_cached_hit _ _ _ _ Hlk). reflexivity.
  - rewrite (any_load_book_cached_miss _ _ _ Hlk). simpl. apply any_load_book_keeps_fs.
Qed.

(** What [get] returns, by what the cache and the disk hold. *)
Lemma any_load_book_cached_result (BOOKS_DIR identity : string) (w : AnyPickle.world) :
  fst (AnyPickle.load_book_cached BOOKS_DIR identity w)
  = match functools.lookup identity (AnyPickle.cache w) with
    | Some r => r
    | None => AnyPickle.loadable BOOKS_DIR identity w
    end.
Proof.
  destruct (functools.lookup identity (AnyPickle.cache w)) as [r|] eqn:Hlk.
  - rewrite (any_load_book_cached_hit _ _ _ _ Hlk). reflexivity.
  - rewrite (any_load_book_cached_miss _ _ _ Hlk). reflexivity.
Qed.

(** [read_chapter] by what [get] returns. *)
Lemma any_read_chapter_falsy
    (BOOKS_DIR : string) (request : Request) (book_id : string) (i : Z) (w : AnyPickle.world) :
  AnyPickle.truthy (fst (AnyPickle.load_book_cached BOOKS_DIR book_id w)) = false ->
  fst (AnyPickle.read_chapter BOOKS_DIR request book_id i w)
  = HTTPException 404 "Book not found".
Proof.
  intros H. unfold AnyPickle.read_chapter.
  destruct (AnyPickle.load_book_cached BOOKS_DIR book_id w) as [x w1]. simpl in H.
  rewrite H. reflexivity.
Qed.

Lemma any_read_chapter_book
    (BOOKS_DIR : string) (request : Request) (book_id : string) (i : Z) (w : AnyPickle.world)
    (book : Book) :
  fst (AnyPickle.load_book_cached BOOKS_DIR book_id w) = Some (AnyPickle.BookObject book) ->
  fst (AnyPickle.read_chapter BOOKS_DIR request book_id i w)
  = HTTPException 404 "Chapter not found"
  <-> (i < 0 \/ i >= Z.of_nat (List.length (spine book))).
Proof.
  intros H. unfold AnyPickle.read_chapter.
  destruct (AnyPickle.load_book_cached BOOKS_DIR book_id w) as [x w1]. simpl in H.
  subst x. cbn [AnyPickle.truthy negb].
  destruct (i <? 0) eqn:Hneg.
  - simpl. apply Z.ltb_lt in Hneg. split; [intros _; lia|reflexivity].
  - destruct (i >=? Z.of_nat (List.length (spine book))) eqn:Hge.
    + simpl. rewrite Z.geb_le in Hge. split; [intros _; lia|reflexivity].
    + simpl. apply Z.ltb_ge in Hneg. rewrite Z.geb_leb in Hge. apply Z.leb_gt in Hge.
      destruct (getitem_in_range (spine book) i (conj Hneg Hge)) as [c [Hitem _]].
      rewrite Hitem. simpl. split; [discriminate|lia].
Qed.

(** C3, as the code has it: [read_chapter] answers "Book not found" for every
    index, in range or not, whenever [get] returns [None] or another false
    object: the cache remembers such a result for the identity, even if a
    book is on the disk by now, or the cache holds nothing for it and the
    artifact is missing, does not load or unpickles to such an object.  When
    [get] returns a book, because the cache holds one, even if it has left
    the disk, or because the cache holds nothing and the artifact unpickles
    to one, [read_chapter] answers "Chapter not found" exactly when the index
    is negative or at least the length of the spine. *)
Theorem C3_read_chapter_failure_order
    (BOOKS_DIR : string) (request : Request) (book_id : string) (w : AnyPickle.world) :
  (forall x : option AnyPickle.pyobject,
     functools.lookup book_id (AnyPickle.cache w) = Some x ->
     AnyPickle.truthy x = false ->
     forall i : Z,
       fst (AnyPickle.read_chapter BOOKS_DIR request book_id i w)
       = HTTPException 404 "Book not found")
  /\ (functools.lookup book_id (AnyPickle.cache w) = None ->
      AnyPickle.truthy (AnyPickle.loadable BOOKS_DIR book_id w) = false ->
      forall i : Z,
        fst (AnyPickle.read_chapter BOOKS_DIR request book_id i w)
        = HTTPException 404 "Book not found")
  /\ (forall book : Book,
        functools.lookup book_id (AnyPickle.cache w) = Some (Some (AnyPickle.BookObject book)) ->
        forall i : Z,
          fst (AnyPickle.read_chapter BOOKS_DIR request book_id i w)
          = HTTPException 404 "Chapter not found"
          <-> (i < 0 \/ i >= Z.of_nat (List.length (spine book))))
  /\ (forall book : Book,
        functools.lookup book_id (AnyPickle.cache w) = None ->
        AnyPickle.loadable BOOKS_DIR book_id w = Some (AnyPickle.BookObject book) ->
        forall i : Z,
          fst (AnyPickle.read_chapter BOOKS_DIR request book_id i w)
          = HTTPException 404 "Chapter not found"
          <-> (i < 0 \/ i >= Z.of_nat (List.length (spine book)))).
Proof.
  split; [|split; [|split]].
  - intros x Hlk Hx i. apply any_read_chapter_falsy.
    rewrite any_load_book_cached_result, Hlk. exact Hx.
  - intros Hlk Hdisk i. apply any_read_chapter_falsy.
    rewrite any_load_book_cached_result, Hlk. exact Hdisk.
  - intros book Hlk i. apply any_read_chapter_book.
    rewrite any_load_book_cached_result, Hlk. reflexivity.
  - intros book Hlk Hdisk i. apply any_read_chapter_book.
    rewrite any_load_book_cached_result, Hlk. exact Hdisk.
Qed.

Lemma C3_read_chapter_failure_order_witness :
  (forall i : Z,
     fst (AnyPickle.read_chapter "books" sample_request "late_data" i remembered_world)
     = HTTPException 404 "Book not found")
  /\ (forall i : Z,
        fst (AnyPickle.read_chapter "books" sample_request "broken_data" i
               (AnyPickle.boot mixed_fs))
        = HTTPException 404 "Book not found")
  /\ (forall i : Z,
        fst (AnyPickle.read_chapter "books" sample_request "Sample_data" i cached_world)
        = HTTPException 404 "Chapter not found"
        <-> (i < 0 \/ i >= 3))
  /\ (forall i : Z,
        fst (AnyPickle.read_chapter "books" sample_request "Sample_data" i
               (AnyPickle.boot mixed_fs))
        = HTTPException 404 "Chapter not found"
        <-> (i < 0 \/ i >= 3)).
Proof.
  split; [|split; [|split]].
  - exact (proj1 (C3_read_chapter_failure_order "books" sample_request "late_data"
                    remembered_world) None eq_refl eq_refl).
  - exact (proj1 (proj2 (C3_read_chapter_failure_order "books" sample_request "broken_data"
                           (AnyPickle.boot mixed_fs))) eq_refl eq_refl).
  - exact (proj1 (proj2 (proj2 (C3_read_chapter_failure_order "books" sample_request
                                  "Sample_data" cached_world))) sample_book eq_refl).
  - exact (proj2 (proj2 (proj2 (C3_read_chapter_failure_order "books" sample_request
                                  "Sample_data" (AnyPickle.boot mixed_fs))))
             sample_book eq_refl eq_refl).
Defined.

(** C3 as the spec words it fails twice.  The artifact of [late_data] was
    written after the identity had been asked for: the book is loadable, and
    [read_chapter] answers "Book not found" at index 0, which is in range, and
    at index 5, which is not.  The artifact of [int_data] is a pickle of an
    integer: no book is cached or loadable, and [read_chapter] raises instead
    of answering "Book not found". *)
Lemma C3_loadable_book_is_not_found :
  AnyPickle.loadable "books" "late_data" remembered_world
  = Some (AnyPickle.BookObject sample_book)
  /\ fst (AnyPickle.read_chapter "books" sample_request "late_data" 0 remembered_world)
     = HTTPException 404 "Book not found"
  /\ fst (AnyPickle.read_chapter "books" sample_request "late_data" 5 remembered_world)
     = HTTPException 404 "Book not found"
  /\ functools.lookup "int_data" (AnyPickle.cache (AnyPickle.boot foreign_fs)) = None
  /\ AnyPickle.loadable "books" "int_data" (AnyPickle.boot foreign_fs)
     = Some (AnyPickle.OtherObject "int" true)
  /\ fst (AnyPickle.read_chapter "books" sample_request "int_data" 0
            (AnyPickle.boot foreign_fs))
     = Raised "AttributeError" "'int' object has no attribute 'spine'".
Proof.
  repeat split.
Qed.

(** ** The catalog over any pickle *)

Lemma any_list_books_cons (BOOKS_DIR k : string) (rest : list string) (w : AnyPickle.world) :
  AnyPickle.list_books BOOKS_DIR (k :: rest) w
  = (match fst (AnyPickle.load_book_cached BOOKS_DIR k w) with
     | Some (AnyPickle.BookObject book) =>
         summary k book
           :: fst (AnyPickle.list_books BOOKS_DIR rest
                     (snd (AnyPickle.load_book_cached BOOKS_DIR k w)))
     | _ => fst (AnyPickle.list_books BOOKS_DIR rest
                   (snd (AnyPickle.load_book_cached BOOKS_DIR k w)))
     end,
     snd (AnyPickle.list_books BOOKS_DIR rest
            (snd (AnyPickle.load_book_cached BOOKS_DIR k w)))).
Proof.
  simpl. destruct (AnyPickle.load_book_cached BOOKS_DIR k w) as [found w1]. simpl.
  destruct (AnyPickle.list_books BOOKS_DIR rest w1) as [more w2].
  destruct found as [[book|type_name truth]|]; reflexivity.
Qed.

(** The loop of [library_view], when no candidate resolves to a foreign
    object, appends what the Assembler lists; when one does, it raises. *)
Lemma any_library_loop (BOOKS_DIR : string) (items : list string) :
  forall (books : list BookSummary) (w : AnyPickle.world),
    if AnyPickle.resolve_to_books BOOKS_DIR
         (AnyPickle.list_candidates BOOKS_DIR items (AnyPickle.fs w)) w
    then AnyPickle.library_loop BOOKS_DIR items books w
         = (inr (books ++ fst (AnyPickle.list_books BOOKS_DIR
                                 (AnyPickle.list_candidates BOOKS_DIR items (AnyPickle.fs w))
                                 w))%list,
            snd (AnyPickle.list_books BOOKS_DIR
                   (AnyPickle.list_candidates BOOKS_DIR items (AnyPickle.fs w)) w))
    else exists type_name w',
        AnyPickle.library_loop BOOKS_DIR items books w
        = (inl (AnyPickle.no_attribute type_name "metadata"), w').
Proof.
  induction items as [|item rest IH]; intros books w.
  - simpl. rewrite app_nil_r. reflexivity.
  - unfold AnyPickle.list_candidates.
    cbn [AnyPickle.library_loop filter].
    fold (AnyPickle.list_candidates BOOKS_DIR rest (AnyPickle.fs w)).
    destruct (PyStr.endswith item "_data"
              && AnyPickle.isdir (AnyPickle.fs w) (posixpath.join BOOKS_DIR [item])).
    + rewrite any_list_books_cons. cbn [AnyPickle.resolve_to_books].
      pose proof (any_load_book_cached_keeps_fs BOOKS_DIR item w) as Hfs.
      destruct (AnyPickle.load_book_cached BOOKS_DIR item w) as [found w1].
      cbn [fst snd] in *.
      destruct found as [[book|type_name [|]]|]; cbn [AnyPickle.foreign AnyPickle.truthy negb andb].
      * specialize (IH (books ++ [ {| bs_id := item;
                                      bs_title := title (metadata book);
                                      bs_author := PyStr.join ", " (authors (metadata book));
                                      bs_chapters := Z.of_nat (List.length (spine book)) |} ])%list
                       w1).
        rewrite Hfs in IH.
        destruct (AnyPickle.resolve_to_books BOOKS_DIR
                    (AnyPickle.list_candidates BOOKS_DIR rest (AnyPickle.fs w)) w1).
        -- rewrite IH, <- app_assoc. reflexivity.
        -- exact IH.
      * exists type_name, w1. reflexivity.
      * specialize (IH books w1). rewrite Hfs in IH. exact IH.
      * specialize (IH books w1). rewrite Hfs in IH. exact IH.
    + apply IH.
Qed.




(** ** The catalog by what the root is *)

Lemma any_load_book_cached_cache (BOOKS_DIR identity : string) (w : AnyPickle.world) :
  AnyPickle.cache (snd (AnyPickle.load_book_cached BOOKS_DIR identity w))
  = match functools.lookup identity (AnyPickle.cache w) with
    | Some r => functools.touch identity r (AnyPickle.cache w)
    | None =>
        functools.store 10 identity (AnyPickle.loadable BOOKS_DIR identity w)
          (AnyPickle.cache w)
    end.
Proof.
  destruct (functools.lookup identity (AnyPickle.cache w)) as [r|] eqn:Hlk.
  - rewrite (any_load_book_cached_hit _ _ _ _ Hlk). reflexivity.
  - rewrite (any_load_book_cached_miss _ _ _ Hlk). reflexivity.
Qed.

(** What the cache holds after a [get]: what the [get] returned, for its
    identity; what it held before, for any other. *)
Lemma any_lookup_after_get
    (BOOKS_DIR identity k : string) (x : option AnyPickle.pyobject) (w : AnyPickle.world) :
  functools.lookup k (AnyPickle.cache (snd (AnyPickle.load_book_cached BOOKS_DIR identity w)))
  = Some x ->
  (k = identity /\ x = fst (AnyPickle.load_book_cached BOOKS_DIR identity w))
  \/ functools.lookup k (AnyPickle.cache w) = Some x.
Proof.
  rewrite any_load_book_cached_cache, any_load_book_cached_result.
  destruct (functools.lookup identity (AnyPickle.cache w)) as [r|] eqn:Hlk.
  - unfold functools.touch. cbn [functools.lookup].
    destruct (String.eqb_spec identity k) as [<-|Hne].
    + intros H. injection H as <-. left. split; reflexivity.
    + rewrite lookup_unlink_other by congruence. intros H. right. exact H.
  - unfold functools.store. rewrite Hlk.
    destruct (10 <=? List.length (AnyPickle.cache w))%nat; cbn [functools.lookup];
      destruct (String.eqb_spec identity k) as [<-|Hne];
      try (intros H; injection H as <-; left; split; reflexivity).
    + intros H. right. apply lookup_removelast_Some. exact H.
    + intros H. right. exact H.
Qed.

(** No candidate resolves to a foreign object when neither the cache nor the
    disk holds one for any of them. *)
Lemma any_resolve_when_clean (BOOKS_DIR : string) (candidates : list string) :
  forall w : AnyPickle.world,
    (forall candidate : string,
       In candidate candidates ->
       AnyPickle.foreign (AnyPickle.loadable BOOKS_DIR candidate w) = false
       /\ (forall x, functools.lookup candidate (AnyPickle.cache w) = Some x ->
             AnyPickle.foreign x = false)) ->
    AnyPickle.resolve_to_books BOOKS_DIR candidates w = true.
Proof.
  induction candidates as [|c rest IH]; intros w Hclean; [reflexivity|].
  cbn [AnyPickle.resolve_to_books].
  pose proof (any_load_book_cached_result BOOKS_DIR c w) as Hres.
  pose proof (any_load_book_cached_keeps_fs BOOKS_DIR c w) as Hfs.
  pose proof (fun k x => any_lookup_after_get BOOKS_DIR c k x w) as Hafter.
  destruct (AnyPickle.load_book_cached BOOKS_DIR c w) as [found w1]. cbn [fst snd] in *.
  assert (Hfound : AnyPickle.foreign found = false).
  { destruct (Hclean c (or_introl eq_refl)) as [Hdisk Hcache]. rewrite Hres.
    destruct (functools.lookup c (AnyPickle.cache w)) as [r|]; [apply Hcache; reflexivity|exact Hdisk]. }
  rewrite Hfound. cbn [negb andb]. apply IH. intros candidate Hin.
  destruct (Hclean candidate (or_intror Hin)) as [Hdisk Hcache]. split.
  - unfold AnyPickle.loadable in *. rewrite Hfs. exact Hdisk.
  - intros x Hlk. destruct (Hafter candidate x Hlk) as [[_ ->]|Hold]; [exact Hfound|].
    exact (Hcache x Hold).
Qed.

(** X6: what the catalog handler answers, by what the store root is.  No
    root: an empty page.  A regular file: [NotADirectoryError].  A directory
    the process may not list: [PermissionError].  A directory it can list:
    [AttributeError] when a candidate resolves to an object that is true and
    no book, a page otherwise; and a page it is whenever neither the cache nor
    the disk holds such an object for any candidate, so that missing
    artifacts, artifacts that are directories or do not load, and pickles of
    [None] or of other false objects never break the page. *)
Theorem library_view_outcome_by_root
    (BOOKS_DIR : string) (request : Request) (w : AnyPickle.world) :
  match AnyPickle.fs w BOOKS_DIR with
  | AnyPickle.Absent =>
      AnyPickle.library_view BOOKS_DIR request w = (LibraryPage request [], w)
  | AnyPickle.File _ =>
      AnyPickle.library_view BOOKS_DIR request w
      = (Raised "NotADirectoryError" ("[Errno 20] Not a directory: '" ++ BOOKS_DIR ++ "'"), w)
  | AnyPickle.Dir None =>
      AnyPickle.library_view BOOKS_DIR request w
      = (Raised "PermissionError" ("[Errno 13] Permission denied: '" ++ BOOKS_DIR ++ "'"), w)
  | AnyPickle.Dir (Some children) =>
      (AnyPickle.resolve_to_books BOOKS_DIR
         (AnyPickle.list_candidates BOOKS_DIR children (AnyPickle.fs w)) w = false ->
       exists type_name w',
         AnyPickle.library_view BOOKS_DIR request w
         = (Raised "AttributeError"
              ("'" ++ type_name ++ "' object has no attribute 'metadata'"), w'))
      /\ (AnyPickle.resolve_to_books BOOKS_DIR
            (AnyPickle.list_candidates BOOKS_DIR children (AnyPickle.fs w)) w = true ->
          exists books w',
            AnyPickle.library_view BOOKS_DIR request w = (LibraryPage request books, w'))
      /\ ((forall candidate : string,
             In candidate (AnyPickle.list_candidates BOOKS_DIR children (AnyPickle.fs w)) ->
             AnyPickle.foreign (AnyPickle.loadable BOOKS_DIR candidate w) = false
             /\ (forall x, functools.lookup candidate (AnyPickle.cache w) = Some x ->
                   AnyPickle.foreign x = false)) ->
          exists books w',
            AnyPickle.library_view BOOKS_DIR request w = (LibraryPage request books, w'))
  end.
Proof.
  destruct (AnyPickle.fs w BOOKS_DIR) as [|[children|]|data] eqn:Hroot;
    try (unfold AnyPickle.library_view, AnyPickle.exists_, AnyPickle.listdir;
         rewrite Hroot; reflexivity).
  assert (Hpage :
    AnyPickle.resolve_to_books BOOKS_DIR
      (AnyPickle.list_candidates BOOKS_DIR children (AnyPickle.fs w)) w = true ->
    exists books w',
      AnyPickle.library_view BOOKS_DIR request w = (LibraryPage request books, w')).
  { intros Hbooks. unfold AnyPickle.library_view, AnyPickle.exists_, AnyPickle.listdir.
    rewrite Hroot. pose proof (any_library_loop BOOKS_DIR children [] w) as Hloop.
    rewrite Hbooks in Hloop. rewrite Hloop. eexists _, _. reflexivity. }
  split; [|split].
  - intros Hforeign. unfold AnyPickle.library_view, AnyPickle.exists_, AnyPickle.listdir.
    rewrite Hroot. pose proof (any_library_loop BOOKS_DIR children [] w) as Hloop.
    rewrite Hforeign in Hloop. destruct Hloop as [type_name [w' Hloop]].
    rewrite Hloop. exists type_name, w'. reflexivity.
  - exact Hpage.
  - intros Hclean. apply Hpage. apply any_resolve_when_clean. exact Hclean.
Qed.

Lemma library_view_outcome_by_root_witness :
  AnyPickle.library_view "books" sample_request (AnyPickle.boot bare_fs)
  = (LibraryPage sample_request [], AnyPickle.boot bare_fs)
  /\ AnyPickle.library_view "books/notes.txt" sample_request (AnyPickle.boot mixed_fs)
     = (Raised "NotADirectoryError" "[Errno 20] Not a directory: 'books/notes.txt'",
        AnyPickle.boot mixed_fs)
  /\ AnyPickle.library_view "vault" sample_request (AnyPickle.boot locked_fs)
     = (Raised "PermissionError" "[Errno 13] Permission denied: 'vault'",
        AnyPickle.boot locked_fs)
  /\ (exists type_name w',
        AnyPickle.library_view "books" sample_request (AnyPickle.boot foreign_fs)
        = (Raised "AttributeError"
             ("'" ++ type_name ++ "' object has no attribute 'metadata'"), w'))
  /\ (exists books w',
        AnyPickle.library_view "books" sample_request (AnyPickle.boot mixed_fs)
        = (LibraryPage sample_request books, w')).
Proof.
  split; [|split; [|split; [|split]]].
  - exact (library_view_outcome_by_root "books" sample_request (AnyPickle.boot bare_fs)).
  - exact (library_view_outcome_by_root "books/notes.txt" sample_request
             (AnyPickle.boot mixed_fs)).
  - exact (library_view_outcome_by_root "vault" sample_request (AnyPickle.boot locked_fs)).
  - exact (proj1 (library_view_outcome_by_root "books" sample_request
                    (AnyPickle.boot foreign_fs)) eq_refl).
  - apply (proj2 (proj2 (library_view_outcome_by_root "books" sample_request
                           (AnyPickle.boot mixed_fs)))).
    intros candidate [<-|[<-|[<-|[]]]]; (split; [reflexivity|intros x Hlk; discriminate]).
Defined.

(** ** What the loader prints *)

(** X17: a failure to load is printed once, with the text of its exception.
    A [get] that hits the cache prints nothing.  A [get] that misses prints
    nothing when the artifact path is absent, and nothing when [pickle.load]
    returns an object, whatever it is: the object is the result.  It prints
    one line, "Error loading book", the identity, a colon and the text of the
    exception, and returns [None], when the file does not load, when the path
    is a directory ([Errno 21]) and when it is a directory the process may
    not read ([Errno 13]). *)
Theorem load_failure_is_printed_with_its_text
    (BOOKS_DIR identity : string) (w : AnyPickle.world) :
  (forall r, functools.lookup identity (AnyPickle.cache w) = Some r ->
     AnyPickle.stdout (snd (AnyPickle.load_book_cached BOOKS_DIR identity w))
     = AnyPickle.stdout w)
  /\ (functools.lookup identity (AnyPickle.cache w) = None ->
      match AnyPickle.fs w (posixpath.join BOOKS_DIR [identity; "book.pkl"]) with
      | AnyPickle.Absent =>
          AnyPickle.stdout (snd (AnyPickle.load_book_cached BOOKS_DIR identity w))
          = AnyPickle.stdout w
          /\ fst (AnyPickle.load_book_cached BOOKS_DIR identity w) = None
      | AnyPickle.File (AnyPickle.Pickle x) =>
          AnyPickle.stdout (snd (AnyPickle.load_book_cached BOOKS_DIR identity w))
          = AnyPickle.stdout w
          /\ fst (AnyPickle.load_book_cached BOOKS_DIR identity w) = x
      | AnyPickle.File (AnyPickle.Garbage error) =>
          AnyPickle.stdout (snd (AnyPickle.load_book_cached BOOKS_DIR identity w))
          = ("Error loading book " ++ identity ++ ": " ++ error) :: AnyPickle.stdout w
          /\ fst (AnyPickle.load_book_cached BOOKS_DIR identity w) = None
      | AnyPickle.Dir (Some _) =>
          AnyPickle.stdout (snd (AnyPickle.load_book_cached BOOKS_DIR identity w))
          = ("Error loading book " ++ identity ++ ": [Errno 21] Is a directory: '"
             ++ posixpath.join BOOKS_DIR [identity; "book.pkl"] ++ "'")
              :: AnyPickle.stdout w
          /\ fst (AnyPickle.load_book_cached BOOKS_DIR identity w) = None
      | AnyPickle.Dir None =>
          AnyPickle.stdout (snd (AnyPickle.load_book_cached BOOKS_DIR identity w))
          = ("Error loading book " ++ identity ++ ": [Errno 13] Permission denied: '"
             ++ posixpath.join BOOKS_DIR [identity; "book.pkl"] ++ "'")
              :: AnyPickle.stdout w
          /\ fst (AnyPickle.load_book_cached BOOKS_DIR identity w) = None
      end).
Proof.
  split.
  - intros r Hlk. rewrite (any_load_book_cached_hit _ _ _ _ Hlk). reflexivity.
  - intros Hlk. unfold AnyPickle.load_book_cached, AnyPickle.lru_cache. rewrite Hlk.
    unfold AnyPickle.load_book. cbn [AnyPickle.fs AnyPickle.record_read].
    destruct (AnyPickle.fs w (posixpath.join BOOKS_DIR [identity; "book.pkl"]))
      as [|[children|]|[x|error]];
      split; reflexivity.
Qed.

Lemma load_failure_is_printed_with_its_text_witness :
  (AnyPickle.stdout (snd (AnyPickle.load_book_cached "books" "broken_data"
                            (AnyPickle.boot mixed_fs)))
   = ["Error loading book broken_data: invalid load key, 'j'."]
   /\ fst (AnyPickle.load_book_cached "books" "broken_data" (AnyPickle.boot mixed_fs)) = None)
  /\ AnyPickle.stdout
       (snd (AnyPickle.load_book_cached "books" "broken_data"
               (snd (AnyPickle.load_book_cached "books" "broken_data"
                       (AnyPickle.boot mixed_fs)))))
     = AnyPickle.stdout (snd (AnyPickle.load_book_cached "books" "broken_data"
                                (AnyPickle.boot mixed_fs)))
  /\ (AnyPickle.stdout (snd (AnyPickle.load_book_cached "books" "none_data"
                               (AnyPickle.boot mixed_fs))) = []
      /\ fst (AnyPickle.load_book_cached "books" "none_data" (AnyPickle.boot mixed_fs)) = None)
  /\ (AnyPickle.stdout (snd (AnyPickle.load_book_cached "books" "int_data"
                               (AnyPickle.boot foreign_fs))) = []
      /\ fst (AnyPickle.load_book_cached "books" "int_data" (AnyPickle.boot foreign_fs))
         = Some (AnyPickle.OtherObject "int" true)).
Proof.
  split; [|split; [|split]].
  - exact (proj2 (load_failure_is_printed_with_its_text "books" "broken_data"
                    (AnyPickle.boot mixed_fs)) eq_refl).
  - exact (proj1 (load_failure_is_printed_with_its_text "books" "broken_data"
                    (snd (AnyPickle.load_book_cached "books" "broken_data"
                            (AnyPickle.boot mixed_fs))))
             None eq_refl).
  - exact (proj2 (load_failure_is_printed_with_its_text "books" "none_data"
                    (AnyPickle.boot mixed_fs)) eq_refl).
  - exact (proj2 (load_failure_is_printed_with_its_text "books" "int_data"
                    (AnyPickle.boot foreign_fs)) eq_refl).
Defined.

(** ** The links of the reader page, requests later *)

Lemma get_all_on_reachable (BOOKS_DIR : string) (steps : list (filesystem * string)) :
  forall w, reachable BOOKS_DIR w -> reachable BOOKS_DIR (get_all_on BOOKS_DIR steps w).
Proof.
  induction steps as [|[f identity] rest IH]; intros w Hw; simpl.
  - exact Hw.
  - apply IH. apply reach_get. apply reach_disk. exact Hw.
Qed.

Lemma get_all_on_keeps_entry
    (BOOKS_DIR k : string) (v : option Book) (steps : list (filesystem * string)) :
  forall (n : nat) (w : world),
    ~ In k (map snd steps) -> (n + List.length steps <= 9)%nat ->
    (exists F R, cache w = (F ++ (k, v) :: R)%list /\ (List.length F <= n)%nat) ->
    exists F R,
      cache (get_all_on BOOKS_DIR steps w) = (F ++ (k, v) :: R)%list
      /\ (List.length F <= n + List.length steps)%nat.
Proof.
  induction steps as [|[f other] rest IH]; intros n w Hout Hlen Hentry; simpl in *.
  - destruct Hentry as [F [R [Hc HF]]]. exists F, R. split; [exact Hc|lia].
  - destruct (IH (S n) (snd (load_book_cached BOOKS_DIR other (set_fs f w))))
      as [F [R [Hc HF]]].
    + intros Hin. apply Hout. right. exact Hin.
    + lia.
    + apply load_book_cached_keeps_entry; [|lia|exact Hentry].
      intros Heq. apply Hout. left. exact Heq.
    + exists F, R. split; [exact Hc|lia].
Qed.

(** What a [get] returned is still what the cache holds for the identity
    after [get]s for up to nine other identities, whatever happens to the
    disk before each of them. *)
Lemma result_stays_cached_on
    (BOOKS_DIR k : string) (steps : list (filesystem * string)) (w : world) :
  reachable BOOKS_DIR w ->
  ~ In k (map snd steps) -> (List.length steps <= 9)%nat ->
  functools.lookup k
    (cache (get_all_on BOOKS_DIR steps (snd (load_book_cached BOOKS_DIR k w))))
  = Some (fst (load_book_cached BOOKS_DIR k w)).
Proof.
  intros Hw Hout Hlen.
  set (r := fst (load_book_cached BOOKS_DIR k w)).
  set (w1 := snd (load_book_cached BOOKS_DIR k w)).
  assert (Hhead : exists F R, cache w1 = (F ++ (k, r) :: R)%list /\ (List.length F <= 0)%nat).
  { subst w1 r. rewrite load_book_cached_cache.
    destruct (functools.lookup k (cache w)) as [r0|] eqn:Hlk.
    - rewrite (load_book_cached_hit _ _ _ _ Hlk).
      exists [], (functools.unlink k (cache w)). split; [reflexivity|simpl; lia].
    - rewrite (load_book_cached_miss _ _ _ Hlk). unfold functools.store. rewrite Hlk.
      destruct (maxsize <=? List.length (cache w))%nat;
        eexists [], _; (split; [reflexivity|simpl; lia]). }
  destruct (get_all_on_keeps_entry BOOKS_DIR k r steps 0 w1 Hout Hlen Hhead)
    as [F [R [Hc _]]].
  rewrite Hc. apply lookup_middle. rewrite <- Hc.
  apply (reachable_wf BOOKS_DIR).
  apply get_all_on_reachable. apply reach_get. exact Hw.
Qed.

(** [read_chapter] for an identity the cache holds nothing for and whose
    artifact does not load. *)
Lemma read_chapter_absent
    (BOOKS_DIR : string) (request : Request) (book_id : string) (j : Z) (w : world) :
  functools.lookup book_id (cache w) = None ->
  loadable_book BOOKS_DIR book_id w = None ->
  fst (read_chapter BOOKS_DIR request book_id j w) = HTTPException 404 "Book not found".
Proof.
  intros Hlk Hdisk. unfold read_chapter.
  rewrite (load_book_cached_miss _ _ _ Hlk), Hdisk. reflexivity.
Qed.

(** After [get]s for ten or more distinct identities, an identity that was
    at the front of the queue is out of the cache. *)
Lemma evicted_after_ten_gets (BOOKS_DIR k : string) (others : list string) (w : world) :
  reachable BOOKS_DIR w -> behind k [] w ->
  NoDup others -> ~ In k others -> (10 <= List.length others)%nat ->
  functools.lookup k (cache (get_all BOOKS_DIR others w)) = None.
Proof.
  intros Hw Hb Hnd Hout Hlen.
  destruct (get_all_pushes_back BOOKS_DIR k others [] w Hw Hnd Hout (fun _ _ Hin => Hin) Hb)
    as [Hnone|[F [v [R [Hcache Hfront]]]]]; [exact Hnone|].
  exfalso.
  pose proof (reachable_wf BOOKS_DIR _ (get_all_reachable BOOKS_DIR others _ Hw))
    as [_ Hbound].
  rewrite Hcache, length_app in Hbound. simpl in Hbound.
  assert (HF : List.length F = List.length others).
  { rewrite <- (length_map fst F), Hfront, app_nil_r, length_rev. reflexivity. }
  unfold maxsize in Hbound. lia.
Qed.

Lemma sample_and_ten_distinct : NoDup ("Sample_data" :: ten_more_ids).
Proof.
  unfold ten_more_ids.
  repeat (constructor; [simpl; intuition discriminate|]). constructor.
Qed.

(** X10: the links of a rendered reader page lead to pages for as long as the
    book stays in the cache, and no longer.  Once chapter [i] of a book has
    been rendered, let the disk change at will and up to nine other
    identities be looked up: a request for the index the next link names
    then renders chapter [i + 1] of the same book, whose previous link names
    [i], and the previous link leads to chapter [i - 1], whose next link
    names [i].  But when the artifact has left the disk, the same request
    answers "Book not found" once the cache has been cleared, as an upload
    does, or once ten other identities have been looked up. *)
Theorem reader_links_hold_while_book_is_cached
    (BOOKS_DIR : string) (request request' : Request) (book_id : string) (i : Z)
    (w w1 : world) (context : ReaderContext)
    (steps : list (filesystem * string)) (others : list string) (f : filesystem) :
  reachable BOOKS_DIR w ->
  read_chapter BOOKS_DIR request book_id i w = (ReaderPage context, w1) ->
  ~ In book_id (map snd steps) ->
  (List.length steps <= 9)%nat ->
  NoDup (book_id :: others) ->
  (10 <= List.length others)%nat ->
  (forall j : Z,
     rc_next_idx context = Some j ->
     exists context',
       fst (read_chapter BOOKS_DIR request' book_id j
              (set_fs f (get_all_on BOOKS_DIR steps w1)))
       = ReaderPage context'
       /\ rc_book context' = rc_book context
       /\ rc_chapter_index context' = i + 1
       /\ rc_prev_idx context' = Some i)
  /\ (forall j : Z,
        rc_prev_idx context = Some j ->
        exists context',
          fst (read_chapter BOOKS_DIR request' book_id j
                 (set_fs f (get_all_on BOOKS_DIR steps w1)))
          = ReaderPage context'
          /\ rc_book context' = rc_book context
          /\ rc_chapter_index context' = i - 1
          /\ rc_next_idx context' = Some i)
  /\ (loadable_book BOOKS_DIR book_id (set_fs f w1) = None ->
      forall j : Z,
        fst (read_chapter BOOKS_DIR request' book_id j (cache_clear (set_fs f w1)))
        = HTTPException 404 "Book not found")
  /\ (loadable_book BOOKS_DIR book_id (set_fs f w1) = None ->
      forall j : Z,
        fst (read_chapter BOOKS_DIR request' book_id j
               (get_all BOOKS_DIR others (set_fs f w1)))
        = HTTPException 404 "Book not found").
Proof.
  intros Hw Hpage Hout Hlen Hnd Hten.
  destruct (read_chapter_page_inv _ _ _ _ _ _ _ Hpage) as [Hget [Hi [Hprev Hnext]]].
  set (book := rc_book context) in *.
  set (w2 := set_fs f (get_all_on BOOKS_DIR steps w1)).
  assert (Hhit : load_book_cached BOOKS_DIR book_id w2
                 = (Some book,
                    set_cache (functools.touch book_id (Some book) (cache w2)) w2)).
  { apply (load_book_cached_hit BOOKS_DIR book_id w2 (Some book)). subst w2. simpl.
    pose proof (result_stays_cached_on BOOKS_DIR book_id steps w Hw Hout Hlen) as Hst.
    rewrite Hget in Hst. exact Hst. }
  assert (Hw1 : reachable BOOKS_DIR w1).
  { pose proof (reach_get BOOKS_DIR book_id w Hw) as H. rewrite Hget in H. exact H. }
  assert (Hb : behind book_id [] (set_fs f w1)).
  { right. pose proof (load_book_cached_cache BOOKS_DIR book_id w) as Hc.
    rewrite Hget in Hc. cbn [snd] in Hc. cbn [cache set_fs]. rewrite Hc.
    destruct (functools.lookup book_id (cache w)) as [r|] eqn:Hlk.
    - exists [], r, (functools.unlink book_id (cache w)). split; reflexivity.
    - unfold functools.store. rewrite Hlk.
      destruct (maxsize <=? List.length (cache w))%nat;
        eexists [], _, _; split; reflexivity. }
  split; [|split; [|split]].
  - intros j Hj. rewrite Hnext in Hj.
    destruct (i <? Z.of_nat (List.length (spine book)) - 1) eqn:Hlt; [|discriminate].
    injection Hj as <-. apply Z.ltb_lt in Hlt.
    destruct (read_chapter_found BOOKS_DIR request' book_id (i + 1) _ _ book Hhit)
      as [chapter [_ Hread]]; [lia|].
    rewrite Hread. eexists. split; [reflexivity|]. simpl.
    repeat split.
    destruct (i + 1 >? 0) eqn:Hpos; [f_equal; lia|].
    rewrite Z.gtb_ltb in Hpos. apply Z.ltb_ge in Hpos. lia.
  - intros j Hj. rewrite Hprev in Hj.
    destruct (i >? 0) eqn:Hpos; [|discriminate].
    injection Hj as <-. rewrite Z.gtb_ltb in Hpos. apply Z.ltb_lt in Hpos.
    destruct (read_chapter_found BOOKS_DIR request' book_id (i - 1) _ _ book Hhit)
      as [chapter [_ Hread]]; [lia|].
    rewrite Hread. eexists. split; [reflexivity|]. simpl.
    repeat split.
    destruct (i - 1 <? Z.of_nat (List.length (spine book)) - 1) eqn:Hlt; [f_equal; lia|].
    apply Z.ltb_ge in Hlt. lia.
  - intros Hgone j. apply read_chapter_absent; [reflexivity|exact Hgone].
  - intros Hgone j. inversion Hnd as [|x l Hfresh Hnd']; subst.
    apply read_chapter_absent.
    + apply evicted_after_ten_gets; [|exact Hb|exact Hnd'|exact Hfresh|exact Hten].
      apply reach_disk. exact Hw1.
    + rewrite <- Hgone. apply loadable_book_by_fs. apply get_all_keeps_fs.
Qed.

Lemma reader_links_hold_while_book_is_cached_witness :
  (exists context',
     fst (read_chapter "books" sample_request "Sample_data" 2
            (set_fs empty_fs
               (get_all_on "books" [(empty_fs, "a_data"); (sample_fs, "broken_data")]
                  (snd (read_chapter "books" sample_request "Sample_data" 1
                          (boot sample_fs))))))
     = ReaderPage context'
     /\ rc_book context' = sample_book
     /\ rc_chapter_index context' = 1 + 1
     /\ rc_prev_idx context' = Some 1)
  /\ (exists context',
        fst (read_chapter "books" sample_request "Sample_data" 0
               (set_fs empty_fs
                  (get_all_on "books" [(empty_fs, "a_data"); (sample_fs, "broken_data")]
                     (snd (read_chapter "books" sample_request "Sample_data" 1
                             (boot sample_fs))))))
        = ReaderPage context'
        /\ rc_book context' = sample_book
        /\ rc_chapter_index context' = 1 - 1
        /\ rc_next_idx context' = Some 1)
  /\ (forall j : Z,
        fst (read_chapter "books" sample_request "Sample_data" j
               (cache_clear
                  (set_fs empty_fs
                     (snd (read_chapter "books" sample_request "Sample_data" 1
                             (boot sample_fs))))))
        = HTTPException 404 "Book not found")
  /\ (forall j : Z,
        fst (read_chapter "books" sample_request "Sample_data" j
               (get_all "books" ten_more_ids
                  (set_fs empty_fs
                     (snd (read_chapter "books" sample_request "Sample_data" 1
                             (boot sample_fs))))))
        = HTTPException 404 "Book not found").
Proof.
  assert (Hsteps : ~ In "Sample_data"
                       (map snd [(empty_fs, "a_data"); (sample_fs, "broken_data")])).
  { simpl. intuition discriminate. }
  assert (Hlen : (List.length [(empty_fs, "a_data"); (sample_fs, "broken_data")] <= 9)%nat).
  { simpl. lia. }
  assert (Hten : (10 <= List.length ten_more_ids)%nat).
  { simpl. lia. }
  pose proof (reader_links_hold_while_book_is_cached "books" sample_request sample_request
                "Sample_data" 1 (boot sample_fs) _ _
                [(empty_fs, "a_data"); (sample_fs, "broken_data")] ten_more_ids empty_fs
                (reach_boot "books" sample_fs) eq_refl Hsteps Hlen
                sample_and_ten_distinct Hten)
    as [Hnext [Hprev [Hclear Hevict]]].
  split; [|split; [|split]].
  - exact (Hnext 2 eq_refl).
  - exact (Hprev 0 eq_refl).
  - exact (Hclear eq_refl).
  - exact (Hevict eq_refl).
Defined.

(** ** A store of books among the stores of any pickle

    Over a store whose artifacts are pickled books or files that do not load,
    and whose directories can all be listed, the loader and the handlers of
    [AnyPickle] answer what those of the first model answer. *)

Lemma lift_lookup (k : string) (c : list (string * option Book)) :
  functools.lookup k (lift_cache c) = option_map lift_result (functools.lookup k c).
Proof.
  induction c as [|[k0 v0] c IH]; simpl; [reflexivity|].
  destruct (String.eqb k0 k); [reflexivity|exact IH].
Qed.

Lemma lift_unlink (k : string) (c : list (string * option Book)) :
  functools.unlink k (lift_cache c) = lift_cache (functools.unlink k c).
Proof.
  induction c as [|[k0 v0] c IH]; simpl; [reflexivity|].
  destruct (String.eqb k0 k); simpl; rewrite IH; reflexivity.
Qed.

Lemma lift_removelast (c : list (string * option Book)) :
  removelast (lift_cache c) = lift_cache (removelast c).
Proof.
  induction c as [|e c IH]; [reflexivity|].
  destruct c as [|e' c]; [reflexivity|].
  change (removelast (e :: e' :: c)) with (e :: removelast (e' :: c)).
  change (lift_cache (e :: removelast (e' :: c)))
    with ((fst e, lift_result (snd e)) :: lift_cache (removelast (e' :: c))).
  rewrite <- IH. reflexivity.
Qed.

Lemma lift_store (n : nat) (k : string) (r : option Book) (c : list (string * option Book)) :
  functools.store n k (lift_result r) (lift_cache c) = lift_cache (functools.store n k r c).
Proof.
  unfold functools.store. rewrite lift_lookup.
  destruct (functools.lookup k c); simpl; [reflexivity|].
  unfold lift_cache at 1. rewrite length_map.
  destruct (n <=? List.length c)%nat; simpl; [rewrite lift_removelast|]; reflexivity.
Qed.

Lemma lift_load_book (BOOKS_DIR identity : string) (w : world) :
  AnyPickle.load_book BOOKS_DIR identity (lift_world w)
  = (lift_result (fst (load_book BOOKS_DIR identity w)),
     lift_world (snd (load_book BOOKS_DIR identity w))).
Proof.
  unfold AnyPickle.load_book, load_book.
  set (file_path := posixpath.join BOOKS_DIR [identity; "book.pkl"]).
  cbn [AnyPickle.fs AnyPickle.record_read lift_world fs record_read].
  destruct (fs w file_path) as [|children|[book|content]]; reflexivity.
Qed.

Lemma lift_load_book_cached (BOOKS_DIR identity : string) (w : world) :
  AnyPickle.load_book_cached BOOKS_DIR identity (lift_world w)
  = (lift_result (fst (load_book_cached BOOKS_DIR identity w)),
     lift_world (snd (load_book_cached BOOKS_DIR identity w))).
Proof.
  unfold AnyPickle.load_book_cached, AnyPickle.lru_cache, load_book_cached, lru_cache.
  change (AnyPickle.cache (lift_world w)) with (lift_cache (cache w)).
  rewrite lift_lookup.
  destruct (functools.lookup identity (cache w)) as [r|]; simpl.
  - unfold functools.touch. rewrite lift_unlink. reflexivity.
  - rewrite lift_load_book.
    pose proof (load_book_keeps_cache BOOKS_DIR identity w) as Hc.
    destruct (load_book BOOKS_DIR identity w) as [r w1]. simpl in *.
    unfold AnyPickle.set_cache, lift_world. simpl. rewrite lift_store. reflexivity.
Qed.

Lemma lift_library_loop (BOOKS_DIR : string) (items : list string) :
  forall (books : list BookSummary) (w : world),
    AnyPickle.library_loop BOOKS_DIR items books (lift_world w)
    = (inr (fst (library_loop BOOKS_DIR items books w)),
       lift_world (snd (library_loop BOOKS_DIR items books w))).
Proof.
  induction items as [|item rest IH]; intros books w; [reflexivity|].
  cbn [AnyPickle.library_loop library_loop].
  replace (AnyPickle.isdir (AnyPickle.fs (lift_world w)) (posixpath.join BOOKS_DIR [item]))
    with (os.isdir (fs w) (posixpath.join BOOKS_DIR [item])).
  2:{ unfold AnyPickle.isdir, os.isdir.
      set (full_path := posixpath.join BOOKS_DIR [item]).
      cbn [AnyPickle.fs lift_world].
      destruct (fs w full_path) as [|children|[book|content]]; reflexivity. }
  destruct (PyStr.endswith item "_data" && os.isdir (fs w) (posixpath.join BOOKS_DIR [item])).
  - rewrite lift_load_book_cached.
    destruct (load_book_cached BOOKS_DIR item w) as [[book|] w1]; cbn [fst snd lift_result option_map AnyPickle.truthy].
    + apply IH.
    + apply IH.
  - apply IH.
Qed.

Lemma lift_library_view (BOOKS_DIR : string) (request : Request) (w : world) :
  AnyPickle.library_view BOOKS_DIR request (lift_world w)
  = (fst (library_view BOOKS_DIR request w),
     lift_world (snd (library_view BOOKS_DIR request w))).
Proof.
  unfold AnyPickle.library_view, library_view, AnyPickle.exists_, os.exists_,
    AnyPickle.listdir, os.listdir.
  change (AnyPickle.fs (lift_world w) BOOKS_DIR) with (lift_node (fs w BOOKS_DIR)).
  destruct (fs w BOOKS_DIR) as [|children|[book|content]]; try reflexivity.
  cbn [lift_node]. rewrite lift_library_loop.
  destruct (library_loop BOOKS_DIR children [] w) as [books w1]. reflexivity.
Qed.

Lemma lift_read_chapter
    (BOOKS_DIR : string) (request : Request) (book_id : string) (i : Z) (w : world) :
  AnyPickle.read_chapter BOOKS_DIR request book_id i (lift_world w)
  = (fst (read_chapter BOOKS_DIR request book_id i w),
     lift_world (snd (read_chapter BOOKS_DIR request book_id i w))).
Proof.
  unfold AnyPickle.read_chapter, read_chapter. rewrite lift_load_book_cached.
  destruct (load_book_cached BOOKS_DIR book_id w) as [[book|] w1];
    cbn [fst snd lift_result option_map AnyPickle.truthy negb]; [|reflexivity].
  destruct ((i <? 0) || (i >=? Z.of_nat (List.length (spine book)))); [reflexivity|].
  destruct (getitem (spine book) i); reflexivity.
Qed.
